(** * Intent interpretation pipeline of the Domain Pack backend

    A shallow embedding of [backend/services/llm_service.py],
    [backend/schemas/intention.py] and [backend/api/routes/intent.py]:
    the tolerant extraction of a JSON value from the text of a language
    model, the normalizer, the retry policy of the providers, the
    validation against [IntentionSchema] and the classification of
    failures by the [/intent] endpoint.

    Naming.  The prose specification renames some fields of the code:
    its [kind] is the key ["type"] of an entity, its [summary] is
    ["intent_summary"] and its [target_identifier] is ["domain_pack_id"].
    The development keeps the names of the code. *)

From Stdlib Require Import ZArith String Ascii List Bool Floats Sorted Lia.
Import ListNotations.

Local Open Scope string_scope.
Local Open Scope Z_scope.

(** ** Python strings

    Text is a sequence of 8-bit characters (code points below 256);
    indices are Python integers, [-1] being the "not found" answer of
    [str.find] and a legal (negative) slice bound. *)

Module PyStr.

Definition len (s : string) : Z := Z.of_nat (String.length s).

Fixpoint drop (n : nat) (s : string) : string :=
  match n, s with
  | O, _ => s
  | S _, EmptyString => EmptyString
  | S n', String _ s' => drop n' s'
  end.

Fixpoint take (n : nat) (s : string) : string :=
  match n, s with
  | O, _ => EmptyString
  | S _, EmptyString => EmptyString
  | S n', String c s' => String c (take n' s')
  end.

(** A slice bound as [PySlice_AdjustIndices] clips it (step 1). *)
Definition adjust (n i : Z) : Z :=
  if i <? 0 then Z.max 0 (i + n) else Z.min i n.

(** [s[start:stop]] *)
Definition slice (s : string) (start stop : Z) : string :=
  let a := adjust (len s) start in
  let b := adjust (len s) stop in
  take (Z.to_nat (b - a)) (drop (Z.to_nat a) s).

(** Lowest position, counted from [pos], at which [sub] starts. *)
Fixpoint find_aux (sub s : string) (pos : Z) : Z :=
  if prefix sub s then pos
  else match s with
       | EmptyString => -1
       | String _ s' => find_aux sub s' (pos + 1)
       end.

(** [s.find(sub, start)] *)
Definition find_from (s sub : string) (start : Z) : Z :=
  let a := if start <? 0 then Z.max 0 (start + len s) else start in
  if a >? len s then -1 else find_aux sub (drop (Z.to_nat a) s) a.

(** [s.find(sub)] *)
Definition find (s sub : string) : Z := find_from s sub 0.

(** Highest position at which [sub] starts, [best] if there is none. *)
Fixpoint rfind_aux (sub s : string) (pos best : Z) : Z :=
  let best' := if prefix sub s then pos else best in
  match s with
  | EmptyString => best'
  | String _ s' => rfind_aux sub s' (pos + 1) best'
  end.

(** [s.rfind(sub)] *)
Definition rfind (s sub : string) : Z := rfind_aux sub s 0 (-1).

(** [sub in s] *)
Definition contains (s sub : string) : bool := negb (find s sub =? -1).

(** [str.isspace] on one character below U+0100. *)
Definition isspace (c : ascii) : bool :=
  let n := N_of_ascii c in
  (((9 <=? n) && (n <=? 13)) || ((28 <=? n) && (n <=? 32))
   || (n =? 133) || (n =? 160))%N.

Fixpoint lstrip (s : string) : string :=
  match s with
  | EmptyString => EmptyString
  | String c s' => if isspace c then lstrip s' else s
  end.

Fixpoint rstrip (s : string) : string :=
  match s with
  | EmptyString => EmptyString
  | String c s' =>
      match rstrip s' with
      | EmptyString => if isspace c then EmptyString else String c EmptyString
      | r => String c r
      end
  end.

(** [s.strip()] *)
Definition strip (s : string) : string := rstrip (lstrip s).

Definition lower_char (c : ascii) : ascii :=
  let n := N_of_ascii c in
  if (((65 <=? n) && (n <=? 90))
      || ((192 <=? n) && (n <=? 222) && negb (n =? 215)))%N
  then ascii_of_N (n + 32) else c.

(** [s.lower()] *)
Fixpoint lower (s : string) : string :=
  match s with
  | EmptyString => EmptyString
  | String c s' => String (lower_char c) (lower s')
  end.

(** Writing JSON texts inside Rocq strings: every apostrophe of [s]
    stands for a double quote. *)
Fixpoint dq (s : string) : string :=
  match s with
  | EmptyString => EmptyString
  | String c s' =>
      String (if Ascii.eqb c "'"%char then "034"%char else c) (dq s')
  end.

End PyStr.

(** ** Python values as [json.loads] builds them *)

#[local] Unset Elimination Schemes.

Inductive json : Type :=
| JNull
| JBool (b : bool)
| JInt (z : Z)
| JFloat (f : float)
| JStr (s : string)
| JList (l : list json)
| JDict (d : list (string * json)).

#[local] Set Elimination Schemes.

(** A [dict] keeps its keys in insertion order. *)
Definition dict : Type := list (string * json).

Module Dict.

(** [d.get(k)], [None] when [k not in d]. *)
Fixpoint get {A : Type} (k : string) (d : list (string * A)) : option A :=
  match d with
  | [] => None
  | (k', v) :: d' => if String.eqb k k' then Some v else get k d'
  end.

(** [k in d] *)
Definition mem {A : Type} (k : string) (d : list (string * A)) : bool :=
  match get k d with Some _ => true | None => false end.

(** [d[k] = v]: the value is replaced where the key stands, a new key
    goes to the end. *)
Fixpoint set {A : Type} (k : string) (v : A) (d : list (string * A))
  : list (string * A) :=
  match d with
  | [] => [(k, v)]
  | (k', v') :: d' =>
      if String.eqb k k' then (k, v) :: d' else (k', v') :: set k v d'
  end.

End Dict.

(** ** A reader for JSON texts

    [json.loads] belongs to Python's library; the pipeline below takes it
    as a parameter.  [JsonText.loads] is a reader for the grammar of
    [json.decoder] (objects, arrays, strings with escapes, integers,
    correctly rounded binary64 numbers, the three constants and the
    non-standard [NaN] and [Infinity]) used to run the pipeline on
    concrete texts.  [None] is a [JSONDecodeError].  An escape that
    denotes a code point above U+00FF lies outside the 8-bit text model
    and is not read. *)

Module JsonText.

Definition is_ws (c : ascii) : bool :=
  let n := N_of_ascii c in ((n =? 32) || (n =? 9) || (n =? 10) || (n =? 13))%N.

Fixpoint skip_ws (s : string) : string :=
  match s with
  | String c s' => if is_ws c then skip_ws s' else s
  | EmptyString => EmptyString
  end.

Definition digit (c : ascii) : option Z :=
  let n := Z.of_N (N_of_ascii c) in
  if (48 <=? n) && (n <=? 57) then Some (n - 48) else None.

Definition hexdigit (c : ascii) : option Z :=
  let n := Z.of_N (N_of_ascii c) in
  if (48 <=? n) && (n <=? 57) then Some (n - 48)
  else if (65 <=? n) && (n <=? 70) then Some (n - 55)
  else if (97 <=? n) && (n <=? 102) then Some (n - 87)
  else None.

(** The longest run of digits at the head of [s]: its value on top of
    [acc], how many there are, and the rest. *)
Fixpoint digits (s : string) (acc : Z) (n : Z) : Z * Z * string :=
  match s with
  | String c s' =>
      match digit c with
      | Some d => digits s' (10 * acc + d) (n + 1)
      | None => (acc, n, s)
      end
  | EmptyString => (acc, n, s)
  end.

(** [float] of the decimal [(-1)^neg * m * 10^e10], rounded to the
    nearest binary64, ties to even.  For a negative exponent the
    quotient is computed with 64 or more significant bits and a sticky
    last bit before rounding. *)
Definition float_of_decimal (neg : bool) (m e10 : Z) : float :=
  let sgn (z : Z) := if neg then - z else z in
  if m =? 0 then (if neg then (-0)%float else 0%float)
  else if 0 <=? e10 then
    if 400 <? e10 then (if neg then neg_infinity else infinity)
    else SF2Prim (binary_normalize prec emax (sgn (m * 10 ^ e10)) 0 false)
  else
    let den := 10 ^ (- e10) in
    let s := Z.max 0 (64 + Z.log2 den + 1 - Z.log2 m) in
    let num := m * 2 ^ s in
    let q := num / den in
    let sticky := if num mod den =? 0 then 0 else 1 in
    SF2Prim (binary_normalize prec emax (sgn (2 * q + sticky)) (- (s + 1)) false).

(** [NUMBER_RE] matched at the head of [s]: an optional minus sign, a
    zero or a run of digits that does not start with zero, then, each
    optional, a dot with one digit or more and an exponent mark with an
    optional sign and one digit or more.  With a fraction or an exponent
    the literal is a [float], else an [int]. *)
Definition number (s : string) : option (json * string) :=
  let (neg, s1) := match s with
                   | String "-" r => (true, r)
                   | _ => (false, s)
                   end in
  let int_part :=
    match s1 with
    | String "0" r => Some (0, r)
    | _ => let '(v, n, r) := digits s1 0 0 in
           if n =? 0 then None else Some (v, r)
    end in
  match int_part with
  | None => None
  | Some (iv, s2) =>
      let '(m, fn, s3, has_frac) :=
        match s2 with
        | String "." r =>
            let '(v, n, r') := digits r iv 0 in
            if n =? 0 then (iv, 0, s2, false) else (v, n, r', true)
        | _ => (iv, 0, s2, false)
        end in
      let '(ex, s4, has_exp) :=
        match s3 with
        | String c r =>
            if (Ascii.eqb c "e" || Ascii.eqb c "E")%bool then
              let '(eneg, r1) :=
                match r with
                | String "-" r' => (true, r')
                | String "+" r' => (false, r')
                | _ => (false, r)
                end in
              let '(v, n, r2) := digits r1 0 0 in
              if n =? 0 then (0, s3, false)
              else ((if eneg then - v else v), r2, true)
            else (0, s3, false)
        | EmptyString => (0, s3, false)
        end in
      if (has_frac || has_exp)%bool
      then Some (JFloat (float_of_decimal neg m (ex - fn)), s4)
      else Some (JInt (if neg then - iv else iv), s4)
  end.

(** Body of a string after its opening quote ([scanstring], strict). *)
Fixpoint chars (s : string) : option (string * string) :=
  match s with
  | EmptyString => None
  | String c r =>
      if Ascii.eqb c "034" then Some (EmptyString, r)
      else if Ascii.eqb c "\" then
        match r with
        | String e r' =>
            let simple (x : ascii) :=
              match chars r' with
              | Some (t, rest) => Some (String x t, rest)
              | None => None
              end in
            if Ascii.eqb e "034" then simple "034"%char
            else if Ascii.eqb e "\" then simple "\"%char
            else if Ascii.eqb e "/" then simple "/"%char
            else if Ascii.eqb e "b" then simple "008"%char
            else if Ascii.eqb e "f" then simple "012"%char
            else if Ascii.eqb e "n" then simple "010"%char
            else if Ascii.eqb e "r" then simple "013"%char
            else if Ascii.eqb e "t" then simple "009"%char
            else if Ascii.eqb e "u" then
              match r' with
              | String h1 (String h2 (String h3 (String h4 r''))) =>
                  match hexdigit h1, hexdigit h2, hexdigit h3, hexdigit h4 with
                  | Some a, Some b, Some c', Some d =>
                      let cp := ((a * 16 + b) * 16 + c') * 16 + d in
                      if cp <? 256 then
                        match chars r'' with
                        | Some (t, rest) =>
                            Some (String (ascii_of_N (Z.to_N cp)) t, rest)
                        | None => None
                        end
                      else None
                  | _, _, _, _ => None
                  end
              | _ => None
              end
            else None
        | EmptyString => None
        end
      else if (N_of_ascii c <? 32)%N then None
      else match chars r with
           | Some (t, rest) => Some (String c t, rest)
           | None => None
           end
  end.

(** [scan_once] at the head of [s], and the members of an array or of
    an object after the first one has been announced.  [fuel] bounds the
    depth of the calls; [loads] starts with twice the length of the text
    plus two. *)
Fixpoint value (fuel : nat) (s : string) : option (json * string) :=
  match fuel with
  | O => None
  | S fuel' =>
      match s with
      | String "034" r =>
          match chars r with
          | Some (t, rest) => Some (JStr t, rest)
          | None => None
          end
      | String "{" r =>
          match skip_ws r with
          | String "}" rest => Some (JDict [], rest)
          | r' =>
              match members fuel' r' [] with
              | Some (d, rest) => Some (JDict d, rest)
              | None => None
              end
          end
      | String "[" r =>
          match skip_ws r with
          | String "]" rest => Some (JList [], rest)
          | r' =>
              match elements fuel' r' with
              | Some (l, rest) => Some (JList l, rest)
              | None => None
              end
          end
      | _ =>
          if prefix "null" s then Some (JNull, PyStr.drop 4 s)
          else if prefix "true" s then Some (JBool true, PyStr.drop 4 s)
          else if prefix "false" s then Some (JBool false, PyStr.drop 5 s)
          else match number s with
               | Some r => Some r
               | None =>
                   if prefix "NaN" s then Some (JFloat nan, PyStr.drop 3 s)
                   else if prefix "Infinity" s
                        then Some (JFloat infinity, PyStr.drop 8 s)
                   else if prefix "-Infinity" s
                        then Some (JFloat neg_infinity, PyStr.drop 9 s)
                   else None
               end
      end
  end

with elements (fuel : nat) (s : string) : option (list json * string) :=
  match fuel with
  | O => None
  | S fuel' =>
      match value fuel' s with
      | None => None
      | Some (v, r) =>
          match skip_ws r with
          | String "]" rest => Some ([v], rest)
          | String "," r' =>
              match elements fuel' (skip_ws r') with
              | Some (l, rest) => Some (v :: l, rest)
              | None => None
              end
          | _ => None
          end
      end
  end

with members (fuel : nat) (s : string) (acc : dict) : option (dict * string) :=
  match fuel with
  | O => None
  | S fuel' =>
      match s with
      | String "034" r =>
          match chars r with
          | None => None
          | Some (k, r1) =>
              match skip_ws r1 with
              | String ":" r2 =>
                  match value fuel' (skip_ws r2) with
                  | None => None
                  | Some (v, r3) =>
                      let acc' := Dict.set k v acc in
                      match skip_ws r3 with
                      | String "}" rest => Some (acc', rest)
                      | String "," r4 => members fuel' (skip_ws r4) acc'
                      | _ => None
                      end
                  end
              | _ => None
              end
          end
      | _ => None
      end
  end.

(** [json.loads(s)]: one value, white space around it, nothing else. *)
Definition loads (s : string) : option json :=
  match value (2 * String.length s + 2) (skip_ws s) with
  | Some (v, rest) =>
      match skip_ws rest with
      | EmptyString => Some v
      | _ => None
      end
  | None => None
  end.

End JsonText.

(** ** Exceptions and results *)

Inductive exn : Type :=
| ValueError (msg : string)
| JSONDecodeError                 (* json.JSONDecodeError, a ValueError *)
| ImportError (msg : string)
| TypeError (msg : string)
| AttributeError (msg : string)
| APIError (msg : string)         (* what a client library raises *)
| RetryError (last_attempt : exn) (* tenacity.RetryError *).

(** [isinstance(e, ValueError)] *)
Definition is_ValueError (e : exn) : bool :=
  match e with
  | ValueError _ | JSONDecodeError => true
  | _ => false
  end.

Inductive result (A : Type) : Type :=
| Ok (a : A)
| Raise (e : exn).

Arguments Ok {A} a.
Arguments Raise {A} e.

Definition bind {A B : Type} (r : result A) (k : A -> result B) : result B :=
  match r with
  | Ok a => k a
  | Raise e => Raise e
  end.

Notation "x <- r ;; k" := (bind r (fun x => k))
  (at level 61, r at next level, right associativity).

(** ** Output extraction: [parse_llm_output] *)

Section Extraction.

(** [json.loads], [None] standing for [json.JSONDecodeError]. *)
Variable json_loads : string -> option json.

Definition loads (s : string) : result json :=
  match json_loads s with
  | Some v => Ok v
  | None => Raise JSONDecodeError
  end.

Definition parse_llm_output (raw_output : string) : result json :=
  match json_loads raw_output with
  | Some v => Ok v
  | None =>
      if PyStr.contains raw_output "```json" then
        let start := PyStr.find raw_output "```json" + 7 in
        let end_ := PyStr.find_from raw_output "```" start in
        let json_str := PyStr.strip (PyStr.slice raw_output start end_) in
        loads json_str
      else if PyStr.contains raw_output "```" then
        let start := PyStr.find raw_output "```" + 3 in
        let end_ := PyStr.find_from raw_output "```" start in
        let json_str := PyStr.strip (PyStr.slice raw_output start end_) in
        loads json_str
      else
        let start := PyStr.find raw_output "{" in
        let end_ := PyStr.rfind raw_output "}" + 1 in
        if negb (start =? -1) && (end_ >? start) then
          let json_str := PyStr.slice raw_output start end_ in
          loads json_str
        else Raise (ValueError "Could not extract valid JSON from LLM output")
  end.

(** *** The extraction as the specification words it

    Four attempts in a fixed order, the first that parses wins, and a
    failure of their own when none does. *)

(** Interior of the first block opened by [marker], when the opening
    marker and a closing fence after it are both there. *)
Definition spec_fenced_interior (raw marker : string) : option string :=
  if PyStr.contains raw marker then
    let start := PyStr.find raw marker + PyStr.len marker in
    let stop := PyStr.find_from raw "```" start in
    if stop =? -1 then None
    else Some (PyStr.strip (PyStr.slice raw start stop))
  else None.

(** From the first opening brace to the last closing one, inclusive;
    tried when the text has no fence. *)
Definition spec_brace_span (raw : string) : option string :=
  if PyStr.contains raw "```" then None
  else
    let start := PyStr.find raw "{" in
    let stop := PyStr.rfind raw "}" + 1 in
    if negb (start =? -1) && (stop >? start)
    then Some (PyStr.slice raw start stop) else None.

Definition spec_attempts (raw : string) : list (option string) :=
  [ Some raw;
    spec_fenced_interior raw "```json";
    spec_fenced_interior raw "```";
    spec_brace_span raw ].

Fixpoint first_success (attempts : list (option string)) : option json :=
  match attempts with
  | [] => None
  | None :: rest => first_success rest
  | Some text :: rest =>
      match json_loads text with
      | Some v => Some v
      | None => first_success rest
      end
  end.

Definition spec_extract (raw : string) : result json :=
  match first_success (spec_attempts raw) with
  | Some v => Ok v
  | None => Raise (ValueError "no structured record recoverable")
  end.

End Extraction.

(** ** Normalization: [normalize_intent_data]

    The record comes from [json.loads], so it is a tree: no two keys hold
    the same object.  The updates that the code makes in place on a
    nested [dict] ([entity["type"] = ...], [payload["explicit"] = ...])
    are therefore updates of the value under that key, and the shallow
    copy taken at the start is the record itself. *)

Definition ENTITY : json := JStr "ENTITY".

(** The loop over [entities]; an entry that is neither a [str] nor a
    [dict] is appended nowhere. *)
Fixpoint fix_entities (entities : list json) : list json :=
  match entities with
  | [] => []
  | entity :: rest =>
      match entity with
      | JStr s =>
          JDict [("type", ENTITY); ("name", JStr s)] :: fix_entities rest
      | JDict e =>
          JDict (if Dict.mem "name" e && negb (Dict.mem "type" e)
                 then Dict.set "type" ENTITY e else e)
          :: fix_entities rest
      | _ => fix_entities rest
      end
  end.

(** [if k not in d: d[k] = v] *)
Definition setdefault (k : string) (v : json) (d : dict) : dict :=
  if Dict.mem k d then d else Dict.set k v d.

Definition normalize_entities (normalized : dict) : dict :=
  match Dict.get "entities_involved" normalized with
  | Some (JList entities) =>
      Dict.set "entities_involved" (JList (fix_entities entities)) normalized
  | _ => normalized
  end.

Definition normalize_payload (normalized : dict) : dict :=
  match Dict.get "payload" normalized with
  | Some (JDict payload) =>
      if negb (Dict.mem "explicit" payload) && negb (Dict.mem "implicit" payload)
      then Dict.set "payload"
             (JDict [("explicit", JDict payload); ("implicit", JDict [])])
             normalized
      else Dict.set "payload"
             (JDict (setdefault "implicit" (JDict [])
                       (setdefault "explicit" (JDict []) payload)))
             normalized
  | Some _ => normalized
  | None =>
      Dict.set "payload"
        (JDict [("explicit", JDict []); ("implicit", JDict [])]) normalized
  end.

Definition normalize_constraints (normalized : dict) : dict :=
  match Dict.get "constraints" normalized with
  | Some (JDict constraints) =>
      Dict.set "constraints"
        (JDict (setdefault "additional_constraints" (JDict [])
                  (setdefault "must_not_override_existing" (JBool true)
                     constraints)))
        normalized
  | Some _ => normalized
  | None =>
      Dict.set "constraints"
        (JDict [("must_not_override_existing", JBool true);
                ("additional_constraints", JDict [])]) normalized
  end.

Definition normalize_validation_requirements (normalized : dict) : dict :=
  match Dict.get "validation_requirements" normalized with
  | Some (JDict val_reqs) =>
      Dict.set "validation_requirements"
        (JDict (setdefault "additional_validations" (JDict [])
                  (setdefault "duplicate_check" (JBool true)
                     (setdefault "schema_validation" (JBool true) val_reqs))))
        normalized
  | Some _ => normalized
  | None =>
      Dict.set "validation_requirements"
        (JDict [("schema_validation", JBool true);
                ("duplicate_check", JBool true);
                ("additional_validations", JDict [])]) normalized
  end.

Definition normalize_intent_data (intent_data : dict) : dict :=
  let normalized := intent_data in
  let normalized := normalize_entities normalized in
  let normalized := normalize_payload normalized in
  let normalized := normalize_constraints normalized in
  let normalized := normalize_validation_requirements normalized in
  let normalized := setdefault "assumptions" (JList []) normalized in
  let normalized := setdefault "ambiguities" (JList []) normalized in
  let normalized := setdefault "suggestions" (JList []) normalized in
  normalized.

(** The name of the class of a value that [json.loads] returns. *)
Definition type_name (v : json) : string :=
  match v with
  | JNull => "NoneType"
  | JBool _ => "bool"
  | JInt _ => "int"
  | JFloat _ => "float"
  | JStr _ => "str"
  | JList _ => "list"
  | JDict _ => "dict"
  end.

(** What the call does on a value that is not a [dict]: a [list] has
    [copy] but no string subscripts, the other values have no [copy]. *)
Definition normalize_value (intent_data : json) : result dict :=
  match intent_data with
  | JDict d => Ok (normalize_intent_data d)
  | JList _ => Raise (TypeError "list indices must be integers or slices, not str")
  | v =>
      Raise (AttributeError
               ("'" ++ type_name v ++ "' object has no attribute 'copy'"))
  end.

(** ** Retry policy

    The three [generate] methods carry the same decorator,
    [@retry(stop=stop_after_attempt(3),
            wait=wait_exponential(multiplier=1, min=2, max=10))].
    [tenacity] is a library; what follows is the part of it that the
    decorator selects.  Delays are whole seconds. *)

Module Tenacity.

(** [wait_exponential(multiplier, min, max)] after attempt
    [attempt_number] (counted from 1). *)
Definition wait_exponential (multiplier min max : Z) (attempt_number : nat) : Z :=
  let exp := 2 ^ (Z.of_nat attempt_number - 1) in
  let result := multiplier * exp in
  Z.max (Z.max 0 min) (Z.min result max).

Record Retrying : Type := {
  stop_after_attempt : nat;     (* stop once this many attempts were made *)
  wait : nat -> Z;              (* sleep after a failed attempt *)
  reraise : bool                (* False unless the decorator says so *)
}.

(** One decorated call: what it returns or raises, how many times the
    wrapped function ran, and the sleeps between the runs. *)
Record Run (A : Type) : Type := {
  outcome : result A;
  attempts : nat;
  sleeps : list Z
}.

Arguments outcome {A} r.
Arguments attempts {A} r.
Arguments sleeps {A} r.

(** The loop of [Retrying.__call__]: [fn k] is what the [k]-th run of
    the wrapped function does; [remaining] runs are left after the
    current one.  Every exception is retried ([retry_if_exception_type()]
    is the default). *)
Fixpoint attempt_loop {A : Type} (r : Retrying) (fn : nat -> result A)
         (remaining attempt_number : nat) (slept : list Z) : Run A :=
  match fn attempt_number with
  | Ok a => {| outcome := Ok a; attempts := attempt_number; sleeps := slept |}
  | Raise e =>
      match remaining with
      | O => {| outcome := Raise (if reraise r then e else RetryError e);
                attempts := attempt_number;
                sleeps := slept |}
      | S remaining' =>
          attempt_loop r fn remaining' (S attempt_number)
                       (slept ++ [wait r attempt_number])
      end
  end.

Definition call {A : Type} (r : Retrying) (fn : nat -> result A) : Run A :=
  attempt_loop r fn (stop_after_attempt r - 1) 1 [].

End Tenacity.

(** The policy written on [generate]. *)
Definition generate_retry : Tenacity.Retrying :=
  {| Tenacity.stop_after_attempt := 3;
     Tenacity.wait := Tenacity.wait_exponential 1 2 10;
     Tenacity.reraise := false |}.

(** ** Providers and [generate_intent] *)

Record Settings : Type := {
  LLM_PROVIDER : string;
  OPENAI_API_KEY : option string;
  GROQ_API_KEY : option string;
  ANTHROPIC_API_KEY : option string
}.

Inductive LLMProvider : Type :=
| OpenAIProvider
| GroqProvider
| AnthropicProvider.

(** What surrounds one request: the settings, which client packages can
    be imported, what the [k]-th call of a provider's client does (its
    text or its exception), and the token [uuid.uuid4()] hands out. *)
Record Env : Type := {
  settings : Settings;
  installed : LLMProvider -> bool;
  backend : LLMProvider -> nat -> result string;
  uuid4 : string
}.

(** Truth value of an optional string: [None] and the empty string are
    false. *)
Definition truthy (k : option string) : bool :=
  match k with
  | Some s => negb (String.eqb s EmptyString)
  | None => false
  end.

Definition api_key (st : Settings) (p : LLMProvider) : option string :=
  match p with
  | OpenAIProvider => OPENAI_API_KEY st
  | GroqProvider => GROQ_API_KEY st
  | AnthropicProvider => ANTHROPIC_API_KEY st
  end.

Definition package (p : LLMProvider) : string :=
  match p with
  | OpenAIProvider => "openai"
  | GroqProvider => "groq"
  | AnthropicProvider => "anthropic"
  end.

Definition key_name (p : LLMProvider) : string :=
  match p with
  | OpenAIProvider => "OPENAI_API_KEY"
  | GroqProvider => "GROQ_API_KEY"
  | AnthropicProvider => "ANTHROPIC_API_KEY"
  end.

(** [__init__] of a provider: no call of the backend is made here. *)
Definition provider_init (env : Env) (p : LLMProvider) : result LLMProvider :=
  if negb (installed env p) then
    Raise (ImportError (package p ++ " package not installed. Run: pip install "
                          ++ package p))
  else if negb (truthy (api_key (settings env) p)) then
    Raise (ValueError (key_name p ++ " not configured"))
  else Ok p.

Definition get_llm_provider (env : Env) : result LLMProvider :=
  let provider_name := PyStr.lower (LLM_PROVIDER (settings env)) in
  if String.eqb provider_name "openai" then provider_init env OpenAIProvider
  else if String.eqb provider_name "groq" then provider_init env GroqProvider
  else if String.eqb provider_name "anthropic" then provider_init env AnthropicProvider
  else Raise (ValueError ("Unsupported LLM provider: " ++ provider_name)).

(** [provider.generate(...)], under its retry policy. *)
Definition generate (env : Env) (p : LLMProvider) : Tenacity.Run string :=
  Tenacity.call generate_retry (backend env p).

Record IntentRequest : Type := {
  req_domain_pack_id : string;
  req_domain_name : string;
  req_description : string;
  req_user_request : string
}.

(** The two keys that [generate_intent] fills after the normalizer. *)
Definition ensure_ids (env : Env) (domain_pack_id : string) (intent_data : dict) : dict :=
  let intent_data :=
    if negb (Dict.mem "intent_id" intent_data)
    then Dict.set "intent_id" (JStr (uuid4 env)) intent_data
    else intent_data in
  let intent_data :=
    if negb (Dict.mem "domain_pack_id" intent_data)
    then Dict.set "domain_pack_id" (JStr domain_pack_id) intent_data
    else intent_data in
  intent_data.

Section Pipeline.

Variable json_loads : string -> option json.

(** [generate_intent]: the record it returns or the exception that
    leaves it (its own handler logs and re-raises). *)
Definition generate_intent (env : Env) (request : IntentRequest) : result dict :=
  provider <- get_llm_provider env ;;
  raw_output <- Tenacity.outcome (generate env provider) ;;
  intent_data <- parse_llm_output json_loads raw_output ;;
  intent_data <- normalize_value intent_data ;;
  Ok (ensure_ids env (req_domain_pack_id request) intent_data).

(** Calls of the backend that one request makes. *)
Definition backend_calls (env : Env) : nat :=
  match get_llm_provider env with
  | Ok provider => Tenacity.attempts (generate env provider)
  | Raise _ => O
  end.

End Pipeline.

(** ** The schema: [schemas/intention.py]

    The models are declared with pydantic; validation is the library's,
    in its default (lax) mode, as far as the declared field types call on
    it.  A failure is the list of errors of a [ValidationError], each with
    the path ([loc]) of the offending value and the kind of the error. *)

Inductive TargetSection : Type :=
| NAME | DESCRIPTION | VERSION | ENTITIES | KEY_TERMS | ENTITY_ALIASES
| EXTRACTION_PATTERNS | BUSINESS_CONTEXT | RELATIONSHIP_TYPES | RELATIONSHIPS
| BUSINESS_PATTERNS | REASONING_TEMPLATES | MULTIHOP_QUESTIONS
| QUESTION_TEMPLATES | BUSINESS_RULES | VALIDATION_RULES.

Inductive Operation : Type :=
| ADD | UPDATE | DELETE | MERGE | SPLIT | REORDER.

Inductive ExecutionRisk : Type :=
| LOW | MEDIUM | HIGH.

Definition TargetSection_value (m : TargetSection) : string :=
  match m with
  | NAME => "name"
  | DESCRIPTION => "description"
  | VERSION => "version"
  | ENTITIES => "entities"
  | KEY_TERMS => "key_terms"
  | ENTITY_ALIASES => "entity_aliases"
  | EXTRACTION_PATTERNS => "extraction_patterns"
  | BUSINESS_CONTEXT => "business_context"
  | RELATIONSHIP_TYPES => "relationship_types"
  | RELATIONSHIPS => "relationships"
  | BUSINESS_PATTERNS => "business_patterns"
  | REASONING_TEMPLATES => "reasoning_templates"
  | MULTIHOP_QUESTIONS => "multihop_questions"
  | QUESTION_TEMPLATES => "question_templates"
  | BUSINESS_RULES => "business_rules"
  | VALIDATION_RULES => "validation_rules"
  end.

Definition Operation_value (m : Operation) : string :=
  match m with
  | ADD => "ADD"
  | UPDATE => "UPDATE"
  | DELETE => "DELETE"
  | MERGE => "MERGE"
  | SPLIT => "SPLIT"
  | REORDER => "REORDER"
  end.

Definition ExecutionRisk_value (m : ExecutionRisk) : string :=
  match m with
  | LOW => "LOW"
  | MEDIUM => "MEDIUM"
  | HIGH => "HIGH"
  end.

Definition TargetSection_members : list TargetSection :=
  [NAME; DESCRIPTION; VERSION; ENTITIES; KEY_TERMS; ENTITY_ALIASES;
   EXTRACTION_PATTERNS; BUSINESS_CONTEXT; RELATIONSHIP_TYPES; RELATIONSHIPS;
   BUSINESS_PATTERNS; REASONING_TEMPLATES; MULTIHOP_QUESTIONS;
   QUESTION_TEMPLATES; BUSINESS_RULES; VALIDATION_RULES].

Definition Operation_members : list Operation :=
  [ADD; UPDATE; DELETE; MERGE; SPLIT; REORDER].

Definition ExecutionRisk_members : list ExecutionRisk := [LOW; MEDIUM; HIGH].

Record EntityInvolved : Type := {
  type : string;
  name : string
}.

Record IntentPayload : Type := {
  explicit : dict;
  implicit : dict
}.

Record IntentConstraints : Type := {
  must_not_override_existing : bool;
  additional_constraints : dict
}.

Record ValidationRequirements : Type := {
  schema_validation : bool;
  duplicate_check : bool;
  additional_validations : list (string * bool)
}.

Record IntentionSchema : Type := {
  intent_id : string;
  domain_pack_id : string;
  target_section : TargetSection;
  operation : Operation;
  intent_summary : string;
  confidence : float;
  entities_involved : list EntityInvolved;
  payload : IntentPayload;
  constraints : IntentConstraints;
  assumptions : list string;
  ambiguities : list string;
  suggestions : list string;
  validation_requirements : ValidationRequirements;
  execution_risk : ExecutionRisk
}.

Module Pydantic.

Inductive loc_item : Type :=
| Key (k : string)
| Index (i : nat).

Record ErrorDetails : Type := {
  loc : list loc_item;
  kind : string
}.

Inductive validation (A : Type) : Type :=
| Valid (a : A)
| Invalid (errors : list ErrorDetails).

Arguments Valid {A} a.
Arguments Invalid {A} errors.

Definition fail {A : Type} (k : string) : validation A :=
  Invalid [{| loc := []; kind := k |}].

(** The errors of a value are reported under the place it stands at. *)
Definition within {A : Type} (item : loc_item) (r : validation A) : validation A :=
  match r with
  | Valid a => Valid a
  | Invalid es =>
      Invalid (map (fun e => {| loc := item :: loc e; kind := kind e |}) es)
  end.

(** Fields are validated one after the other and all errors are kept. *)
Definition ap {A B : Type} (f : validation (A -> B)) (x : validation A)
  : validation B :=
  match f, x with
  | Valid g, Valid a => Valid (g a)
  | Valid _, Invalid e => Invalid e
  | Invalid e, Valid _ => Invalid e
  | Invalid e1, Invalid e2 => Invalid (e1 ++ e2)%list
  end.

Definition then_ {A B : Type} (r : validation A) (k : A -> validation B)
  : validation B :=
  match r with
  | Valid a => k a
  | Invalid es => Invalid es
  end.

Definition errors_of {A : Type} (r : validation A) : list ErrorDetails :=
  match r with
  | Valid _ => []
  | Invalid es => es
  end.

(** A required field ([Field(...)]) and one with a default. *)
Definition required {A : Type} (field : string) (schema : json -> validation A)
           (data : dict) : validation A :=
  match Dict.get field data with
  | Some v => within (Key field) (schema v)
  | None => Invalid [{| loc := [Key field]; kind := "missing" |}]
  end.

Definition optional {A : Type} (field : string) (schema : json -> validation A)
           (default : A) (data : dict) : validation A :=
  match Dict.get field data with
  | Some v => within (Key field) (schema v)
  | None => Valid default
  end.

Definition str_schema (v : json) : validation string :=
  match v with
  | JStr s => Valid s
  | _ => fail "string_type"
  end.

Definition float_of_int (z : Z) : float :=
  SF2Prim (binary_normalize prec emax z 0 false).

Definition bool_of_str (s : string) : option bool :=
  let l := PyStr.lower s in
  if existsb (String.eqb l) ["0"; "off"; "f"; "false"; "n"; "no"] then Some false
  else if existsb (String.eqb l) ["1"; "on"; "t"; "true"; "y"; "yes"] then Some true
  else None.

(** A [float] without a fractional part; no infinity and no NaN is one. *)
Definition is_integral (f : float) : bool :=
  match Prim2SF f with
  | S754_zero _ => true
  | S754_finite _ m e => (0 <=? e) || (Z.pos m mod 2 ^ (- e) =? 0)
  | _ => false
  end.

(** In lax mode a [float] is read as an [int] first: one with a
    fractional part is no [bool] at all, another number than 0 and 1
    does not parse. *)
Definition bool_schema (v : json) : validation bool :=
  match v with
  | JBool b => Valid b
  | JInt z => if z =? 0 then Valid false
              else if z =? 1 then Valid true else fail "bool_parsing"
  | JFloat f => if (f =? 0)%float then Valid false
                else if (f =? 1)%float then Valid true
                else if is_integral f then fail "bool_parsing"
                else fail "bool_type"
  | JStr s => match bool_of_str s with
              | Some b => Valid b
              | None => fail "bool_parsing"
              end
  | _ => fail "bool_type"
  end.

Definition dict_schema (v : json) : validation dict :=
  match v with
  | JDict d => Valid d
  | _ => fail "dict_type"
  end.

Fixpoint items {A : Type} (schema : json -> validation A) (i : nat)
         (l : list json) : validation (list A) :=
  match l with
  | [] => Valid []
  | v :: rest =>
      ap (ap (Valid cons) (within (Index i) (schema v)))
         (items schema (S i) rest)
  end.

Definition list_schema {A : Type} (schema : json -> validation A) (v : json)
  : validation (list A) :=
  match v with
  | JList l => items schema O l
  | _ => fail "list_type"
  end.

Fixpoint values {A : Type} (schema : json -> validation A) (d : dict)
  : validation (list (string * A)) :=
  match d with
  | [] => Valid []
  | (k, v) :: rest =>
      ap (ap (Valid (fun a t => (k, a) :: t)) (within (Key k) (schema v)))
         (values schema rest)
  end.

Definition dict_of_schema {A : Type} (schema : json -> validation A) (v : json)
  : validation (list (string * A)) :=
  match v with
  | JDict d => values schema d
  | _ => fail "dict_type"
  end.

(** A [str] enumeration: the input has to be the value of a member. *)
Definition enum_schema {E : Type} (members : list E) (value : E -> string)
           (v : json) : validation E :=
  match v with
  | JStr s =>
      match List.find (fun m => String.eqb (value m) s) members with
      | Some m => Valid m
      | None => fail "enum"
      end
  | _ => fail "enum"
  end.

(** A nested model takes a [dict]. *)
Definition model_schema {A : Type} (fields : dict -> validation A) (v : json)
  : validation A :=
  match v with
  | JDict d => fields d
  | _ => fail "model_type"
  end.

Section Lax.

(** How a [str] is read as a [float] in lax mode. *)
Variable str_as_float : string -> option float.

Definition float_schema (v : json) : validation float :=
  match v with
  | JFloat f => Valid f
  | JInt z =>
      let f := float_of_int z in
      if is_infinity f then fail "float_type" else Valid f
  | JBool b => Valid (if b then 1 else 0)%float
  | JStr s =>
      match str_as_float s with
      | Some f => Valid f
      | None => fail "float_parsing"
      end
  | _ => fail "float_type"
  end.

(** [Field(ge=..., le=...)]: the upper bound is tested first. *)
Definition bounded (ge le : float) (v : float) : validation float :=
  if negb (v <=? le)%float then fail "less_than_equal"
  else if negb (ge <=? v)%float then fail "greater_than_equal"
  else Valid v.

End Lax.

End Pydantic.

Import Pydantic.

Definition EntityInvolved_fields (data : dict) : validation EntityInvolved :=
  ap (ap (Valid Build_EntityInvolved)
         (required "type" str_schema data))
     (required "name" str_schema data).

Definition IntentPayload_fields (data : dict) : validation IntentPayload :=
  ap (ap (Valid Build_IntentPayload)
         (optional "explicit" dict_schema [] data))
     (optional "implicit" dict_schema [] data).

Definition IntentConstraints_fields (data : dict) : validation IntentConstraints :=
  ap (ap (Valid Build_IntentConstraints)
         (optional "must_not_override_existing" bool_schema true data))
     (optional "additional_constraints" dict_schema [] data).

Definition ValidationRequirements_fields (data : dict)
  : validation ValidationRequirements :=
  ap (ap (ap (Valid Build_ValidationRequirements)
             (optional "schema_validation" bool_schema true data))
         (optional "duplicate_check" bool_schema true data))
     (optional "additional_validations" (dict_of_schema bool_schema) [] data).

(** [0.0 <= v <= 1.0] *)
Definition in_unit_interval (v : float) : bool :=
  ((0 <=? v) && (v <=? 1))%float.

(** The [field_validator] of [confidence]; its [ValueError] becomes an
    error of the field. *)
Definition validate_confidence (v : float) : validation float :=
  if negb (in_unit_interval v) then fail "value_error" else Valid v.

Section Validation.

Variable str_as_float : string -> option float.

(** [confidence: float = Field(..., ge=0.0, le=1.0)], then the field
    validator. *)
Definition confidence_schema (v : json) : validation float :=
  then_ (then_ (float_schema str_as_float v) (bounded 0 1)) validate_confidence.

(** [IntentionSchema] built from the keys of [intent_data]; [new_id] is what the default
    factory of [intent_id] would produce.  Keys that are no field are
    ignored. *)
Definition IntentionSchema_validate (new_id : string) (intent_data : dict)
  : validation IntentionSchema :=
  ap (ap (ap (ap (ap (ap (ap (ap (ap (ap (ap (ap (ap (ap
    (Valid Build_IntentionSchema)
    (optional "intent_id" str_schema new_id intent_data))
    (required "domain_pack_id" str_schema intent_data))
    (required "target_section"
       (enum_schema TargetSection_members TargetSection_value) intent_data))
    (required "operation"
       (enum_schema Operation_members Operation_value) intent_data))
    (required "intent_summary" str_schema intent_data))
    (required "confidence" confidence_schema intent_data))
    (optional "entities_involved"
       (list_schema (model_schema EntityInvolved_fields)) [] intent_data))
    (required "payload" (model_schema IntentPayload_fields) intent_data))
    (optional "constraints" (model_schema IntentConstraints_fields)
       (Build_IntentConstraints true []) intent_data))
    (optional "assumptions" (list_schema str_schema) [] intent_data))
    (optional "ambiguities" (list_schema str_schema) [] intent_data))
    (optional "suggestions" (list_schema str_schema) [] intent_data))
    (optional "validation_requirements"
       (model_schema ValidationRequirements_fields)
       (Build_ValidationRequirements true true []) intent_data))
    (required "execution_risk"
       (enum_schema ExecutionRisk_members ExecutionRisk_value) intent_data).

End Validation.

(** [model_dump]: the record as a [dict], fields in declaration order. *)
Definition EntityInvolved_dump (e : EntityInvolved) : json :=
  JDict [("type", JStr (type e)); ("name", JStr (name e))].

Definition IntentionSchema_dump (m : IntentionSchema) : dict :=
  [ ("intent_id", JStr (intent_id m));
    ("domain_pack_id", JStr (domain_pack_id m));
    ("target_section", JStr (TargetSection_value (target_section m)));
    ("operation", JStr (Operation_value (operation m)));
    ("intent_summary", JStr (intent_summary m));
    ("confidence", JFloat (confidence m));
    ("entities_involved", JList (map EntityInvolved_dump (entities_involved m)));
    ("payload", JDict [("explicit", JDict (explicit (payload m)));
                       ("implicit", JDict (implicit (payload m)))]);
    ("constraints",
     JDict [("must_not_override_existing",
             JBool (must_not_override_existing (constraints m)));
            ("additional_constraints",
             JDict (additional_constraints (constraints m)))]);
    ("assumptions", JList (map JStr (assumptions m)));
    ("ambiguities", JList (map JStr (ambiguities m)));
    ("suggestions", JList (map JStr (suggestions m)));
    ("validation_requirements",
     JDict [("schema_validation",
             JBool (schema_validation (validation_requirements m)));
            ("duplicate_check",
             JBool (duplicate_check (validation_requirements m)));
            ("additional_validations",
             JDict (map (fun kv => (fst kv, JBool (snd kv)))
                        (additional_validations (validation_requirements m))))]);
    ("execution_risk", JStr (ExecutionRisk_value (execution_risk m))) ].

(** The record [m] with another confidence. *)
Definition with_confidence (m : IntentionSchema) (c : float) : IntentionSchema :=
  {| intent_id := intent_id m;
     domain_pack_id := domain_pack_id m;
     target_section := target_section m;
     operation := operation m;
     intent_summary := intent_summary m;
     confidence := c;
     entities_involved := entities_involved m;
     payload := payload m;
     constraints := constraints m;
     assumptions := assumptions m;
     ambiguities := ambiguities m;
     suggestions := suggestions m;
     validation_requirements := validation_requirements m;
     execution_risk := execution_risk m |}.

(** ** The endpoint: [interpret_intent] *)

Inductive error_code : Type :=
| LLM_CONFIGURATION_ERROR
| LLM_API_ERROR
| INVALID_INTENT_SCHEMA
| INTERNAL_ERROR.

(** The [detail] of the [HTTPException]: its [message] is a fixed text
    followed, in the first two handlers, by [str(e)] of the exception
    [cause]. *)
Module Detail.

Record t : Type := {
  error : error_code;
  message : string;
  cause : option exn;
  confidence : float;
  details : option (list Pydantic.ErrorDetails * dict)
}.

End Detail.

Inductive response : Type :=
| IntentResponse (intent : IntentionSchema) (message : string)
| HTTPException (detail : Detail.t).

(** The four [detail] dictionaries that the handlers of the endpoint
    build. *)
Definition configuration_error (e : exn) : Detail.t :=
  {| Detail.error := LLM_CONFIGURATION_ERROR;
     Detail.message := "LLM service not properly configured: ";
     Detail.cause := Some e;
     Detail.confidence := 0;
     Detail.details := None |}.

Definition api_error (e : exn) : Detail.t :=
  {| Detail.error := LLM_API_ERROR;
     Detail.message := "Failed to generate intent: ";
     Detail.cause := Some e;
     Detail.confidence := 0;
     Detail.details := None |}.

Definition schema_error (errors : list Pydantic.ErrorDetails) (intent_data : dict)
  : Detail.t :=
  {| Detail.error := INVALID_INTENT_SCHEMA;
     Detail.message := "The intent could not be parsed safely. LLM output does not match required schema.";
     Detail.cause := None;
     Detail.confidence := 0;
     Detail.details := Some (errors, intent_data) |}.

Definition internal_error (e : exn) : Detail.t :=
  {| Detail.error := INTERNAL_ERROR;
     Detail.message := "An unexpected error occurred: ";
     Detail.cause := Some e;
     Detail.confidence := 0;
     Detail.details := None |}.

Section Endpoint.

Variable json_loads : string -> option json.
Variable str_as_float : string -> option float.

(** [interpret_intent].  Its outermost handler, which answers
    [internal_error], takes what is raised outside the two inner blocks;
    the steps modelled here raise nothing there. *)
Definition interpret_intent (env : Env) (request : IntentRequest) : response :=
  match generate_intent json_loads env request with
  | Raise e =>
      if is_ValueError e then HTTPException (configuration_error e)
      else HTTPException (api_error e)
  | Ok intent_data =>
      match IntentionSchema_validate str_as_float (uuid4 env) intent_data with
      | Valid intent_schema =>
          IntentResponse intent_schema "Intent parsed successfully"
      | Invalid errors => HTTPException (schema_error errors intent_data)
      end
  end.

End Endpoint.

(** ** What "well-typed" means for a key of the record

    The shape that [IntentionSchema] declares for the key, with every
    declared field of a nested model present.  A key that the schema does
    not declare has no type to meet. *)

Definition is_str (v : json) : bool :=
  match v with JStr _ => true | _ => false end.

Definition is_bool (v : json) : bool :=
  match v with JBool _ => true | _ => false end.

Definition is_dict (v : json) : bool :=
  match v with JDict _ => true | _ => false end.

Definition is_list_of (p : json -> bool) (v : json) : bool :=
  match v with JList l => forallb p l | _ => false end.

Definition is_dict_of (p : json -> bool) (v : json) : bool :=
  match v with JDict d => forallb (fun kv => p (snd kv)) d | _ => false end.

(** The key [k] is in [d] and its value satisfies [p]. *)
Definition has (k : string) (p : json -> bool) (d : dict) : bool :=
  match Dict.get k d with Some v => p v | None => false end.

Definition is_entity (v : json) : bool :=
  match v with
  | JDict e => has "type" is_str e && has "name" is_str e
  | _ => false
  end.

Definition is_member_of (values : list string) (v : json) : bool :=
  match v with JStr s => existsb (String.eqb s) values | _ => false end.

Definition is_confidence (v : json) : bool :=
  match v with JFloat f => in_unit_interval f | _ => false end.

Definition well_typed (k : string) (v : json) : bool :=
  if String.eqb k "entities_involved" then is_list_of is_entity v
  else if String.eqb k "payload" then
    match v with
    | JDict p => has "explicit" is_dict p && has "implicit" is_dict p
    | _ => false
    end
  else if String.eqb k "constraints" then
    match v with
    | JDict c => has "must_not_override_existing" is_bool c
                 && has "additional_constraints" is_dict c
    | _ => false
    end
  else if String.eqb k "validation_requirements" then
    match v with
    | JDict r => has "schema_validation" is_bool r
                 && has "duplicate_check" is_bool r
                 && has "additional_validations" (is_dict_of is_bool) r
    | _ => false
    end
  else if String.eqb k "assumptions" || String.eqb k "ambiguities"
          || String.eqb k "suggestions" then is_list_of is_str v
  else if String.eqb k "intent_id" || String.eqb k "domain_pack_id"
          || String.eqb k "intent_summary" then is_str v
  else if String.eqb k "target_section"
       then is_member_of (map TargetSection_value TargetSection_members) v
  else if String.eqb k "operation"
       then is_member_of (map Operation_value Operation_members) v
  else if String.eqb k "execution_risk"
       then is_member_of (map ExecutionRisk_value ExecutionRisk_members) v
  else if String.eqb k "confidence" then is_confidence v
  else true.

(** The keys that the normalizer may write. *)
Definition repair_keys : list string :=
  ["entities_involved"; "payload"; "constraints"; "validation_requirements";
   "assumptions"; "ambiguities"; "suggestions"].

(** The five keys that carry the meaning of the intent. *)
Definition semantic_keys : list string :=
  ["target_section"; "operation"; "intent_summary"; "confidence";
   "execution_risk"].

(** What the loop of [fix_entities] makes of one entry it keeps. *)
Definition kept (entity : json) : bool :=
  match entity with JStr _ | JDict _ => true | _ => false end.

Definition repaired (entity : json) : json :=
  match entity with
  | JStr s => JDict [("type", ENTITY); ("name", JStr s)]
  | JDict e => JDict (if Dict.mem "name" e && negb (Dict.mem "type" e)
                      then Dict.set "type" ENTITY e else e)
  | other => other
  end.

(** ** Named values, deployments, texts and records *)

Definition empty_payload : json :=
  JDict [("explicit", JDict []); ("implicit", JDict [])].

Definition no_json_found : exn :=
  ValueError "Could not extract valid JSON from LLM output".

(** The text of the specification's example. *)
Definition fenced_example : string :=
  PyStr.dq "noise ```json {'a':1} ``` trailing".

Definition groq_settings (key : option string) : Settings :=
  {| LLM_PROVIDER := "groq";
     OPENAI_API_KEY := None;
     GROQ_API_KEY := key;
     ANTHROPIC_API_KEY := None |}.

(** A deployment whose backend answers every call with [text]. *)
Definition env_answering (text : string) : Env :=
  {| settings := groq_settings (Some "gsk-test");
     installed := fun _ => true;
     backend := fun _ _ => Ok text;
     uuid4 := "3f2b8c1e-0000-4000-8000-000000000001" |}.

(** A deployment whose backend fails [failures] times with [e] before it
    answers [text]. *)
Definition env_failing (failures : nat) (e : exn) (text : string) : Env :=
  {| settings := groq_settings (Some "gsk-test");
     installed := fun _ => true;
     backend := fun _ k => if (k <=? failures)%nat then Raise e else Ok text;
     uuid4 := "3f2b8c1e-0000-4000-8000-000000000001" |}.

(** A deployment whose backend times out on each of the three runs. *)
Definition env_timing_out : Env := env_failing 3 (APIError "timeout") "{}".

(** The lax reading of a string as a float switched off.  No concrete run
    below has a string where a float is due, so none depends on it. *)
Definition no_lax_floats : string -> option float := fun _ => None.

(** A deployment without the credential of the selected provider. *)
Definition env_without_key : Env :=
  {| settings := groq_settings None;
     installed := fun _ => true;
     backend := fun _ _ => Ok "{}";
     uuid4 := "3f2b8c1e-0000-4000-8000-000000000001" |}.

(** A deployment that names a provider the code does not know. *)
Definition env_unsupported : Env :=
  {| settings := {| LLM_PROVIDER := "Mistral";
                    OPENAI_API_KEY := None;
                    GROQ_API_KEY := Some "gsk-test";
                    ANTHROPIC_API_KEY := None |};
     installed := fun _ => true;
     backend := fun _ _ => Ok "{}";
     uuid4 := "3f2b8c1e-0000-4000-8000-000000000001" |}.

Definition legal_request : IntentRequest :=
  {| req_domain_pack_id := "Legal_v01";
     req_domain_name := "legal";
     req_description := "Legal and compliance domain";
     req_user_request := "Add new entity CLIENT with attributes client_id, name, type" |}.

(** A backend that answers in prose. *)
Definition prose : string := "I cannot help with that request.".

(** A text with a block that parses and, after it, a json-tagged block
    that does not. *)
Definition two_blocks : string :=
  PyStr.dq "``` {'a':1} ``` ```json oops ```".

Definition stub_record : dict :=
  [ ("target_section", JStr "entities");
    ("operation", JStr "ADD");
    ("confidence", JFloat 0.5);
    ("execution_risk", JStr "LOW");
    ("entities_involved",
     JList [JStr "CLIENT"; JInt 7; JDict [("name", JStr "MATTER")]]);
    ("payload", JDict [("client_id", JNull); ("name", JNull)]) ].

Definition stub_text : string :=
  PyStr.dq "{'target_section':'entities', 'operation':'ADD', 'confidence':0.5, 'execution_risk':'LOW', 'entities_involved':['CLIENT', 7, {'name':'MATTER'}], 'payload':{'client_id':null,'name':null}}".

Definition valid_intent : IntentionSchema :=
  {| intent_id := "3f2b8c1e-0000-4000-8000-000000000001";
     domain_pack_id := "Legal_v01";
     target_section := ENTITIES;
     operation := ADD;
     intent_summary := "Add the entity CLIENT";
     confidence := 1;
     entities_involved := [ {| type := "ENTITY"; name := "CLIENT" |} ];
     payload := {| explicit := [("client_id", JNull)]; implicit := [] |};
     constraints := {| must_not_override_existing := true;
                       additional_constraints := [] |};
     assumptions := [];
     ambiguities := ["which attributes are required"];
     suggestions := [];
     validation_requirements :=
       {| schema_validation := true;
          duplicate_check := true;
          additional_validations := [("unique_name", true)] |};
     execution_risk := LOW |}.

(** The errors of each field, in the order of the declaration. *)
Definition field_errors (str_as_float : string -> option float)
         (new_id : string) (d : dict) : list (list Pydantic.ErrorDetails) :=
  [ errors_of (optional "intent_id" str_schema new_id d);
    errors_of (required "domain_pack_id" str_schema d);
    errors_of (required "target_section"
                 (enum_schema TargetSection_members TargetSection_value) d);
    errors_of (required "operation"
                 (enum_schema Operation_members Operation_value) d);
    errors_of (required "intent_summary" str_schema d);
    errors_of (required "confidence" (confidence_schema str_as_float) d);
    errors_of (optional "entities_involved"
                 (list_schema (model_schema EntityInvolved_fields)) [] d);
    errors_of (required "payload" (model_schema IntentPayload_fields) d);
    errors_of (optional "constraints" (model_schema IntentConstraints_fields)
                 (Build_IntentConstraints true []) d);
    errors_of (optional "assumptions" (list_schema str_schema) [] d);
    errors_of (optional "ambiguities" (list_schema str_schema) [] d);
    errors_of (optional "suggestions" (list_schema str_schema) [] d);
    errors_of (optional "validation_requirements"
                 (model_schema ValidationRequirements_fields)
                 (Build_ValidationRequirements true true []) d);
    errors_of (required "execution_risk"
                 (enum_schema ExecutionRisk_members ExecutionRisk_value) d) ].

(** ** Shapes that the normalizer leaves behind *)

(** An entry of the normalized [entities_involved]: a record, with a
    ["type"] as soon as it has a ["name"]. *)
Definition entry_shaped (entity : json) : bool :=
  match entity with
  | JDict e => implb (Dict.mem "name" e) (Dict.mem "type" e)
  | _ => false
  end.

(** The keys that every normalized record has. *)
Definition filled_keys : list string :=
  ["payload"; "constraints"; "validation_requirements";
   "assumptions"; "ambiguities"; "suggestions"].

(** The record [m] with another payload. *)
Definition with_payload (m : IntentionSchema) (p : IntentPayload) : IntentionSchema :=
  {| intent_id := intent_id m;
     domain_pack_id := domain_pack_id m;
     target_section := target_section m;
     operation := operation m;
     intent_summary := intent_summary m;
     confidence := confidence m;
     entities_involved := entities_involved m;
     payload := p;
     constraints := constraints m;
     assumptions := assumptions m;
     ambiguities := ambiguities m;
     suggestions := suggestions m;
     validation_requirements := validation_requirements m;
     execution_risk := execution_risk m |}.

(** Each field of [intent_data] validates to the field of [m]. *)
Definition fields_valid (str_as_float : string -> option float)
           (new_id : string) (intent_data : dict) (m : IntentionSchema) : Prop :=
  optional "intent_id" str_schema new_id intent_data = Valid (intent_id m)
  /\ required "domain_pack_id" str_schema intent_data = Valid (domain_pack_id m)
  /\ required "target_section"
       (enum_schema TargetSection_members TargetSection_value) intent_data
     = Valid (target_section m)
  /\ required "operation"
       (enum_schema Operation_members Operation_value) intent_data
     = Valid (operation m)
  /\ required "intent_summary" str_schema intent_data = Valid (intent_summary m)
  /\ required "confidence" (confidence_schema str_as_float) intent_data
     = Valid (confidence m)
  /\ optional "entities_involved"
       (list_schema (model_schema EntityInvolved_fields)) [] intent_data
     = Valid (entities_involved m)
  /\ required "payload" (model_schema IntentPayload_fields) intent_data
     = Valid (payload m)
  /\ optional "constraints" (model_schema IntentConstraints_fields)
       (Build_IntentConstraints true []) intent_data
     = Valid (constraints m)
  /\ optional "assumptions" (list_schema str_schema) [] intent_data
     = Valid (assumptions m)
  /\ optional "ambiguities" (list_schema str_schema) [] intent_data
     = Valid (ambiguities m)
  /\ optional "suggestions" (list_schema str_schema) [] intent_data
     = Valid (suggestions m)
  /\ optional "validation_requirements"
       (model_schema ValidationRequirements_fields)
       (Build_ValidationRequirements true true []) intent_data
     = Valid (validation_requirements m)
  /\ required "execution_risk"
       (enum_schema ExecutionRisk_members ExecutionRisk_value) intent_data
     = Valid (execution_risk m).

(** The error of a required field that is not there. *)
Definition missing_at (field : string) : Pydantic.ErrorDetails :=
  {| loc := [Key field]; kind := "missing" |}.

(** A record whose entities are a record without a name and a record
    with neither name nor type. *)
Definition unnamed_entities : dict :=
  [("entities_involved",
    JList [JDict [("type", JStr "ENTITY")]; JDict [("foo", JInt 1)]])].

(** The error of an entry of [entities_involved] without a field. *)
Definition missing_in_entity (i : nat) (field : string) : Pydantic.ErrorDetails :=
  {| loc := [Key "entities_involved"; Index i; Key field]; kind := "missing" |}.

(** No error of [r], at any place, says "missing". *)
Definition no_missing {A : Type} (r : validation A) : Prop :=
  forall e, In e (errors_of r) -> kind e <> "missing".

(** No error of [r] stands at the value itself and says "missing". *)
Definition not_missing_itself {A : Type} (r : validation A) : Prop :=
  forall e, In e (errors_of r) -> loc e = [] -> kind e <> "missing".

(** The entity that a bare string stands for. *)
Definition entity_named (s : string) : EntityInvolved :=
  {| type := "ENTITY"; name := s |}.

(** A text from which a whole intent comes out, and that intent. *)
Definition full_text : string :=
  PyStr.dq "Here you go: ```json {'target_section':'entities', 'operation':'ADD', 'intent_summary':'Add the entity CLIENT', 'confidence':0.5, 'execution_risk':'LOW', 'entities_involved':['CLIENT'], 'payload':{'client_id':null}} ```".

Definition full_intent : IntentionSchema :=
  {| intent_id := "3f2b8c1e-0000-4000-8000-000000000001";
     domain_pack_id := "Legal_v01";
     target_section := ENTITIES;
     operation := ADD;
     intent_summary := "Add the entity CLIENT";
     confidence := 0.5;
     entities_involved := [ entity_named "CLIENT" ];
     payload := {| explicit := [("client_id", JNull)]; implicit := [] |};
     constraints := {| must_not_override_existing := true;
                       additional_constraints := [] |};
     assumptions := [];
     ambiguities := [];
     suggestions := [];
     validation_requirements :=
       {| schema_validation := true;
          duplicate_check := true;
          additional_validations := [] |};
     execution_risk := LOW |}.

(** ** The request model and the health report

    [IntentRequest.validate_user_request], the field validator of
    [user_request]; its [ValueError] becomes an error of the field. *)
Definition validate_user_request (v : string) : validation string :=
  if String.eqb v EmptyString || String.eqb (PyStr.strip v) EmptyString
  then fail "value_error"
  else Valid (PyStr.strip v).

(** Every character of [s] is white space for [str.isspace]. *)
Fixpoint all_whitespace (s : string) : bool :=
  match s with
  | EmptyString => true
  | String c s' => PyStr.isspace c && all_whitespace s'
  end.

(** [intent_health_check]: the report it returns once the settings are
    loaded; [LLM_MODEL] is the setting of that name.  The handler that
    answers "unhealthy" takes an exception of the lines above it, which
    loaded settings do not raise. *)
Module Health.

Record t : Type := {
  status : string;
  llm_provider : string;
  llm_model : string;
  api_key_configured : bool;
  message : string
}.

End Health.

Definition intent_health_check (st : Settings) (LLM_MODEL : string) : Health.t :=
  let provider := PyStr.lower (LLM_PROVIDER st) in
  let api_key_configured :=
    if String.eqb provider "openai" && truthy (OPENAI_API_KEY st) then true
    else if String.eqb provider "groq" && truthy (GROQ_API_KEY st) then true
    else if String.eqb provider "anthropic" && truthy (ANTHROPIC_API_KEY st)
    then true
    else false in
  {| Health.status := if api_key_configured then "healthy" else "degraded";
     Health.llm_provider := provider;
     Health.llm_model := LLM_MODEL;
     Health.api_key_configured := api_key_configured;
     Health.message := if api_key_configured then "LLM service configured"
                       else "LLM API key not configured" |}.

(** A deployment without the package of the selected provider. *)
Definition env_not_installed : Env :=
  {| settings := groq_settings None;
     installed := fun _ => false;
     backend := fun _ _ => Ok "{}";
     uuid4 := "3f2b8c1e-0000-4000-8000-000000000001" |}.

(** ** YAML documents: [services/yaml_parser.py] and
    [services/validation_service.py]

    What [yaml.safe_load] builds: the JSON kinds of value, scalars of
    other kinds (dates, binary data, sets), mappings whose keys are
    values themselves (an integer, a boolean or [null] can be a key),
    and, for the items of [!!omap] and [!!pairs], tuples. *)

#[local] Unset Elimination Schemes.

Inductive yaml : Type :=
| YNull
| YBool (b : bool)
| YInt (z : Z)
| YFloat (f : float)
| YStr (s : string)
| YOther (text : string)
| YList (l : list yaml)
| YDict (d : list (yaml * yaml))
| YTuple (items : list yaml).

#[local] Set Elimination Schemes.

Definition ydict : Type := list (yaml * yaml).

Module YDict.

(** [d.get(k)] for a [str] key: only a [str] key is equal to it. *)
Fixpoint get (k : string) (d : ydict) : option yaml :=
  match d with
  | [] => None
  | (YStr k', v) :: d' => if String.eqb k k' then Some v else get k d'
  | _ :: d' => get k d'
  end.

(** [k in d] for a [str] key. *)
Definition mem (k : string) (d : ydict) : bool :=
  match get k d with Some _ => true | None => false end.

End YDict.

Module Yaml.

(** The exceptions of this part of the code. *)
Inductive error : Type :=
| YAMLError (msg : string)
| ValueError (msg : string)
| KeyError (msg : string).

Inductive result (A : Type) : Type :=
| Ok (a : A)
| Raise (e : error).

Arguments Ok {A} a.
Arguments Raise {A} e.

End Yaml.

(** [sep.join(l)] *)
Fixpoint join (sep : string) (l : list string) : string :=
  match l with
  | [] => EmptyString
  | [x] => x
  | x :: rest => x ++ sep ++ join sep rest
  end.

Section YamlParser.

(** [yaml.safe_load] and [str] on a value, both of Python's libraries. *)
Variable safe_load : string -> Yaml.result yaml.
Variable py_str : yaml -> string.

(** [parse_yaml_content]; its handlers log and re-raise. *)
Definition parse_yaml_content (yaml_content : string) : Yaml.result ydict :=
  match safe_load yaml_content with
  | Yaml.Raise e => Yaml.Raise e
  | Yaml.Ok YNull => Yaml.Ok []
  | Yaml.Ok (YDict d) => Yaml.Ok d
  | Yaml.Ok _ => Yaml.Raise (Yaml.ValueError "YAML root must be a dictionary")
  end.

Definition required_fields : list string := ["name"; "description"; "version"].

(** [parsed_yaml[k]] *)
Definition subscript (parsed_yaml : ydict) (k : string) : Yaml.result yaml :=
  match YDict.get k parsed_yaml with
  | Some v => Yaml.Ok v
  | None => Yaml.Raise (Yaml.KeyError k)
  end.

(** [extract_metadata]: the three texts, under their keys. *)
Definition extract_metadata (parsed_yaml : ydict)
  : Yaml.result (list (string * string)) :=
  let missing_fields :=
    filter (fun field => negb (YDict.mem field parsed_yaml)) required_fields in
  match missing_fields with
  | _ :: _ =>
      Yaml.Raise (Yaml.KeyError ("Missing required metadata fields: "
                                   ++ join ", " missing_fields))
  | [] =>
      match subscript parsed_yaml "name" with
      | Yaml.Raise e => Yaml.Raise e
      | Yaml.Ok n =>
          match subscript parsed_yaml "description" with
          | Yaml.Raise e => Yaml.Raise e
          | Yaml.Ok d =>
              match subscript parsed_yaml "version" with
              | Yaml.Raise e => Yaml.Raise e
              | Yaml.Ok v =>
                  Yaml.Ok [("name", py_str n); ("description", py_str d);
                           ("version", py_str v)]
              end
          end
      end
  end.

Definition section_keys : list string :=
  ["entities"; "key_terms"; "entity_aliases"; "extraction_patterns";
   "business_context"; "relationship_types"; "relationships";
   "business_patterns"; "reasoning_templates"; "multihop_questions";
   "question_templates"; "business_rules"; "validation_rules"].

(** [count_sections]: the sections are a [dict] with [str] keys. *)
Definition count_sections (parsed_yaml : ydict) : nat * list (string * yaml) :=
  let sections :=
    fold_left (fun sections key =>
                 match YDict.get key parsed_yaml with
                 | Some v => Dict.set key v sections
                 | None => sections
                 end)
              section_keys [] in
  (length sections, sections).

(** [convert_numeric_keys_to_strings]: the comprehension writes the items
    in their order, a later item under the same text replacing the value
    of an earlier one. *)
Fixpoint convert_numeric_keys_to_strings (data : yaml) : yaml :=
  match data with
  | YDict d =>
      YDict (map (fun kv => (YStr (fst kv), snd kv))
               (fold_left
                  (fun acc kv =>
                     Dict.set (py_str (fst kv))
                              (convert_numeric_keys_to_strings (snd kv)) acc)
                  d []))
  | YList l => YList (map convert_numeric_keys_to_strings l)
  | other => other
  end.

End YamlParser.

Definition list_sections : list string :=
  ["entities"; "key_terms"; "extraction_patterns";
   "relationships"; "business_patterns"; "business_rules"].

Definition empty_section_warning (section : string) : string :=
  "Section '" ++ section ++ "' is present but empty".

(** [check_for_warnings] *)
Definition check_for_warnings (parsed_yaml : ydict) : list string :=
  let warnings :=
    fold_left (fun warnings section =>
                 match YDict.get section parsed_yaml with
                 | Some (YList []) =>
                     (warnings ++ [empty_section_warning section])%list
                 | _ => warnings
                 end)
              list_sections [] in
  match YDict.get "entity_aliases" parsed_yaml with
  | Some (YDict []) =>
      (warnings ++ ["Section 'entity_aliases' is present but empty"])%list
  | _ => warnings
  end.

(** Every key of every mapping in [data] is a [str]. *)
Fixpoint str_keys (data : yaml) : bool :=
  match data with
  | YDict d =>
      forallb (fun kv => match fst kv with
                         | YStr _ => str_keys (snd kv)
                         | _ => false
                         end) d
  | YList l => forallb str_keys l
  | YTuple items => forallb str_keys items
  | _ => true
  end.

(** No tuple stands in [data], neither in a list nor as the value of a
    mapping, at any depth. *)
Fixpoint tuple_free (data : yaml) : bool :=
  match data with
  | YDict d => forallb (fun kv => tuple_free (snd kv)) d
  | YList l => forallb tuple_free l
  | YTuple _ => false
  | _ => true
  end.

(** What [yaml.safe_load] gives for an ordered mapping with the item
    [1: {2: a}]: a list with one pair. *)
Definition omap_document : yaml :=
  YList [YTuple [YInt 1; YDict [(YInt 2, YStr "a")]]].

(** A document with its metadata, and [str] on the scalars of the runs
    below (other values are not rendered). *)
Definition metadata_document : ydict :=
  [ (YStr "name", YStr "legal");
    (YStr "description", YStr "Legal domain");
    (YStr "version", YStr "1");
    (YStr "key_terms", YList []) ].

Definition yaml_text (v : yaml) : string :=
  match v with
  | YStr s => s
  | YOther text => text
  | YNull => "None"
  | YBool true => "True"
  | YBool false => "False"
  | _ => "?"
  end.

(** A mapping with a boolean and a text as keys, which have the same
    text. *)
Definition numbered_document : yaml :=
  YDict [(YBool true, YStr "a"); (YStr "True", YList [])].

(** The tests of [check_for_warnings] on a section. *)
Definition empty_list_at (parsed_yaml : ydict) (section : string) : bool :=
  match YDict.get section parsed_yaml with
  | Some (YList []) => true
  | _ => false
  end.

Definition empty_dict_at (parsed_yaml : ydict) (section : string) : bool :=
  match YDict.get section parsed_yaml with
  | Some (YDict []) => true
  | _ => false
  end.

(** ** The routes on YAML files: [api/routes/upload.py],
    [api/routes/validate.py], [models/document.py] and
    [validate_yaml_structure] *)

(** [s.endswith(suffix)] *)
Definition endswith (s suffix : string) : bool :=
  (String.length suffix <=? String.length s)%nat
  && String.eqb (PyStr.drop (String.length s - String.length suffix) s) suffix.

(** [file.filename.endswith(('.yaml', '.yml'))] *)
Definition yaml_extension (filename : string) : bool :=
  endswith filename ".yaml" || endswith filename ".yml".

Module Document.

Record t : Type := {
  filename : string;
  raw_yaml : string;
  parsed_yaml : yaml;
  metadata : list (string * string);
  sections_count : nat;
  sections : yaml;
  uploaded_at : string
}.

End Document.

Module Upload.

Record t : Type := {
  document_id : string;
  filename : string;
  metadata : list (string * string);
  sections_count : nat;
  message : string
}.

End Upload.

Module ValidationResult.

Record t : Type := {
  is_valid : bool;
  errors : list string;
  warnings : list string
}.

End ValidationResult.

(** What a route does: it returns a body or raises an [HTTPException]. *)
Inductive reply (A : Type) : Type :=
| Reply (body : A)
| HTTPError (status_code : Z) (detail : string).

Arguments Reply {A} body.
Arguments HTTPError {A} status_code detail.

(** A mapping with [str] keys, as a value. *)
Definition as_yaml (d : list (string * yaml)) : yaml :=
  YDict (map (fun kv => (YStr (fst kv), snd kv)) d).

Definition is_str_key (kv : yaml * yaml) : bool :=
  match fst kv with YStr _ => true | _ => false end.

Section Routes.

(** Python's libraries: [yaml.safe_load]; [str] on a value and [repr] on
    a [str]; [datetime.utcnow]; the collection's [insert_one], which
    gives the text of the new identifier or raises. *)
Variable safe_load : string -> Yaml.result yaml.
Variable py_str : yaml -> string.
Variable py_repr : string -> string.
Variable utcnow : string.
Variable insert_one : Document.t -> option string.

(** Pydantic on the value of one field of [DomainConfigModel]: the
    errors of the value against the annotation of the field, each with
    the texts of its place below the field and its message. Calling
    [DomainConfigModel] with the items of [parsed_yaml] as keywords
    raises a [TypeError], of this text, on a key that is no [str]. *)
Variable value_errors : string -> yaml -> list (list string * string).
Variable keywords_error : string.

(** [str(e)]: a [KeyError] shows its argument as [repr] does. *)
Definition str_of_error (e : Yaml.error) : string :=
  match e with
  | Yaml.YAMLError msg => msg
  | Yaml.ValueError msg => msg
  | Yaml.KeyError msg => py_repr msg
  end.

Definition unexpected {A : Type} (e : Yaml.error) : reply A :=
  HTTPError 500 ("An unexpected error occurred: " ++ str_of_error e).

(** [build_yaml_document] *)
Definition build_yaml_document (filename raw_yaml : string) (parsed_yaml : yaml)
           (metadata : list (string * string)) (sections_count : nat)
           (sections : yaml) : Document.t :=
  {| Document.filename := filename;
     Document.raw_yaml := raw_yaml;
     Document.parsed_yaml := parsed_yaml;
     Document.metadata := metadata;
     Document.sections_count := sections_count;
     Document.sections := sections;
     Document.uploaded_at := utcnow |}.

(** [upload_yaml], from the name of the file and from what reading and
    decoding it gave: its text, or the text of the exception. *)
Definition upload_yaml (filename : string) (file_read : string + string)
  : reply Upload.t :=
  if negb (yaml_extension filename) then
    HTTPError 400 "File must be a YAML file (.yaml or .yml)"
  else
    match file_read with
    | inr e => HTTPError 400 ("Error reading file: " ++ e)
    | inl yaml_content =>
        match parse_yaml_content safe_load yaml_content with
        | Yaml.Raise (Yaml.YAMLError msg) =>
            HTTPError 400 ("Invalid YAML syntax: " ++ msg)
        | Yaml.Raise e => unexpected e
        | Yaml.Ok parsed_yaml =>
            match extract_metadata py_str parsed_yaml with
            | Yaml.Raise (Yaml.KeyError msg) => HTTPError 400 (py_repr msg)
            | Yaml.Raise e => unexpected e
            | Yaml.Ok metadata =>
                let sections_count := fst (count_sections parsed_yaml) in
                let sections := snd (count_sections parsed_yaml) in
                let parsed_yaml' :=
                  convert_numeric_keys_to_strings py_str (YDict parsed_yaml) in
                let sections' :=
                  convert_numeric_keys_to_strings py_str (as_yaml sections) in
                let document :=
                  build_yaml_document filename yaml_content parsed_yaml'
                                      metadata sections_count sections' in
                match insert_one document with
                | None =>
                    HTTPError 500 "Error storing document in database. Please ensure MongoDB is running."
                | Some document_id =>
                    Reply {| Upload.document_id := document_id;
                             Upload.filename := filename;
                             Upload.metadata := metadata;
                             Upload.sections_count := sections_count;
                             Upload.message :=
                               "YAML file '" ++ filename
                                 ++ "' uploaded and stored successfully" |}
                end
            end
        end
    end.

(** The errors of [DomainConfigModel] on a document with [str] keys, in
    the order of its fields: the three required texts, then the
    thirteen optional sections. Other keys are allowed. *)
Definition field_required (parsed_yaml : ydict) (field : string)
  : list (list string * string) :=
  match YDict.get field parsed_yaml with
  | None => [([field], "Field required")]
  | Some v => map (fun e => (field :: fst e, snd e)) (value_errors field v)
  end.

Definition field_optional (parsed_yaml : ydict) (field : string)
  : list (list string * string) :=
  match YDict.get field parsed_yaml with
  | None => []
  | Some v => map (fun e => (field :: fst e, snd e)) (value_errors field v)
  end.

Definition DomainConfigModel_errors (parsed_yaml : ydict)
  : list (list string * string) :=
  (flat_map (field_required parsed_yaml) required_fields
     ++ flat_map (field_optional parsed_yaml) section_keys)%list.

(** The line of one error: its place, then its message. *)
Definition error_msg (error : list string * string) : string :=
  join " -> " (fst error) ++ ": " ++ snd error.

(** [validate_yaml_structure] *)
Definition validate_yaml_structure (parsed_yaml : ydict) : ValidationResult.t :=
  if negb (forallb is_str_key parsed_yaml) then
    {| ValidationResult.is_valid := false;
       ValidationResult.errors := ["Validation error: " ++ keywords_error];
       ValidationResult.warnings := [] |}
  else
    match DomainConfigModel_errors parsed_yaml with
    | [] =>
        {| ValidationResult.is_valid := true;
           ValidationResult.errors := [];
           ValidationResult.warnings := check_for_warnings parsed_yaml |}
    | errors =>
        {| ValidationResult.is_valid := false;
           ValidationResult.errors := map error_msg errors;
           ValidationResult.warnings := [] |}
    end.

(** [validate_yaml] *)
Definition validate_yaml (filename : string) (file_read : string + string)
  : reply ValidationResult.t :=
  if negb (yaml_extension filename) then
    HTTPError 400 "File must be a YAML file (.yaml or .yml)"
  else
    match file_read with
    | inr e => HTTPError 400 ("Error reading file: " ++ e)
    | inl yaml_content =>
        match parse_yaml_content safe_load yaml_content with
        | Yaml.Raise (Yaml.YAMLError msg) =>
            Reply {| ValidationResult.is_valid := false;
                     ValidationResult.errors := ["Invalid YAML syntax: " ++ msg];
                     ValidationResult.warnings := [] |}
        | Yaml.Raise (Yaml.ValueError msg) =>
            Reply {| ValidationResult.is_valid := false;
                     ValidationResult.errors := [msg];
                     ValidationResult.warnings := [] |}
        | Yaml.Raise e => unexpected e
        | Yaml.Ok parsed_yaml => Reply (validate_yaml_structure parsed_yaml)
        end
    end.

End Routes.

(** The text of [metadata_document], as a mapping in flow style. *)
Definition metadata_text : string :=
  "{name: legal, description: Legal domain, version: '1', key_terms: []}".

(** A loader, a [repr] and a collection for the runs of the routes. *)
Definition load_sample (yaml_content : string) : Yaml.result yaml :=
  if String.eqb yaml_content metadata_text then
    Yaml.Ok (YDict metadata_document)
  else if String.eqb yaml_content "- a" then Yaml.Ok (YList [YStr "a"])
  else if String.eqb yaml_content "# nothing" then Yaml.Ok YNull
  else Yaml.Raise (Yaml.YAMLError "mapping values are not allowed here").

Definition quoted (s : string) : string := "'" ++ s ++ "'".

Definition insert_first (document : Document.t) : option string :=
  Some "65f0c0ffee".

Definition no_value_errors (field : string) (v : yaml)
  : list (list string * string) := [].

(** * Properties *)

(** ** Dictionaries *)

Section DictFacts.

Context {A : Type}.
Implicit Types (k : string) (v : A) (d : list (string * A)).

Lemma get_set_same k v d : Dict.get k (Dict.set k v d) = Some v.
Proof.
  induction d as [|[k' v'] d IH]; simpl.
  - now rewrite String.eqb_refl.
  - destruct (String.eqb k k') eqn:E; simpl.
    + now rewrite String.eqb_refl.
    + now rewrite E.
Qed.

Lemma get_set_other k k' v d :
  k <> k' -> Dict.get k (Dict.set k' v d) = Dict.get k d.
Proof.
  intros Hne. induction d as [|[k0 v0] d IH]; simpl.
  - apply String.eqb_neq in Hne. now rewrite Hne.
  - destruct (String.eqb k' k0) eqn:E; simpl.
    + apply String.eqb_eq in E. subst k0.
      apply String.eqb_neq in Hne. now rewrite Hne.
    + destruct (String.eqb k k0); auto.
Qed.

Lemma set_present k v d : Dict.get k d = Some v -> Dict.set k v d = d.
Proof.
  induction d as [|[k' v'] d IH]; simpl; [discriminate|].
  destruct (String.eqb k k') eqn:E.
  - apply String.eqb_eq in E. now intros [= ->]; subst.
  - intros H. now rewrite IH.
Qed.

Lemma mem_true k d : Dict.mem k d = true <-> exists v, Dict.get k d = Some v.
Proof.
  unfold Dict.mem. destruct (Dict.get k d); split; eauto; try discriminate.
  intros [v [=]].
Qed.

Lemma mem_false k d : Dict.mem k d = false <-> Dict.get k d = None.
Proof.
  unfold Dict.mem. destruct (Dict.get k d); split; auto; discriminate.
Qed.

End DictFacts.

Lemma get_setdefault_other k k' v (d : dict) :
  k <> k' -> Dict.get k (setdefault k' v d) = Dict.get k d.
Proof.
  intros Hne. unfold setdefault. destruct (Dict.mem k' d); auto.
  now apply get_set_other.
Qed.

Lemma get_setdefault_present k k' v x (d : dict) :
  Dict.get k d = Some x -> Dict.get k (setdefault k' v d) = Some x.
Proof.
  intros H. unfold setdefault. destruct (Dict.mem k' d) eqn:M; auto.
  destruct (String.eqb_spec k k') as [->|Hne].
  - apply mem_false in M. congruence.
  - now rewrite get_set_other.
Qed.

Lemma get_setdefault_absent k v (d : dict) :
  Dict.get k d = None -> Dict.get k (setdefault k v d) = Some v.
Proof.
  intros H. unfold setdefault. apply mem_false in H. rewrite H.
  apply get_set_same.
Qed.

Lemma has_get (k : string) (p : json -> bool) (d : dict) :
  has k p d = true -> exists v, Dict.get k d = Some v /\ p v = true.
Proof.
  unfold has. destruct (Dict.get k d); [eauto | discriminate].
Qed.

Lemma has_mem (k : string) (p : json -> bool) (d : dict) :
  has k p d = true -> Dict.mem k d = true.
Proof.
  intros H. apply has_get in H as (v & Hv & _). apply mem_true. eauto.
Qed.

Lemma setdefault_mem k v (d : dict) :
  Dict.mem k d = true -> setdefault k v d = d.
Proof. intros H. unfold setdefault. now rewrite H. Qed.

(** ** The normalizer, step by step *)

Lemma normalize_entities_other k (d : dict) :
  k <> "entities_involved" ->
  Dict.get k (normalize_entities d) = Dict.get k d.
Proof.
  intros Hne. unfold normalize_entities.
  destruct (Dict.get "entities_involved" d) as [[]|]; auto.
  now apply get_set_other.
Qed.

Lemma normalize_payload_other k (d : dict) :
  k <> "payload" -> Dict.get k (normalize_payload d) = Dict.get k d.
Proof.
  intros Hne. unfold normalize_payload.
  destruct (Dict.get "payload" d) as [[]|]; auto;
    try destruct (_ && _); now apply get_set_other.
Qed.

Lemma normalize_constraints_other k (d : dict) :
  k <> "constraints" -> Dict.get k (normalize_constraints d) = Dict.get k d.
Proof.
  intros Hne. unfold normalize_constraints.
  destruct (Dict.get "constraints" d) as [[]|]; auto; now apply get_set_other.
Qed.

Lemma normalize_validation_requirements_other k (d : dict) :
  k <> "validation_requirements" ->
  Dict.get k (normalize_validation_requirements d) = Dict.get k d.
Proof.
  intros Hne. unfold normalize_validation_requirements.
  destruct (Dict.get "validation_requirements" d) as [[]|]; auto;
    now apply get_set_other.
Qed.

Lemma fix_entities_spec (l : list json) :
  fix_entities l = map repaired (filter kept l).
Proof.
  induction l as [|[] l IH]; simpl; congruence.
Qed.

Lemma fix_entities_app (l1 l2 : list json) :
  fix_entities (l1 ++ l2) = (fix_entities l1 ++ fix_entities l2)%list.
Proof.
  induction l1 as [|[] l1 IH]; simpl; congruence.
Qed.

Lemma fix_entities_well_typed (l : list json) :
  forallb is_entity l = true -> fix_entities l = l.
Proof.
  induction l as [|e l IH]; simpl; auto.
  intros H. apply andb_true_iff in H as [He Hl].
  destruct e; simpl in He; try discriminate.
  apply andb_true_iff in He as [Ht _]. apply has_mem in Ht.
  rewrite Ht, andb_false_r. simpl. now rewrite IH.
Qed.

(** Each step leaves alone the keys it does not own, and a value of its
    own key that already has the declared shape. *)
Lemma normalize_entities_keeps k v (d : dict) :
  Dict.get k d = Some v -> well_typed k v = true ->
  Dict.get k (normalize_entities d) = Some v.
Proof.
  intros Hg Hw. destruct (String.eqb_spec k "entities_involved") as [->|Hne].
  - unfold normalize_entities. rewrite Hg.
    unfold well_typed in Hw. simpl in Hw.
    destruct v; try discriminate. simpl in Hw.
    rewrite fix_entities_well_typed by assumption. apply get_set_same.
  - now rewrite normalize_entities_other.
Qed.

Lemma normalize_payload_keeps k v (d : dict) :
  Dict.get k d = Some v -> well_typed k v = true ->
  Dict.get k (normalize_payload d) = Some v.
Proof.
  intros Hg Hw. destruct (String.eqb_spec k "payload") as [->|Hne].
  - unfold normalize_payload. rewrite Hg.
    unfold well_typed in Hw. simpl in Hw.
    destruct v; try discriminate.
    apply andb_true_iff in Hw as [He Hi].
    apply has_mem in He. apply has_mem in Hi.
    rewrite He. simpl.
    rewrite (setdefault_mem "explicit") by assumption.
    rewrite (setdefault_mem "implicit") by assumption.
    apply get_set_same.
  - now rewrite normalize_payload_other.
Qed.

Lemma normalize_constraints_keeps k v (d : dict) :
  Dict.get k d = Some v -> well_typed k v = true ->
  Dict.get k (normalize_constraints d) = Some v.
Proof.
  intros Hg Hw. destruct (String.eqb_spec k "constraints") as [->|Hne].
  - unfold normalize_constraints. rewrite Hg.
    unfold well_typed in Hw. simpl in Hw.
    destruct v; try discriminate.
    apply andb_true_iff in Hw as [Hm Ha].
    apply has_mem in Hm. apply has_mem in Ha.
    rewrite (setdefault_mem "must_not_override_existing") by assumption.
    rewrite (setdefault_mem "additional_constraints") by assumption.
    apply get_set_same.
  - now rewrite normalize_constraints_other.
Qed.

Lemma normalize_validation_requirements_keeps k v (d : dict) :
  Dict.get k d = Some v -> well_typed k v = true ->
  Dict.get k (normalize_validation_requirements d) = Some v.
Proof.
  intros Hg Hw.
  destruct (String.eqb_spec k "validation_requirements") as [->|Hne].
  - unfold normalize_validation_requirements. rewrite Hg.
    unfold well_typed in Hw. simpl in Hw.
    destruct v; try discriminate.
    apply andb_true_iff in Hw as [Hw Ha].
    apply andb_true_iff in Hw as [Hs Hd].
    apply has_mem in Hs. apply has_mem in Hd. apply has_mem in Ha.
    rewrite (setdefault_mem "schema_validation") by assumption.
    rewrite (setdefault_mem "duplicate_check") by assumption.
    rewrite (setdefault_mem "additional_validations") by assumption.
    apply get_set_same.
  - now rewrite normalize_validation_requirements_other.
Qed.

(** A key that is present keeps its value through the whole normalizer
    as soon as each step keeps it. *)
Lemma normalize_present k v (d : dict) :
  Dict.get k d = Some v -> well_typed k v = true ->
  Dict.get k (normalize_intent_data d) = Some v.
Proof.
  intros Hg Hw. unfold normalize_intent_data.
  do 3 apply get_setdefault_present.
  apply normalize_validation_requirements_keeps; auto.
  apply normalize_constraints_keeps; auto.
  apply normalize_payload_keeps; auto.
  apply normalize_entities_keeps; auto.
Qed.

(** A key outside [repair_keys] is read the same before and after. *)
Lemma normalize_frame k (d : dict) :
  ~ In k repair_keys ->
  Dict.get k (normalize_intent_data d) = Dict.get k d.
Proof.
  intros Hk. unfold repair_keys in Hk. simpl in Hk.
  unfold normalize_intent_data.
  rewrite !get_setdefault_other by intuition.
  rewrite normalize_validation_requirements_other by intuition.
  rewrite normalize_constraints_other by intuition.
  rewrite normalize_payload_other by intuition.
  rewrite normalize_entities_other by intuition.
  reflexivity.
Qed.

Lemma semantic_keys_not_repaired k : In k semantic_keys -> ~ In k repair_keys.
Proof.
  unfold semantic_keys, repair_keys. simpl.
  intros [<-|[<-|[<-|[<-|[<-|[]]]]]] H;
    repeat (destruct H as [H|H]; [discriminate H|]); exact H.
Qed.

(** C4: normalization leaves every key whose value is present and
    well-typed with that very value, and each of [target_section],
    [operation], [intent_summary], [confidence] and [execution_risk] is
    read the same in the normalized record as in the input: present with
    the same value, or absent in both. *)
Theorem normalize_preserves_well_typed_and_semantic_keys :
  forall (intent_data : dict),
    (forall k v, Dict.get k intent_data = Some v -> well_typed k v = true ->
                 Dict.get k (normalize_intent_data intent_data) = Some v)
    /\ (forall k, In k semantic_keys ->
                  Dict.get k (normalize_intent_data intent_data)
                  = Dict.get k intent_data).
Proof.
  intros d. split.
  - intros k v. apply normalize_present.
  - intros k Hk. apply normalize_frame. now apply semantic_keys_not_repaired.
Qed.

(** ** Payload *)

Lemma normalize_reads_payload (d : dict) :
  Dict.get "payload" (normalize_intent_data d)
  = Dict.get "payload" (normalize_payload (normalize_entities d)).
Proof.
  unfold normalize_intent_data.
  rewrite !get_setdefault_other by discriminate.
  rewrite normalize_validation_requirements_other by discriminate.
  now rewrite normalize_constraints_other by discriminate.
Qed.

Lemma payload_after_entities (d : dict) :
  Dict.get "payload" (normalize_entities d) = Dict.get "payload" d.
Proof. now apply normalize_entities_other. Qed.

(** C5: without a [payload] the normalizer writes
    [{explicit: {}, implicit: {}}]; a [payload] map with neither sub-key
    becomes the value of [explicit], next to an empty [implicit]; a
    [payload] map with exactly one of the two sub-keys gets the other one
    as an empty map, and all its own keys stay as they were. *)
Theorem normalize_payload_cases :
  forall (intent_data : dict),
    (Dict.get "payload" intent_data = None ->
     Dict.get "payload" (normalize_intent_data intent_data) = Some empty_payload)
    /\ (forall p,
          Dict.get "payload" intent_data = Some (JDict p) ->
          Dict.mem "explicit" p = false -> Dict.mem "implicit" p = false ->
          Dict.get "payload" (normalize_intent_data intent_data)
          = Some (JDict [("explicit", JDict p); ("implicit", JDict [])]))
    /\ (forall p missing other,
          Dict.get "payload" intent_data = Some (JDict p) ->
          (missing = "explicit" /\ other = "implicit"
           \/ missing = "implicit" /\ other = "explicit") ->
          Dict.mem missing p = false -> Dict.mem other p = true ->
          exists p',
            Dict.get "payload" (normalize_intent_data intent_data) = Some (JDict p')
            /\ Dict.get missing p' = Some (JDict [])
            /\ forall k, k <> missing -> Dict.get k p' = Dict.get k p).
Proof.
  intros d. rewrite normalize_reads_payload.
  unfold normalize_payload. rewrite payload_after_entities.
  split; [|split].
  - intros ->. apply get_set_same.
  - intros p -> He Hi. rewrite He, Hi. simpl. apply get_set_same.
  - intros p missing other -> Hcase Hm Ho.
    destruct Hcase as [[-> ->]|[-> ->]]; rewrite Hm, Ho; simpl.
    + exists (setdefault "implicit" (JDict []) (setdefault "explicit" (JDict []) p)).
      split; [apply get_set_same|].
      assert (Hp : Dict.get "explicit" (setdefault "explicit" (JDict []) p)
                   = Some (JDict []))
        by (apply get_setdefault_absent; now apply mem_false).
      split.
      * now apply get_setdefault_present.
      * intros k Hk.
        rewrite setdefault_mem.
        -- now apply get_setdefault_other.
        -- unfold setdefault. rewrite Hm.
           apply mem_true. apply mem_true in Ho as [x Hx]. exists x.
           now rewrite get_set_other by discriminate.
    + exists (setdefault "implicit" (JDict []) (setdefault "explicit" (JDict []) p)).
      split; [apply get_set_same|].
      rewrite (setdefault_mem "explicit") by assumption.
      split.
      * apply get_setdefault_absent. now apply mem_false.
      * intros k Hk. now apply get_setdefault_other.
Qed.

(** ** Entities *)

Lemma normalize_reads_entities (d : dict) :
  Dict.get "entities_involved" (normalize_intent_data d)
  = Dict.get "entities_involved" (normalize_entities d).
Proof.
  unfold normalize_intent_data.
  rewrite !get_setdefault_other by discriminate.
  rewrite normalize_validation_requirements_other by discriminate.
  rewrite normalize_constraints_other by discriminate.
  now rewrite normalize_payload_other by discriminate.
Qed.

Lemma normalize_entities_list (d : dict) (l : list json) :
  Dict.get "entities_involved" d = Some (JList l) ->
  Dict.get "entities_involved" (normalize_intent_data d)
  = Some (JList (fix_entities l)).
Proof.
  intros H. rewrite normalize_reads_entities.
  unfold normalize_entities. rewrite H. apply get_set_same.
Qed.

(** C6: in the list under [entities_involved], an entry that is the bare
    string [s] becomes the record with ["type"] (the specification's
    [kind]) ["ENTITY"] and ["name"] [s]; an entry that is a record with a
    ["name"] and no ["type"] gets ["type"] = ["ENTITY"] and keeps every
    other field.  The entries before and after are treated on their
    own. *)
Theorem normalize_entities_entries :
  forall (intent_data : dict) (before after : list json) (entry : json),
    Dict.get "entities_involved" intent_data
    = Some (JList (before ++ entry :: after)) ->
    (forall s, entry = JStr s ->
       Dict.get "entities_involved" (normalize_intent_data intent_data)
       = Some (JList (fix_entities before
                      ++ JDict [("type", JStr "ENTITY"); ("name", JStr s)]
                         :: fix_entities after)))
    /\ (forall e, entry = JDict e ->
          Dict.mem "name" e = true -> Dict.mem "type" e = false ->
          exists e',
            Dict.get "entities_involved" (normalize_intent_data intent_data)
            = Some (JList (fix_entities before ++ JDict e' :: fix_entities after))
            /\ Dict.get "type" e' = Some (JStr "ENTITY")
            /\ forall k, k <> "type" -> Dict.get k e' = Dict.get k e).
Proof.
  intros d before after entry H.
  rewrite (normalize_entities_list _ _ H), fix_entities_app.
  split.
  - intros s ->. reflexivity.
  - intros e -> Hn Ht. exists (Dict.set "type" ENTITY e).
    simpl. rewrite Hn, Ht. simpl. split; [reflexivity|]. split.
    + apply get_set_same.
    + intros k Hk. now apply get_set_other.
Qed.

Lemma filter_length_lt {A : Type} (f : A -> bool) (l : list A) :
  existsb (fun x => negb (f x)) l = true ->
  (length (filter f l) < length l)%nat.
Proof.
  induction l as [|x l IH]; simpl; [discriminate|].
  pose proof (filter_length_le f l) as Hle.
  destruct (f x); simpl; intros H.
  - apply IH in H. lia.
  - lia.
Qed.

(** C10: the normalized [entities_involved] holds, in their original
    order, the repaired entries that are strings or records and nothing
    else; an entry of another kind (a number, [null], a list) is dropped,
    so the list is never longer than the input and is strictly shorter as
    soon as one such entry occurs. *)
Theorem normalize_entities_drops_other_entries :
  forall (intent_data : dict) (entities : list json),
    Dict.get "entities_involved" intent_data = Some (JList entities) ->
    exists fixed,
      Dict.get "entities_involved" (normalize_intent_data intent_data)
      = Some (JList fixed)
      /\ fixed = map repaired (filter kept entities)
      /\ (length fixed <= length entities)%nat
      /\ (forallb kept entities = true -> length fixed = length entities)
      /\ (existsb (fun e => negb (kept e)) entities = true ->
          (length fixed < length entities)%nat).
Proof.
  intros d l H. exists (fix_entities l).
  split; [now apply normalize_entities_list|].
  rewrite fix_entities_spec. split; [reflexivity|].
  rewrite !length_map. split; [apply filter_length_le|]. split.
  - intros Hall. f_equal. clear H. induction l as [|x l IH]; simpl in *; auto.
    apply andb_true_iff in Hall as [-> Hl]. now rewrite IH.
  - apply filter_length_lt.
Qed.

(** ** Identifiers filled in by [generate_intent] *)

Lemma normalize_keeps_identifiers (d : dict) :
  Dict.get "intent_id" (normalize_intent_data d) = Dict.get "intent_id" d
  /\ Dict.get "domain_pack_id" (normalize_intent_data d)
     = Dict.get "domain_pack_id" d.
Proof.
  split; apply normalize_frame; unfold repair_keys; simpl;
    intros H; repeat (destruct H as [H|H]; [discriminate H|]); exact H.
Qed.

Lemma ensure_ids_intent_id env pack (d : dict) :
  Dict.get "intent_id" (ensure_ids env pack d)
  = match Dict.get "intent_id" d with
    | Some v => Some v
    | None => Some (JStr (uuid4 env))
    end.
Proof.
  unfold ensure_ids. cbv zeta.
  match goal with
  | |- context [negb (Dict.mem "domain_pack_id" ?x)] =>
      destruct (negb (Dict.mem "domain_pack_id" x))
  end; rewrite ?get_set_other by discriminate;
    unfold Dict.mem; destruct (Dict.get "intent_id" d) eqn:E; simpl; auto;
    apply get_set_same.
Qed.

Lemma ensure_ids_domain_pack_id env pack (d : dict) :
  Dict.get "domain_pack_id" (ensure_ids env pack d)
  = match Dict.get "domain_pack_id" d with
    | Some v => Some v
    | None => Some (JStr pack)
    end.
Proof.
  unfold ensure_ids. cbv zeta.
  set (d1 := if negb (Dict.mem "intent_id" d)
             then Dict.set "intent_id" (JStr (uuid4 env)) d else d).
  assert (H1 : Dict.get "domain_pack_id" d1 = Dict.get "domain_pack_id" d).
  { subst d1. destruct (negb (Dict.mem "intent_id" d)); auto.
    now rewrite get_set_other by discriminate. }
  unfold Dict.mem. rewrite H1.
  destruct (Dict.get "domain_pack_id" d) eqn:E; simpl; auto.
  apply get_set_same.
Qed.

Lemma ensure_ids_other env pack k (d : dict) :
  k <> "intent_id" -> k <> "domain_pack_id" ->
  Dict.get k (ensure_ids env pack d) = Dict.get k d.
Proof.
  intros H1 H2. unfold ensure_ids. cbv zeta.
  match goal with
  | |- context [negb (Dict.mem "domain_pack_id" ?x)] =>
      destruct (negb (Dict.mem "domain_pack_id" x))
  end; destruct (negb (Dict.mem "intent_id" d));
    now rewrite ?get_set_other by assumption.
Qed.

(** C9: when the backend's text yields the record [extracted], the
    normalizer leaves [intent_id] and [domain_pack_id] as they are
    (present or absent), and [generate_intent] then returns a record whose
    [intent_id] is the extracted one when there is one and the token of
    [uuid.uuid4()] otherwise, whose [domain_pack_id] (the specification's
    [target_identifier]) is the extracted one when there is one and the
    request's otherwise, and whose other keys are those of the normalized
    record. *)
Theorem generate_intent_fills_identifiers :
  forall (json_loads : string -> option json) (env : Env)
         (request : IntentRequest) (provider : LLMProvider)
         (raw_output : string) (extracted : dict),
    get_llm_provider env = Ok provider ->
    Tenacity.outcome (generate env provider) = Ok raw_output ->
    parse_llm_output json_loads raw_output = Ok (JDict extracted) ->
    Dict.get "intent_id" (normalize_intent_data extracted)
    = Dict.get "intent_id" extracted
    /\ Dict.get "domain_pack_id" (normalize_intent_data extracted)
       = Dict.get "domain_pack_id" extracted
    /\ exists intent_data,
         generate_intent json_loads env request = Ok intent_data
         /\ Dict.get "intent_id" intent_data
            = match Dict.get "intent_id" extracted with
              | Some v => Some v
              | None => Some (JStr (uuid4 env))
              end
         /\ Dict.get "domain_pack_id" intent_data
            = match Dict.get "domain_pack_id" extracted with
              | Some v => Some v
              | None => Some (JStr (req_domain_pack_id request))
              end
         /\ forall k, k <> "intent_id" -> k <> "domain_pack_id" ->
                      Dict.get k intent_data
                      = Dict.get k (normalize_intent_data extracted).
Proof.
  intros jl env request provider raw extracted Hp Hg He.
  destruct (normalize_keeps_identifiers extracted) as [Hi Hd].
  split; [exact Hi|]. split; [exact Hd|].
  exists (ensure_ids env (req_domain_pack_id request)
                     (normalize_intent_data extracted)).
  split.
  - unfold generate_intent. rewrite Hp. simpl. rewrite Hg. simpl.
    rewrite He. reflexivity.
  - rewrite ensure_ids_intent_id, ensure_ids_domain_pack_id, Hi, Hd.
    split; [reflexivity|]. split; [reflexivity|].
    intros k H1 H2. now apply ensure_ids_other.
Qed.

(** ** The retry policy *)

Section RetryFacts.

Import Tenacity.

Lemma wait_exponential_bounds multiplier min max n :
  0 <= min <= max ->
  min <= wait_exponential multiplier min max n <= max.
Proof. unfold wait_exponential. lia. Qed.

Lemma wait_exponential_mono multiplier min max n :
  0 <= multiplier ->
  wait_exponential multiplier min max n
  <= wait_exponential multiplier min max (S n).
Proof.
  intros Hm. unfold wait_exponential.
  assert (H : 2 ^ (Z.of_nat n - 1) <= 2 ^ (Z.of_nat (S n) - 1))
    by (apply Z.pow_le_mono_r; lia).
  assert (H' : multiplier * 2 ^ (Z.of_nat n - 1)
               <= multiplier * 2 ^ (Z.of_nat (S n) - 1))
    by (apply Z.mul_le_mono_nonneg_l; assumption).
  lia.
Qed.

Lemma sorted_map_seq (w : nat -> Z) :
  (forall n, w n <= w (S n)) ->
  forall n k, Sorted Z.le (map w (seq k n)).
Proof.
  intros Hw. induction n as [|n IH]; intros k; simpl; constructor.
  - apply IH.
  - destruct n; simpl; constructor. apply Hw.
Qed.

Context {A : Type} (r : Retrying) (fn : nat -> result A).

(** What the loop has done when it stops. *)
Lemma attempt_loop_spec :
  forall remaining k slept,
    let run := attempt_loop r fn remaining k slept in
    (k <= attempts run <= k + remaining)%nat
    /\ sleeps run = (slept ++ map (wait r) (seq k (attempts run - k)))%list
    /\ (forall j, (k <= j < attempts run)%nat -> exists e, fn j = Raise e)
    /\ ((exists a, fn (attempts run) = Ok a /\ outcome run = Ok a)
        \/ (exists e, fn (attempts run) = Raise e
                      /\ attempts run = (k + remaining)%nat
                      /\ outcome run
                         = Raise (if reraise r then e else RetryError e))).
Proof.
  induction remaining as [|remaining IH]; intros k slept; simpl.
  - destruct (fn k) as [a|e] eqn:E; simpl.
    + rewrite Nat.sub_diag. simpl. rewrite app_nil_r.
      repeat split; try lia. left. exists a. now rewrite E.
    + rewrite Nat.sub_diag. simpl. rewrite app_nil_r.
      repeat split; try lia. right. exists e. rewrite E.
      repeat split. lia.
  - destruct (fn k) as [a|e] eqn:E; simpl.
    + rewrite Nat.sub_diag. simpl. rewrite app_nil_r.
      repeat split; try lia. left. exists a. now rewrite E.
    + specialize (IH (S k) (slept ++ [wait r k])%list).
      simpl in IH. destruct IH as (Hb & Hs & Hf & Ho).
      set (run := attempt_loop r fn remaining (S k) (slept ++ [wait r k])) in *.
      split; [lia|]. split; [|split].
      * rewrite Hs, <- app_assoc. f_equal.
        replace (attempts run - k)%nat with (S (attempts run - S k)) by lia.
        reflexivity.
      * intros j Hj. destruct (Nat.eq_dec j k) as [->|Hne]; [eauto|].
        apply Hf. lia.
      * destruct Ho as [Ho|(e' & He' & Ha & Ho)]; [now left|].
        right. exists e'. repeat split; auto. lia.
Qed.

End RetryFacts.

Lemma generate_run (env : Env) (p : LLMProvider) :
  let run := generate env p in
  (1 <= Tenacity.attempts run <= 3)%nat
  /\ Tenacity.sleeps run
     = map (Tenacity.wait_exponential 1 2 10)
           (seq 1 (Tenacity.attempts run - 1))
  /\ (forall j, (1 <= j < Tenacity.attempts run)%nat ->
                exists e, backend env p j = Raise e)
  /\ ((exists a, backend env p (Tenacity.attempts run) = Ok a
                 /\ Tenacity.outcome run = Ok a)
      \/ (exists e, backend env p 3 = Raise e
                    /\ Tenacity.attempts run = 3%nat
                    /\ Tenacity.outcome run = Raise (RetryError e))).
Proof.
  pose proof (attempt_loop_spec generate_retry (backend env p) 2 1 []) as H.
  simpl in H. destruct H as (Hb & Hs & Hf & Ho).
  unfold generate, Tenacity.call. simpl.
  split; [lia|]. split; [exact Hs|]. split; [exact Hf|].
  destruct Ho as [Ho|(e & He & Ha & Ho)]; [now left|].
  right. exists e. rewrite Ha in He. auto.
Qed.

(** C3, as the code has it: a failure of the construction of the provider
    leaves [generate_intent] at once, with no call of the backend; a call
    of [generate] runs the backend between one and three times, every run
    but the last having failed; the sleeps between the runs are the
    values of the exponential wait, each between 2 and 10 seconds, in
    non-decreasing order; a success of a run is returned as it is; and
    when the third run fails too, the call raises a [RetryError] that
    holds the failure of that last run. *)
Theorem retry_policy :
  forall (env : Env),
    (forall json_loads request e,
        get_llm_provider env = Raise e ->
        backend_calls env = O
        /\ generate_intent json_loads env request = Raise e)
    /\ (forall p,
          let run := generate env p in
          (1 <= Tenacity.attempts run <= 3)%nat
          /\ length (Tenacity.sleeps run) = (Tenacity.attempts run - 1)%nat
          /\ (forall s, In s (Tenacity.sleeps run) -> 2 <= s <= 10)
          /\ Sorted Z.le (Tenacity.sleeps run)
          /\ (forall j, (1 <= j < Tenacity.attempts run)%nat ->
                        exists e, backend env p j = Raise e)
          /\ (forall a, Tenacity.outcome run = Ok a ->
                        backend env p (Tenacity.attempts run) = Ok a)
          /\ (forall e, Tenacity.outcome run = Raise e ->
                        Tenacity.attempts run = 3%nat
                        /\ exists last,
                             backend env p 3 = Raise last
                             /\ e = RetryError last)).
Proof.
  intros env. split.
  - intros jl request e H. unfold backend_calls, generate_intent.
    now rewrite H.
  - intros p. destruct (generate_run env p) as (Hb & Hs & Hf & Ho).
    cbv zeta. split; [exact Hb|]. split; [|split; [|split; [|split]]].
    + now rewrite Hs, length_map, length_seq.
    + intros s Hin. rewrite Hs in Hin. apply in_map_iff in Hin as (n & <- & _).
      apply wait_exponential_bounds. lia.
    + rewrite Hs. apply sorted_map_seq.
      intros n. apply wait_exponential_mono. lia.
    + exact Hf.
    + split.
      * intros a Ha. destruct Ho as [(a' & Hb' & Ho)|(e & _ & _ & Ho)];
          congruence.
      * intros e He. destruct Ho as [(a' & _ & Ho)|(e' & Hb' & Ha & Ho)];
          [congruence|].
        split; [exact Ha|]. exists e'. split; [exact Hb'|]. congruence.
Qed.

(** ** Strings: searching and slicing a text cut in pieces *)

Section StringFacts.

Import PyStr.

Lemma len_nonneg s : 0 <= len s.
Proof. unfold len. lia. Qed.

Lemma length_app (a b : string) :
  String.length (a ++ b) = (String.length a + String.length b)%nat.
Proof. induction a as [|c a IH]; simpl; congruence. Qed.

Lemma len_app (a b : string) : len (a ++ b) = len a + len b.
Proof. unfold len. rewrite length_app. lia. Qed.

Lemma app_assoc_string (a b c : string) : ((a ++ b) ++ c = a ++ (b ++ c))%string.
Proof. induction a as [|x a IH]; simpl; congruence. Qed.

Lemma drop_app (a b : string) : drop (String.length a) (a ++ b) = b.
Proof. induction a as [|c a IH]; simpl; auto. Qed.

Lemma take_app (a b : string) : take (String.length a) (a ++ b) = a.
Proof. induction a as [|c a IH]; simpl; congruence. Qed.

Lemma prefix_app (a b s : string) :
  prefix (a ++ b) s = true -> prefix a s = true.
Proof.
  revert s. induction a as [|c a IH]; intros s; simpl.
  - now destruct s.
  - destruct s as [|c' s]; simpl; [discriminate|].
    destruct (ascii_dec c c'); [apply IH | discriminate].
Qed.

Lemma find_aux_range sub s pos :
  0 <= pos -> find_aux sub s pos = -1 \/ pos <= find_aux sub s pos.
Proof.
  revert pos. induction s as [|c s IH]; intros pos Hpos; cbn [find_aux].
  - destruct (prefix sub EmptyString); lia.
  - destruct (prefix sub (String c s)); [lia|].
    destruct (IH (pos + 1)); lia.
Qed.

(** Searching from a later position shifts the answer. *)
Lemma find_aux_shift sub s pos :
  0 <= pos ->
  find_aux sub s pos
  = if find_aux sub s 0 =? -1 then -1 else pos + find_aux sub s 0.
Proof.
  revert pos. induction s as [|c s IH]; intros pos Hpos; cbn [find_aux].
  - destruct (prefix sub EmptyString); simpl; lia.
  - destruct (prefix sub (String c s)); [simpl; lia|].
    rewrite (IH (pos + 1)), (IH (0 + 1)) by lia.
    destruct (find_aux_range sub s 0 ltac:(lia)) as [->|H]; [reflexivity|].
    destruct (find_aux sub s 0 =? -1) eqn:E; [lia|].
    destruct (0 + 1 + find_aux sub s 0 =? -1) eqn:E'; lia.
Qed.

Lemma find_is_find_aux s sub : find s sub = find_aux sub s 0.
Proof.
  unfold find, find_from. simpl.
  pose proof (len_nonneg s).
  destruct (0 >? len s) eqn:E; [lia | reflexivity].
Qed.

(** A pattern that does not occur has no longer pattern starting with
    it that occurs. *)
Lemma find_aux_longer a b s pos :
  0 <= pos -> find_aux a s pos = -1 -> find_aux (a ++ b) s pos = -1.
Proof.
  revert pos. induction s as [|c s IH]; intros pos Hpos; cbn [find_aux].
  - destruct (prefix a EmptyString) eqn:E; [lia|].
    destruct (prefix (a ++ b) EmptyString) eqn:E'; auto.
    apply prefix_app in E'. congruence.
  - destruct (prefix a (String c s)) eqn:E; [lia|].
    destruct (prefix (a ++ b) (String c s)) eqn:E'.
    + apply prefix_app in E'. congruence.
    + apply IH. lia.
Qed.

Lemma contains_longer s a b :
  contains s a = false -> contains s (a ++ b) = false.
Proof.
  unfold contains. rewrite !find_is_find_aux.
  intros H. apply negb_false_iff in H. apply Z.eqb_eq in H.
  apply negb_false_iff. apply Z.eqb_eq.
  apply find_aux_longer; [lia | exact H].
Qed.

Lemma contains_at s sub n : find s sub = n -> 0 <= n -> contains s sub = true.
Proof.
  intros H Hn. unfold contains. rewrite H.
  apply negb_true_iff. apply Z.eqb_neq. lia.
Qed.

(** The first [fence] at or after the end of [pre ++ opening], when the
    first one of what follows closes [body]. *)
Lemma find_from_after (pre opening body fence post : string) :
  find (body ++ fence ++ post) fence = len body ->
  find_from (pre ++ opening ++ body ++ fence ++ post) fence
            (len pre + len opening)
  = len pre + len opening + len body.
Proof.
  intros H. rewrite find_is_find_aux in H.
  unfold find_from.
  pose proof (len_nonneg pre). pose proof (len_nonneg opening).
  pose proof (len_nonneg (body ++ fence ++ post)).
  replace (len pre + len opening <? 0) with false by lia.
  rewrite <- app_assoc_string, len_app, len_app.
  replace (len pre + len opening >? len pre + len opening
                                    + len (body ++ fence ++ post))
    with false by lia.
  replace (Z.to_nat (len pre + len opening))
    with (String.length (pre ++ opening))
    by (rewrite length_app; unfold len; lia).
  rewrite drop_app, find_aux_shift by lia.
  rewrite H. pose proof (len_nonneg body).
  destruct (len body =? -1) eqn:E; lia.
Qed.

(** The slice that starts after [a] and has the length of [b]. *)
Lemma slice_middle (a b c : string) :
  slice (a ++ b ++ c) (len a) (len a + len b) = b.
Proof.
  unfold slice, adjust. rewrite !len_app.
  pose proof (len_nonneg a). pose proof (len_nonneg b).
  pose proof (len_nonneg c).
  replace (len a <? 0) with false by lia.
  replace (len a + len b <? 0) with false by lia.
  rewrite !Z.min_l by lia.
  replace (Z.to_nat (len a)) with (String.length a) by (unfold len; lia).
  replace (Z.to_nat (len a + len b - len a)) with (String.length b)
    by (unfold len; lia).
  now rewrite drop_app, take_app.
Qed.

End StringFacts.

(** ** Extraction *)

Section ExtractionFacts.

Import PyStr.

Variable json_loads : string -> option json.

(** The interior that the code cuts out of a text with a closed block. *)
Lemma fenced_block (pre opening body post : string) :
  let raw := pre ++ opening ++ body ++ "```" ++ post in
  find raw opening = len pre ->
  find (body ++ "```" ++ post) "```" = len body ->
  slice raw (find raw opening + len opening)
        (find_from raw "```" (find raw opening + len opening))
  = body.
Proof.
  intros raw H1 H2. rewrite H1. subst raw.
  rewrite find_from_after by assumption.
  rewrite <- (app_assoc_string pre opening), <- len_app.
  apply slice_middle.
Qed.

Lemma no_fence_no_tag raw :
  contains raw "```" = false -> contains raw "```json" = false.
Proof. intros H. exact (contains_longer raw "```" "json" H). Qed.

Lemma parse_direct raw v :
  json_loads raw = Some v -> parse_llm_output json_loads raw = Ok v.
Proof. intros H. unfold parse_llm_output. now rewrite H. Qed.

Lemma parse_tagged_block pre body post :
  let raw := pre ++ "```json" ++ body ++ "```" ++ post in
  json_loads raw = None ->
  find raw "```json" = len pre ->
  find (body ++ "```" ++ post) "```" = len body ->
  parse_llm_output json_loads raw = loads json_loads (strip body).
Proof.
  intros raw Hn H1 H2. unfold parse_llm_output. rewrite Hn.
  rewrite (contains_at raw "```json" (len pre)) by (auto using len_nonneg).
  change (find raw "```json" + 7) with (find raw "```json" + len "```json").
  unfold raw. now rewrite fenced_block.
Qed.

Lemma parse_plain_block pre body post :
  let raw := pre ++ "```" ++ body ++ "```" ++ post in
  json_loads raw = None ->
  contains raw "```json" = false ->
  find raw "```" = len pre ->
  find (body ++ "```" ++ post) "```" = len body ->
  parse_llm_output json_loads raw = loads json_loads (strip body).
Proof.
  intros raw Hn Hc H1 H2. unfold parse_llm_output. rewrite Hn, Hc.
  rewrite (contains_at raw "```" (len pre)) by (auto using len_nonneg).
  change (find raw "```" + 3) with (find raw "```" + len "```").
  unfold raw. now rewrite fenced_block.
Qed.

Lemma parse_brace_span pre mid post :
  let raw := pre ++ "{" ++ mid ++ "}" ++ post in
  json_loads raw = None ->
  contains raw "```" = false ->
  find raw "{" = len pre ->
  rfind raw "}" = len pre + 1 + len mid ->
  parse_llm_output json_loads raw = loads json_loads ("{" ++ mid ++ "}").
Proof.
  intros raw Hn Hc H1 H2. unfold parse_llm_output. rewrite Hn.
  rewrite (no_fence_no_tag raw Hc), Hc, H1, H2.
  pose proof (len_nonneg pre). pose proof (len_nonneg mid).
  replace (len pre =? -1) with false by lia.
  replace (len pre + 1 + len mid + 1 >? len pre) with true by lia.
  simpl negb. simpl andb.
  replace (len pre + 1 + len mid + 1) with (len pre + len ("{" ++ mid ++ "}")).
  - unfold raw.
    replace ("{" ++ mid ++ "}" ++ post)%string
      with (("{" ++ mid ++ "}") ++ post)%string.
    + now rewrite slice_middle.
    + simpl. f_equal. apply app_assoc_string.
  - rewrite !len_app. change (len "{") with 1. change (len "}") with 1. lia.
Qed.

Lemma parse_no_span raw :
  json_loads raw = None ->
  contains raw "```" = false ->
  find raw "{" = -1 \/ rfind raw "}" < find raw "{" ->
  parse_llm_output json_loads raw = Raise no_json_found.
Proof.
  intros Hn Hc Hs. unfold parse_llm_output. rewrite Hn.
  rewrite (no_fence_no_tag raw Hc), Hc.
  destruct Hs as [->|Hlt]; [reflexivity|].
  replace (rfind raw "}" + 1 >? find raw "{") with false by lia.
  now rewrite andb_false_r.
Qed.

(** Whatever comes back was parsed from some text, and whatever is
    raised is one of two errors. *)
Lemma parse_outcome raw :
  (forall v, parse_llm_output json_loads raw = Ok v ->
             exists text, json_loads text = Some v)
  /\ (forall e, parse_llm_output json_loads raw = Raise e ->
                e = JSONDecodeError \/ e = no_json_found).
Proof.
  unfold parse_llm_output, loads.
  destruct (json_loads raw) as [v0|] eqn:E0.
  - split; [intros v [= <-]; eauto | discriminate].
  - repeat match goal with
           | |- context [if ?b then _ else _] => destruct b
           | |- context [match json_loads ?t with _ => _ end] =>
               let E := fresh "E" in destruct (json_loads t) eqn:E
           end;
      (split; [intros v H | intros e H]); inversion H; subst; eauto.
Qed.

Lemma extraction_error_is_value_error raw e :
  parse_llm_output json_loads raw = Raise e -> is_ValueError e = true.
Proof.
  intros H. apply (proj2 (parse_outcome raw)) in H as [->| ->]; reflexivity.
Qed.

End ExtractionFacts.

(** C2, as the code has it: a text that parses as a whole gives that
    value.  Otherwise one further attempt is made and its outcome is
    final: on a text with a json-tagged block, the interior of the first
    such block, stripped; else, on a text with a fenced block, the
    interior of the first block, stripped; else, on a text with no fence,
    the span from the first opening brace to the last closing brace,
    both included, and the error "Could not extract valid JSON from LLM
    output" when there is no such span.  A value that is returned was
    parsed from a text, and a failure is a decode error or that error.
    The example text yields the record that maps ["a"] to 1. *)
Theorem parse_llm_output_attempts :
  (forall (json_loads : string -> option json),
      (forall raw v,
          json_loads raw = Some v -> parse_llm_output json_loads raw = Ok v)
      /\ (forall pre body post,
            let raw := pre ++ "```json" ++ body ++ "```" ++ post in
            json_loads raw = None ->
            PyStr.find raw "```json" = PyStr.len pre ->
            PyStr.find (body ++ "```" ++ post) "```" = PyStr.len body ->
            parse_llm_output json_loads raw
            = loads json_loads (PyStr.strip body))
      /\ (forall pre body post,
            let raw := pre ++ "```" ++ body ++ "```" ++ post in
            json_loads raw = None ->
            PyStr.contains raw "```json" = false ->
            PyStr.find raw "```" = PyStr.len pre ->
            PyStr.find (body ++ "```" ++ post) "```" = PyStr.len body ->
            parse_llm_output json_loads raw
            = loads json_loads (PyStr.strip body))
      /\ (forall pre mid post,
            let raw := pre ++ "{" ++ mid ++ "}" ++ post in
            json_loads raw = None ->
            PyStr.contains raw "```" = false ->
            PyStr.find raw "{" = PyStr.len pre ->
            PyStr.rfind raw "}" = PyStr.len pre + 1 + PyStr.len mid ->
            parse_llm_output json_loads raw
            = loads json_loads ("{" ++ mid ++ "}"))
      /\ (forall raw,
            json_loads raw = None ->
            PyStr.contains raw "```" = false ->
            PyStr.find raw "{" = -1
            \/ PyStr.rfind raw "}" < PyStr.find raw "{" ->
            parse_llm_output json_loads raw = Raise no_json_found)
      /\ (forall raw v,
            parse_llm_output json_loads raw = Ok v ->
            exists text, json_loads text = Some v)
      /\ (forall raw e,
            parse_llm_output json_loads raw = Raise e ->
            e = JSONDecodeError \/ e = no_json_found))
  /\ parse_llm_output JsonText.loads fenced_example
     = Ok (JDict [("a", JInt 1)]).
Proof.
  split.
  - intros jl. repeat split.
    + apply parse_direct.
    + apply parse_tagged_block.
    + apply parse_plain_block.
    + apply parse_brace_span.
    + apply parse_no_span.
    + intros raw. apply (proj1 (parse_outcome jl raw)).
    + intros raw. apply (proj2 (parse_outcome jl raw)).
  - vm_compute. reflexivity.
Qed.

(** ** Validation *)

Section ValidationFacts.

Lemma errors_of_ap {A B : Type} (f : validation (A -> B)) (x : validation A) :
  errors_of (ap f x) = (errors_of f ++ errors_of x)%list.
Proof. destruct f, x; simpl; auto using app_nil_r. Qed.

Lemma ap_valid {A B : Type} (f : validation (A -> B)) (x : validation A) b :
  ap f x = Valid b -> exists g a, f = Valid g /\ x = Valid a /\ b = g a.
Proof. destruct f, x; simpl; intros [=]; eauto. Qed.

Lemma errors_nonempty {A : Type} (r : validation A) e :
  In e (errors_of r) -> exists es, r = Invalid es /\ In e es.
Proof. destruct r; simpl; [tauto | eauto]. Qed.

(** Errors of a field start with the name of the field. *)
Lemma within_head {A : Type} item (r : validation A) e :
  In e (errors_of (within item r)) -> hd_error (loc e) = Some item.
Proof.
  destruct r; simpl; [tauto|].
  intros H. apply in_map_iff in H as (e0 & <- & _). reflexivity.
Qed.

Lemma required_head {A : Type} field (schema : json -> validation A) d e :
  In e (errors_of (required field schema d)) ->
  hd_error (loc e) = Some (Key field).
Proof.
  unfold required. destruct (Dict.get field d).
  - apply within_head.
  - simpl. intros [<-|[]]. reflexivity.
Qed.

Lemma optional_head {A : Type} field (schema : json -> validation A) dflt d e :
  In e (errors_of (optional field schema dflt d)) ->
  hd_error (loc e) = Some (Key field).
Proof.
  unfold optional. destruct (Dict.get field d).
  - apply within_head.
  - simpl. tauto.
Qed.

Variable str_as_float : string -> option float.

(** The confidence field on a value that reads as the float [c]. *)
Lemma confidence_schema_in v c :
  float_schema str_as_float v = Valid c ->
  in_unit_interval c = true ->
  confidence_schema str_as_float v = Valid c.
Proof.
  intros Hv Hc. unfold confidence_schema. rewrite Hv. simpl.
  unfold bounded, validate_confidence.
  pose proof Hc as Hc'. unfold in_unit_interval in Hc'.
  apply andb_true_iff in Hc' as [-> ->]. simpl. now rewrite Hc.
Qed.

Lemma confidence_schema_out v c :
  float_schema str_as_float v = Valid c ->
  in_unit_interval c = false ->
  exists k, confidence_schema str_as_float v = fail k.
Proof.
  intros Hv Hc. unfold confidence_schema. rewrite Hv. simpl.
  unfold bounded, validate_confidence.
  destruct (c <=? 1)%float eqn:E1; simpl; [|eexists; reflexivity].
  destruct (0 <=? c)%float eqn:E0; simpl; [|eexists; reflexivity].
  unfold in_unit_interval in Hc. rewrite E0, E1 in Hc. discriminate.
Qed.

Variable new_id : string.

(** The errors of a record are those of its fields, in the order of
    the declaration. *)
Lemma validate_errors d :
  errors_of (IntentionSchema_validate str_as_float new_id d)
  = concat (field_errors str_as_float new_id d).
Proof.
  unfold IntentionSchema_validate, field_errors.
  rewrite !errors_of_ap. simpl. rewrite app_nil_r, <- !app_assoc.
  reflexivity.
Qed.

Lemma validate_error_head d e :
  In e (errors_of (IntentionSchema_validate str_as_float new_id d)) ->
  (exists field, hd_error (loc e) = Some (Key field)
                 /\ field <> "confidence")
  \/ In e (errors_of (required "confidence"
                        (confidence_schema str_as_float) d)).
Proof.
  rewrite validate_errors. unfold field_errors. simpl.
  rewrite !in_app_iff.
  intros H.
  repeat match type of H with
         | _ \/ _ => destruct H as [H|H]
         end;
    try (right; exact H);
    try (left; eexists; split;
         [first [eapply required_head; exact H
                | eapply optional_head; exact H]
         | discriminate]).
  destruct H.
Qed.

Lemma validate_confidence_field d m :
  IntentionSchema_validate str_as_float new_id d = Valid m ->
  required "confidence" (confidence_schema str_as_float) d
  = Valid (confidence m).
Proof.
  unfold IntentionSchema_validate. intros H.
  repeat match type of H with
         | ap _ _ = Valid _ =>
             let g := fresh "g" in
             let a := fresh "a" in
             let Hx := fresh "Hx" in
             let Hb := fresh "Hb" in
             apply ap_valid in H as (g & a & H & Hx & Hb)
         end.
  injection H as <-. subst. simpl. assumption.
Qed.

(** *** Round trip of a record through its dump *)

Lemma items_entities (l : list EntityInvolved) i :
  items (model_schema EntityInvolved_fields) i (map EntityInvolved_dump l)
  = Valid l.
Proof.
  revert i. induction l as [|[t n] l IH]; intros i; simpl; auto.
  now rewrite IH.
Qed.

Lemma items_strings (l : list string) i :
  items str_schema i (map JStr l) = Valid l.
Proof.
  revert i. induction l as [|x l IH]; intros i; simpl; auto.
  now rewrite IH.
Qed.

Lemma values_bools (l : list (string * bool)) :
  values bool_schema (map (fun kv => (fst kv, JBool (snd kv))) l) = Valid l.
Proof.
  induction l as [|[k b] l IH]; simpl; auto. now rewrite IH.
Qed.

Lemma validate_dump (m : IntentionSchema) :
  in_unit_interval (confidence m) = true ->
  IntentionSchema_validate str_as_float new_id (IntentionSchema_dump m)
  = Valid m.
Proof.
  intros Hc. destruct m as [iid pack sec op summ c ents [ex im] [mo ac]
                               ass amb sug [sv dc av] risk].
  simpl in Hc.
  unfold IntentionSchema_validate, IntentionSchema_dump, required, optional.
  cbn [Dict.get String.eqb Ascii.eqb Bool.eqb
       intent_id domain_pack_id target_section operation intent_summary
       confidence entities_involved payload constraints assumptions
       ambiguities suggestions validation_requirements execution_risk
       explicit implicit must_not_override_existing additional_constraints
       schema_validation duplicate_check additional_validations].
  cbn [list_schema model_schema].
  rewrite items_entities, !items_strings.
  rewrite (confidence_schema_in (JFloat c) c eq_refl Hc).
  unfold IntentPayload_fields, IntentConstraints_fields,
    ValidationRequirements_fields, required, optional.
  cbn [Dict.get String.eqb Ascii.eqb Bool.eqb dict_schema bool_schema
       dict_of_schema within ap str_schema].
  rewrite values_bools.
  destruct sec, op, risk; reflexivity.
Qed.

End ValidationFacts.

Section ConfidenceFacts.

Variable str_as_float : string -> option float.
Variable new_id : string.

Lemma confidence_schema_valid v c :
  confidence_schema str_as_float v = Valid c -> in_unit_interval c = true.
Proof.
  unfold confidence_schema, then_, bounded, validate_confidence.
  destruct (float_schema str_as_float v) as [f|]; [|discriminate].
  destruct (negb (f <=? 1)%float); [discriminate|].
  destruct (negb (0 <=? f)%float); [discriminate|].
  destruct (in_unit_interval f) eqn:E; simpl; [|discriminate].
  now intros [= <-].
Qed.

Lemma validated_confidence_in_range d m :
  IntentionSchema_validate str_as_float new_id d = Valid m ->
  in_unit_interval (confidence m) = true.
Proof.
  intros H. apply validate_confidence_field in H.
  unfold required in H.
  destruct (Dict.get "confidence" d) as [v|]; [|discriminate].
  destruct (confidence_schema str_as_float v) as [c|] eqn:E; [|discriminate].
  simpl in H. injection H as <-. now apply confidence_schema_valid in E.
Qed.

End ConfidenceFacts.

(** C7: the bounds of the interval are themselves accepted.  When the
    value under [confidence] reads as the float [c] and [0.0 <= c <= 1.0],
    no error of the validation refers to [confidence] and a record that
    validates carries exactly [c]; and a valid record whose confidence is
    replaced by such a [c] validates to the same record with confidence
    [c].  When [c] is not within [0.0 <= c <= 1.0], the validation fails
    and one of its errors has the path [confidence]. *)
Theorem confidence_closed_unit_interval :
  forall (str_as_float : string -> option float) (new_id : string),
    (in_unit_interval 0 = true /\ in_unit_interval 1 = true)
    /\ (forall d v c,
          Dict.get "confidence" d = Some v ->
          float_schema str_as_float v = Valid c ->
          in_unit_interval c = true ->
          (forall e,
              In e (errors_of (IntentionSchema_validate str_as_float new_id d)) ->
              hd_error (loc e) <> Some (Key "confidence"))
          /\ (forall m,
                IntentionSchema_validate str_as_float new_id d = Valid m ->
                confidence m = c))
    /\ (forall m c,
          in_unit_interval c = true ->
          IntentionSchema_validate str_as_float new_id
            (Dict.set "confidence" (JFloat c) (IntentionSchema_dump m))
          = Valid (with_confidence m c))
    /\ (forall d v c,
          Dict.get "confidence" d = Some v ->
          float_schema str_as_float v = Valid c ->
          in_unit_interval c = false ->
          exists es k,
            IntentionSchema_validate str_as_float new_id d = Invalid es
            /\ In {| loc := [Key "confidence"]; kind := k |} es).
Proof.
  intros sf new_id. split; [split; reflexivity|]. split; [|split].
  - intros d v c Hg Hv Hc.
    assert (Hr : required "confidence" (confidence_schema sf) d = Valid c).
    { unfold required. rewrite Hg.
      now rewrite (confidence_schema_in sf v c Hv Hc). }
    split.
    + intros e He Hhd.
      apply validate_error_head in He as [(field & Hf & Hne)|He].
      * congruence.
      * rewrite Hr in He. destruct He.
    + intros m Hm. apply validate_confidence_field in Hm. congruence.
  - intros m c Hc.
    change (Dict.set "confidence" (JFloat c) (IntentionSchema_dump m))
      with (IntentionSchema_dump (with_confidence m c)).
    now apply validate_dump.
  - intros d v c Hg Hv Hc.
    destruct (confidence_schema_out sf v c Hv Hc) as [k Hk].
    assert (He : In {| loc := [Key "confidence"]; kind := k |}
                    (errors_of (IntentionSchema_validate sf new_id d))).
    { rewrite validate_errors. unfold field_errors. simpl.
      rewrite !in_app_iff. do 5 right. left.
      unfold required. rewrite Hg, Hk. simpl. now left. }
    apply errors_nonempty in He as (es & Hes & Hin). eauto.
Qed.

(** C8: a record with its confidence within the unit interval, and so
    every record that the validation returns, validates again from its own
    dump and comes back as the same record. *)
Theorem validation_idempotent :
  forall (str_as_float : string -> option float) (new_id : string),
    (forall m,
        in_unit_interval (confidence m) = true ->
        IntentionSchema_validate str_as_float new_id (IntentionSchema_dump m)
        = Valid m)
    /\ (forall d m,
          IntentionSchema_validate str_as_float new_id d = Valid m ->
          IntentionSchema_validate str_as_float new_id (IntentionSchema_dump m)
          = Valid m).
Proof.
  intros sf new_id. split.
  - intros m. apply validate_dump.
  - intros d m H. apply validate_dump.
    now apply (validated_confidence_in_range sf new_id d).
Qed.

(** ** Selection of the provider *)

Lemma get_llm_provider_unsupported (env : Env) :
  let provider_name := PyStr.lower (LLM_PROVIDER (settings env)) in
  provider_name <> "openai" -> provider_name <> "groq" ->
  provider_name <> "anthropic" ->
  get_llm_provider env
  = Raise (ValueError ("Unsupported LLM provider: " ++ provider_name)).
Proof.
  intros n H1 H2 H3. unfold get_llm_provider. fold n.
  apply String.eqb_neq in H1, H2, H3. now rewrite H1, H2, H3.
Qed.

Lemma get_llm_provider_supported (env : Env) (p : LLMProvider) :
  PyStr.lower (LLM_PROVIDER (settings env)) = package p ->
  get_llm_provider env = provider_init env p.
Proof.
  intros H. unfold get_llm_provider. rewrite H. now destruct p.
Qed.

Lemma get_llm_provider_no_key (env : Env) (p : LLMProvider) :
  PyStr.lower (LLM_PROVIDER (settings env)) = package p ->
  installed env p = true ->
  truthy (api_key (settings env) p) = false ->
  get_llm_provider env = Raise (ValueError (key_name p ++ " not configured")).
Proof.
  intros H Hi Hk. rewrite (get_llm_provider_supported env p H).
  unfold provider_init. now rewrite Hi, Hk.
Qed.

(** ** Failures at the endpoint *)

Section EndpointFacts.

Variable json_loads : string -> option json.
Variable str_as_float : string -> option float.

(** Every failure carries the confidence [0.0]. *)
Lemma failure_confidence env request detail :
  interpret_intent json_loads str_as_float env request = HTTPException detail ->
  Detail.confidence detail = 0%float.
Proof.
  unfold interpret_intent.
  destruct (generate_intent json_loads env request) as [d|e].
  - destruct (IntentionSchema_validate _ _ _); [discriminate|].
    now intros [= <-].
  - destruct (is_ValueError e); now intros [= <-].
Qed.

(** The code of a failure, by the stage that failed. *)
Lemma failure_code_of_provider env request e :
  get_llm_provider env = Raise e ->
  exists detail,
    interpret_intent json_loads str_as_float env request = HTTPException detail
    /\ Detail.cause detail = Some e
    /\ Detail.error detail
       = if is_ValueError e then LLM_CONFIGURATION_ERROR else LLM_API_ERROR.
Proof.
  intros H. unfold interpret_intent, generate_intent. rewrite H. simpl.
  destruct (is_ValueError e); eexists; repeat split.
Qed.

Lemma failure_code_of_backend env request provider e :
  get_llm_provider env = Ok provider ->
  Tenacity.outcome (generate env provider) = Raise e ->
  exists detail,
    interpret_intent json_loads str_as_float env request = HTTPException detail
    /\ Detail.cause detail = Some e
    /\ Detail.error detail = LLM_API_ERROR.
Proof.
  intros Hp Hg.
  destruct (generate_run env provider) as (_ & _ & _ & Ho).
  destruct Ho as [(a & _ & Ho)|(last & _ & _ & Ho)]; [congruence|].
  assert (e = RetryError last) as -> by congruence.
  unfold interpret_intent, generate_intent. rewrite Hp. simpl.
  rewrite Hg. simpl. eexists; repeat split.
Qed.

Lemma failure_code_of_extraction env request provider raw e :
  get_llm_provider env = Ok provider ->
  Tenacity.outcome (generate env provider) = Ok raw ->
  parse_llm_output json_loads raw = Raise e ->
  exists detail,
    interpret_intent json_loads str_as_float env request = HTTPException detail
    /\ Detail.cause detail = Some e
    /\ Detail.error detail = LLM_CONFIGURATION_ERROR.
Proof.
  intros Hp Hg He.
  pose proof (extraction_error_is_value_error json_loads raw e He) as Hv.
  unfold interpret_intent, generate_intent. rewrite Hp. simpl.
  rewrite Hg. simpl. rewrite He. simpl. rewrite Hv.
  eexists; repeat split.
Qed.

End EndpointFacts.

(** C1: the failure that the claim wants told apart is not. When the
    backend answers in prose, so that no record can be extracted,
    [parse_llm_output] raises a [ValueError]; the handler of the endpoint
    for the errors of the configuration takes it, and the answer carries
    the code [LLM_CONFIGURATION_ERROR], the very code of a missing
    credential. *)
Lemma extraction_failure_has_configuration_code :
  interpret_intent JsonText.loads no_lax_floats (env_answering prose) legal_request
  = HTTPException (configuration_error no_json_found)
  /\ interpret_intent JsonText.loads no_lax_floats env_without_key legal_request
     = HTTPException
         (configuration_error (ValueError "GROQ_API_KEY not configured"))
  /\ Detail.error (configuration_error no_json_found)
     = LLM_CONFIGURATION_ERROR.
Proof. repeat split; vm_compute; reflexivity. Qed.

(** C2 as stated fails: on [two_blocks] the third attempt of the
    specification succeeds, and the code raises a decode error. *)
Lemma first_success_does_not_win :
  spec_extract JsonText.loads two_blocks = Ok (JDict [("a", JInt 1)])
  /\ parse_llm_output JsonText.loads two_blocks = Raise JSONDecodeError.
Proof. split; vm_compute; reflexivity. Qed.

(** C3 as stated fails: after three failed runs the caller does not get
    the last failure but a [RetryError] around it. *)
Lemma exhausted_retries_wrap_last_failure :
  backend env_timing_out GroqProvider 3 = Raise (APIError "timeout")
  /\ Tenacity.outcome (generate env_timing_out GroqProvider)
     = Raise (RetryError (APIError "timeout"))
  /\ Tenacity.outcome (generate env_timing_out GroqProvider)
     <> Raise (APIError "timeout").
Proof. repeat split. discriminate. Qed.


(** ** The theorems at work on concrete inputs *)

Lemma parse_llm_output_attempts_witness :
  parse_llm_output JsonText.loads (PyStr.dq "{'a':1}") = Ok (JDict [("a", JInt 1)])
  /\ parse_llm_output JsonText.loads
       ("noise " ++ "```json" ++ PyStr.dq " {'a':1} " ++ "```" ++ " trailing")
     = loads JsonText.loads (PyStr.strip (PyStr.dq " {'a':1} "))
  /\ parse_llm_output JsonText.loads
       ("Here: " ++ "```" ++ PyStr.dq " {'a':1} " ++ "```" ++ EmptyString)
     = loads JsonText.loads (PyStr.strip (PyStr.dq " {'a':1} "))
  /\ parse_llm_output JsonText.loads
       ("Sure! " ++ "{" ++ PyStr.dq "'a':{'b':1}" ++ "}" ++ " ok")
     = loads JsonText.loads ("{" ++ PyStr.dq "'a':{'b':1}" ++ "}")
  /\ parse_llm_output JsonText.loads prose = Raise no_json_found
  /\ (exists text, JsonText.loads text = Some (JDict [("a", JInt 1)]))
  /\ (no_json_found = JSONDecodeError \/ no_json_found = no_json_found).
Proof.
  destruct parse_llm_output_attempts as [H _].
  destruct (H JsonText.loads) as (H1 & H2 & H3 & H4 & H5 & H6 & H7).
  split; [apply H1; vm_compute; reflexivity|].
  split; [apply H2; vm_compute; reflexivity|].
  split; [apply H3; vm_compute; reflexivity|].
  split; [apply H4; vm_compute; reflexivity|].
  split; [apply H5; [vm_compute; reflexivity | vm_compute; reflexivity
                    | left; vm_compute; reflexivity]|].
  split.
  - apply (H6 (PyStr.dq "{'a':1}")). vm_compute. reflexivity.
  - apply (H7 prose). vm_compute. reflexivity.
Defined.

Lemma retry_policy_witness :
  (backend_calls env_without_key = O
   /\ generate_intent JsonText.loads env_without_key legal_request
      = Raise (ValueError "GROQ_API_KEY not configured"))
  /\ (forall s,
        In s (Tenacity.sleeps
                (generate (env_failing 2 (APIError "timeout") "{}") GroqProvider)) ->
        2 <= s <= 10)
  /\ backend (env_failing 2 (APIError "timeout") "{}") GroqProvider 3 = Ok "{}"
  /\ (Tenacity.attempts
        (generate env_timing_out GroqProvider) = 3%nat
      /\ exists last,
           backend env_timing_out GroqProvider 3
           = Raise last
           /\ RetryError (APIError "timeout") = RetryError last).
Proof.
  split; [|split; [|split]].
  - apply (proj1 (retry_policy env_without_key)). reflexivity.
  - destruct (proj2 (retry_policy (env_failing 2 (APIError "timeout") "{}"))
                GroqProvider) as (_ & _ & H & _).
    exact H.
  - destruct (proj2 (retry_policy (env_failing 2 (APIError "timeout") "{}"))
                GroqProvider) as (_ & _ & _ & _ & _ & H & _).
    apply (H "{}"). reflexivity.
  - destruct (proj2 (retry_policy env_timing_out)
                GroqProvider) as (_ & _ & _ & _ & _ & _ & H).
    apply (H (RetryError (APIError "timeout"))). reflexivity.
Defined.

Lemma normalize_preserves_witness :
  Dict.get "confidence" (normalize_intent_data stub_record) = Some (JFloat 0.5)
  /\ Dict.get "intent_summary" (normalize_intent_data stub_record)
     = Dict.get "intent_summary" stub_record.
Proof.
  destruct (normalize_preserves_well_typed_and_semantic_keys stub_record)
    as [H1 H2].
  split.
  - apply H1; reflexivity.
  - apply H2. simpl. tauto.
Defined.

Lemma normalize_payload_cases_witness :
  Dict.get "payload" (normalize_intent_data [("operation", JStr "ADD")])
  = Some empty_payload
  /\ Dict.get "payload" (normalize_intent_data stub_record)
     = Some (JDict [("explicit", JDict [("client_id", JNull); ("name", JNull)]);
                    ("implicit", JDict [])])
  /\ exists p',
       Dict.get "payload"
         (normalize_intent_data
            [("payload", JDict [("implicit", JDict [("guess", JInt 1)])])])
       = Some (JDict p')
       /\ Dict.get "explicit" p' = Some (JDict [])
       /\ forall k, k <> "explicit" ->
                    Dict.get k p'
                    = Dict.get k [("implicit", JDict [("guess", JInt 1)])].
Proof.
  split; [|split].
  - apply (proj1 (normalize_payload_cases [("operation", JStr "ADD")])).
    reflexivity.
  - destruct (normalize_payload_cases stub_record) as (_ & H & _).
    apply H; reflexivity.
  - destruct (normalize_payload_cases
                [("payload", JDict [("implicit", JDict [("guess", JInt 1)])])])
      as (_ & _ & H).
    apply (H _ "explicit" "implicit"); [reflexivity | | reflexivity | reflexivity].
    left. split; reflexivity.
Defined.

Lemma normalize_entities_entries_witness :
  Dict.get "entities_involved" (normalize_intent_data stub_record)
  = Some (JList (fix_entities []
                 ++ JDict [("type", JStr "ENTITY"); ("name", JStr "CLIENT")]
                    :: fix_entities [JInt 7; JDict [("name", JStr "MATTER")]]))
  /\ exists e',
       Dict.get "entities_involved" (normalize_intent_data stub_record)
       = Some (JList (fix_entities [JStr "CLIENT"; JInt 7]
                      ++ JDict e' :: fix_entities []))
       /\ Dict.get "type" e' = Some (JStr "ENTITY")
       /\ forall k, k <> "type" ->
                    Dict.get k e' = Dict.get k [("name", JStr "MATTER")].
Proof.
  split.
  - apply (proj1 (normalize_entities_entries stub_record []
                    [JInt 7; JDict [("name", JStr "MATTER")]] (JStr "CLIENT")
                    eq_refl) "CLIENT").
    reflexivity.
  - apply (proj2 (normalize_entities_entries stub_record
                    [JStr "CLIENT"; JInt 7] []
                    (JDict [("name", JStr "MATTER")]) eq_refl)
             [("name", JStr "MATTER")]); reflexivity.
Defined.

Lemma normalize_entities_drops_witness :
  exists fixed,
    Dict.get "entities_involved" (normalize_intent_data stub_record)
    = Some (JList fixed)
    /\ fixed = [ JDict [("type", JStr "ENTITY"); ("name", JStr "CLIENT")];
                 JDict [("name", JStr "MATTER"); ("type", JStr "ENTITY")] ]
    /\ (length fixed < 3)%nat.
Proof.
  destruct (normalize_entities_drops_other_entries stub_record
              [JStr "CLIENT"; JInt 7; JDict [("name", JStr "MATTER")]] eq_refl)
    as (fixed & Hg & Hf & _ & _ & Hlt).
  exists fixed. split; [exact Hg|]. split; [exact Hf|].
  apply Hlt. reflexivity.
Defined.

Lemma confidence_closed_unit_interval_witness :
  (forall m,
      IntentionSchema_validate no_lax_floats "id-0"
        (IntentionSchema_dump valid_intent) = Valid m ->
      confidence m = 1%float)
  /\ IntentionSchema_validate no_lax_floats "id-0"
       (Dict.set "confidence" (JFloat 0) (IntentionSchema_dump valid_intent))
     = Valid (with_confidence valid_intent 0)
  /\ exists es k,
       IntentionSchema_validate no_lax_floats "id-0"
         (Dict.set "confidence" (JFloat 1.5) (IntentionSchema_dump valid_intent))
       = Invalid es
       /\ In {| loc := [Key "confidence"]; kind := k |} es.
Proof.
  destruct (confidence_closed_unit_interval no_lax_floats "id-0")
    as (_ & H1 & H2 & H3).
  split; [|split].
  - apply (H1 (IntentionSchema_dump valid_intent) (JFloat 1) 1%float);
      reflexivity.
  - apply H2. reflexivity.
  - apply (H3 _ (JFloat 1.5) 1.5%float); reflexivity.
Defined.

Lemma validation_idempotent_witness :
  IntentionSchema_validate no_lax_floats "id-0"
    (IntentionSchema_dump valid_intent) = Valid valid_intent
  /\ IntentionSchema_validate no_lax_floats "id-0"
       (IntentionSchema_dump (with_confidence valid_intent 0.25))
     = Valid (with_confidence valid_intent 0.25).
Proof.
  destruct (validation_idempotent no_lax_floats "id-0") as [H1 H2].
  split.
  - apply H1. reflexivity.
  - apply (H2 (Dict.set "confidence" (JFloat 0.25)
                 (IntentionSchema_dump valid_intent))).
    vm_compute. reflexivity.
Defined.

Lemma generate_intent_fills_identifiers_witness :
  exists intent_data,
    generate_intent JsonText.loads (env_answering stub_text) legal_request
    = Ok intent_data
    /\ Dict.get "intent_id" intent_data
       = Some (JStr "3f2b8c1e-0000-4000-8000-000000000001")
    /\ Dict.get "domain_pack_id" intent_data = Some (JStr "Legal_v01").
Proof.
  destruct (generate_intent_fills_identifiers JsonText.loads
              (env_answering stub_text) legal_request GroqProvider stub_text
              stub_record)
    as (_ & _ & d & Hg & Hi & Hd & _);
    [reflexivity | reflexivity | vm_compute; reflexivity |].
  exists d. split; [exact Hg|]. split; [exact Hi | exact Hd].
Defined.

(** * Further properties of the code *)

(** ** The normalizer: a second pass changes nothing *)

Lemma mem_setdefault_same k v (d : dict) : Dict.mem k (setdefault k v d) = true.
Proof.
  unfold setdefault. destruct (Dict.mem k d) eqn:E; [exact E|].
  apply mem_true. exists v. apply get_set_same.
Qed.

Lemma mem_setdefault_kept k k' v (d : dict) :
  Dict.mem k d = true -> Dict.mem k (setdefault k' v d) = true.
Proof.
  intros H. apply mem_true in H as [x Hx]. apply mem_true. exists x.
  now apply get_setdefault_present.
Qed.

Lemma fix_entities_idempotent (l : list json) :
  fix_entities (fix_entities l) = fix_entities l.
Proof.
  induction l as [|e l IH]; simpl; auto.
  destruct e; simpl; auto.
  - now rewrite IH.
  - destruct (Dict.mem "name" d && negb (Dict.mem "type" d)) eqn:E.
    + assert (Ht : Dict.mem "type" (Dict.set "type" ENTITY d) = true)
        by (apply mem_true; eexists; apply get_set_same).
      rewrite Ht, andb_false_r. now rewrite IH.
    + rewrite E. now rewrite IH.
Qed.

(** A step is the identity on a record that reads, under the key of the
    step, what the step writes there. *)
Lemma normalize_entities_settled (d0 d : dict) :
  Dict.get "entities_involved" d
  = Dict.get "entities_involved" (normalize_entities d0) ->
  normalize_entities d = d.
Proof.
  unfold normalize_entities at 1.
  destruct (Dict.get "entities_involved" d0) as [v|] eqn:E.
  - destruct v; try (intros H; unfold normalize_entities;
                     rewrite H, E; reflexivity).
    rewrite get_set_same. intros H. unfold normalize_entities. rewrite H.
    rewrite fix_entities_idempotent. now apply set_present.
  - rewrite E. intros H. unfold normalize_entities. now rewrite H.
Qed.

Lemma normalize_payload_settled (d0 d : dict) :
  Dict.get "payload" d = Dict.get "payload" (normalize_payload d0) ->
  normalize_payload d = d.
Proof.
  unfold normalize_payload at 1.
  destruct (Dict.get "payload" d0) as [v|] eqn:E.
  - destruct v; try (intros H; unfold normalize_payload;
                     rewrite H, E; reflexivity).
    destruct (negb (Dict.mem "explicit" d1) && negb (Dict.mem "implicit" d1));
      rewrite get_set_same; intros H; unfold normalize_payload; rewrite H.
    + simpl. now apply set_present.
    + rewrite (mem_setdefault_kept "explicit" "implicit")
        by apply mem_setdefault_same.
      simpl.
      rewrite (setdefault_mem "explicit")
        by (apply mem_setdefault_kept, mem_setdefault_same).
      rewrite (setdefault_mem "implicit") by apply mem_setdefault_same.
      now apply set_present.
  - rewrite get_set_same. intros H. unfold normalize_payload. rewrite H.
    simpl. now apply set_present.
Qed.

Lemma normalize_constraints_settled (d0 d : dict) :
  Dict.get "constraints" d = Dict.get "constraints" (normalize_constraints d0) ->
  normalize_constraints d = d.
Proof.
  unfold normalize_constraints at 1.
  destruct (Dict.get "constraints" d0) as [v|] eqn:E.
  - destruct v; try (intros H; unfold normalize_constraints;
                     rewrite H, E; reflexivity).
    rewrite get_set_same; intros H; unfold normalize_constraints; rewrite H.
    rewrite (setdefault_mem "must_not_override_existing")
      by (apply mem_setdefault_kept, mem_setdefault_same).
    rewrite (setdefault_mem "additional_constraints")
      by apply mem_setdefault_same.
    now apply set_present.
  - rewrite get_set_same. intros H. unfold normalize_constraints. rewrite H.
    simpl. now apply set_present.
Qed.

Lemma normalize_validation_requirements_settled (d0 d : dict) :
  Dict.get "validation_requirements" d
  = Dict.get "validation_requirements" (normalize_validation_requirements d0) ->
  normalize_validation_requirements d = d.
Proof.
  unfold normalize_validation_requirements at 1.
  destruct (Dict.get "validation_requirements" d0) as [v|] eqn:E.
  - destruct v; try (intros H; unfold normalize_validation_requirements;
                     rewrite H, E; reflexivity).
    rewrite get_set_same; intros H;
      unfold normalize_validation_requirements; rewrite H.
    rewrite (setdefault_mem "schema_validation")
      by (do 2 apply mem_setdefault_kept; apply mem_setdefault_same).
    rewrite (setdefault_mem "duplicate_check")
      by (apply mem_setdefault_kept, mem_setdefault_same).
    rewrite (setdefault_mem "additional_validations")
      by apply mem_setdefault_same.
    now apply set_present.
  - rewrite get_set_same. intros H.
    unfold normalize_validation_requirements. rewrite H.
    simpl. now apply set_present.
Qed.

Lemma normalize_reads_constraints (d : dict) :
  Dict.get "constraints" (normalize_intent_data d)
  = Dict.get "constraints"
      (normalize_constraints (normalize_payload (normalize_entities d))).
Proof.
  unfold normalize_intent_data.
  rewrite !get_setdefault_other by discriminate.
  now rewrite normalize_validation_requirements_other by discriminate.
Qed.

Lemma normalize_reads_validation_requirements (d : dict) :
  Dict.get "validation_requirements" (normalize_intent_data d)
  = Dict.get "validation_requirements"
      (normalize_validation_requirements
         (normalize_constraints (normalize_payload (normalize_entities d)))).
Proof.
  unfold normalize_intent_data.
  now rewrite !get_setdefault_other by discriminate.
Qed.

Lemma normalize_has_lists (d : dict) :
  Dict.mem "assumptions" (normalize_intent_data d) = true
  /\ Dict.mem "ambiguities" (normalize_intent_data d) = true
  /\ Dict.mem "suggestions" (normalize_intent_data d) = true.
Proof.
  unfold normalize_intent_data. repeat split.
  - do 2 apply mem_setdefault_kept. apply mem_setdefault_same.
  - apply mem_setdefault_kept. apply mem_setdefault_same.
  - apply mem_setdefault_same.
Qed.

(** X1: normalizing a normalized record gives the same record. *)
Theorem normalize_idempotent :
  forall (intent_data : dict),
    normalize_intent_data (normalize_intent_data intent_data)
    = normalize_intent_data intent_data.
Proof.
  intros d. set (n := normalize_intent_data d).
  destruct (normalize_has_lists d) as (Ha & Hb & Hs). fold n in Ha, Hb, Hs.
  unfold normalize_intent_data at 1.
  rewrite (normalize_entities_settled d n)
    by (subst n; apply normalize_reads_entities).
  rewrite (normalize_payload_settled (normalize_entities d) n)
    by (subst n; apply normalize_reads_payload).
  rewrite (normalize_constraints_settled
             (normalize_payload (normalize_entities d)) n)
    by (subst n; apply normalize_reads_constraints).
  rewrite (normalize_validation_requirements_settled
             (normalize_constraints (normalize_payload (normalize_entities d))) n)
    by (subst n; apply normalize_reads_validation_requirements).
  rewrite (setdefault_mem "assumptions" _ n Ha).
  rewrite (setdefault_mem "ambiguities" _ n Hb).
  now rewrite (setdefault_mem "suggestions" _ n Hs).
Qed.

(** ** The normalizer: what a normalized record always has *)

Lemma fix_entities_shaped (l : list json) :
  forallb entry_shaped (fix_entities l) = true.
Proof.
  induction l as [|e l IH]; simpl; auto.
  destruct e; simpl; auto; rewrite IH, andb_true_r.
  destruct (Dict.mem "name" d) eqn:En, (Dict.mem "type" d) eqn:Et;
    simpl; rewrite ?En, ?Et; auto.
  apply implb_true_iff. intros _. apply mem_true.
  eexists. apply get_set_same.
Qed.

Lemma normalize_payload_shaped (d0 : dict) :
  exists p, Dict.get "payload" (normalize_payload d0) = Some p
            /\ forall r, p = JDict r ->
                         Dict.mem "explicit" r = true
                         /\ Dict.mem "implicit" r = true.
Proof.
  unfold normalize_payload.
  destruct (Dict.get "payload" d0) as [v|] eqn:E.
  - destruct v; [eexists; split; [exact E | intros r [=]] .. |].
    destruct (negb (Dict.mem "explicit" d) && negb (Dict.mem "implicit" d));
      eexists; (split; [apply get_set_same|]); intros r [= <-].
    + split; reflexivity.
    + split; [apply mem_setdefault_kept|]; apply mem_setdefault_same.
  - eexists. split; [apply get_set_same|]. intros r [= <-].
    split; reflexivity.
Qed.

Lemma normalize_constraints_shaped (d0 : dict) :
  exists c, Dict.get "constraints" (normalize_constraints d0) = Some c
            /\ forall r, c = JDict r ->
                         Dict.mem "must_not_override_existing" r = true
                         /\ Dict.mem "additional_constraints" r = true.
Proof.
  unfold normalize_constraints.
  destruct (Dict.get "constraints" d0) as [v|] eqn:E.
  - destruct v; [eexists; split; [exact E | intros r [=]] .. |].
    eexists. split; [apply get_set_same|]. intros r [= <-].
    split; [apply mem_setdefault_kept|]; apply mem_setdefault_same.
  - eexists. split; [apply get_set_same|]. intros r [= <-].
    split; reflexivity.
Qed.

Lemma normalize_validation_requirements_shaped (d0 : dict) :
  exists c,
    Dict.get "validation_requirements" (normalize_validation_requirements d0)
    = Some c
    /\ forall r, c = JDict r ->
                 Dict.mem "schema_validation" r = true
                 /\ Dict.mem "duplicate_check" r = true
                 /\ Dict.mem "additional_validations" r = true.
Proof.
  unfold normalize_validation_requirements.
  destruct (Dict.get "validation_requirements" d0) as [v|] eqn:E.
  - destruct v; [eexists; split; [exact E | intros r [=]] .. |].
    eexists. split; [apply get_set_same|]. intros r [= <-].
    split; [|split].
    + do 2 apply mem_setdefault_kept. apply mem_setdefault_same.
    + apply mem_setdefault_kept. apply mem_setdefault_same.
    + apply mem_setdefault_same.
  - eexists. split; [apply get_set_same|]. intros r [= <-].
    repeat split.
Qed.

(** X2: a normalized record has the keys [payload], [constraints],
    [validation_requirements], [assumptions], [ambiguities] and
    [suggestions]; where one of the first three is a map it has all the
    keys of its model; and where [entities_involved] is a list, each of
    its entries is a record that has a ["type"] as soon as it has a
    ["name"]. *)
Theorem normalize_shape :
  forall (intent_data : dict),
    let normalized := normalize_intent_data intent_data in
    (forall k, In k filled_keys -> Dict.mem k normalized = true)
    /\ (forall p, Dict.get "payload" normalized = Some (JDict p) ->
                  Dict.mem "explicit" p = true /\ Dict.mem "implicit" p = true)
    /\ (forall c, Dict.get "constraints" normalized = Some (JDict c) ->
                  Dict.mem "must_not_override_existing" c = true
                  /\ Dict.mem "additional_constraints" c = true)
    /\ (forall r, Dict.get "validation_requirements" normalized
                  = Some (JDict r) ->
                  Dict.mem "schema_validation" r = true
                  /\ Dict.mem "duplicate_check" r = true
                  /\ Dict.mem "additional_validations" r = true)
    /\ (forall l, Dict.get "entities_involved" normalized = Some (JList l) ->
                  forallb entry_shaped l = true).
Proof.
  intros d normalized. subst normalized.
  destruct (normalize_payload_shaped (normalize_entities d)) as (p & Hp & Hps).
  destruct (normalize_constraints_shaped
              (normalize_payload (normalize_entities d))) as (c & Hc & Hcs).
  destruct (normalize_validation_requirements_shaped
              (normalize_constraints (normalize_payload (normalize_entities d))))
    as (r & Hr & Hrs).
  destruct (normalize_has_lists d) as (Ha & Hb & Hs).
  rewrite <- normalize_reads_payload in Hp.
  rewrite <- normalize_reads_constraints in Hc.
  rewrite <- normalize_reads_validation_requirements in Hr.
  split; [|split; [|split; [|split]]].
  - intros k Hk. unfold filled_keys in Hk. simpl in Hk.
    destruct Hk as [<-|[<-|[<-|[<-|[<-|[<-|[]]]]]]]; auto;
      apply mem_true; eauto.
  - intros p' H. apply Hps. congruence.
  - intros c' H. apply Hcs. congruence.
  - intros r' H. apply Hrs. congruence.
  - intros l H. rewrite normalize_reads_entities in H.
    unfold normalize_entities in H.
    destruct (Dict.get "entities_involved" d) as [v|] eqn:E.
    + destruct v; try congruence.
      rewrite get_set_same in H. injection H as <-.
      apply fix_entities_shaped.
    + congruence.
Qed.

Lemma normalize_shape_witness :
  Dict.mem "constraints" (normalize_intent_data stub_record) = true
  /\ (Dict.mem "explicit" [("explicit", JDict [("client_id", JNull); ("name", JNull)]);
                           ("implicit", JDict [])] = true
      /\ Dict.mem "implicit" [("explicit", JDict [("client_id", JNull); ("name", JNull)]);
                              ("implicit", JDict [])] = true)
  /\ forallb entry_shaped
       [ JDict [("type", JStr "ENTITY"); ("name", JStr "CLIENT")];
         JDict [("name", JStr "MATTER"); ("type", JStr "ENTITY")] ] = true.
Proof.
  destruct (normalize_shape stub_record) as (H1 & H2 & _ & _ & H5).
  split; [|split].
  - apply H1. simpl. tauto.
  - apply H2. reflexivity.
  - apply H5. reflexivity.
Defined.

(** ** Normalization and validation together *)

Lemma get_setdefault_same k v (d : dict) :
  Dict.get k (setdefault k v d)
  = match Dict.get k d with Some x => Some x | None => Some v end.
Proof.
  unfold setdefault, Dict.mem. destruct (Dict.get k d) eqn:E; auto.
  apply get_set_same.
Qed.

Section ValidityFacts.

Variable str_as_float : string -> option float.
Variable new_id : string.

(** A record validates to [m] exactly when each field validates to the
    field of [m]. *)
Lemma validate_iff_fields d m :
  IntentionSchema_validate str_as_float new_id d = Valid m
  <-> fields_valid str_as_float new_id d m.
Proof.
  split.
  - unfold IntentionSchema_validate. intros H.
    repeat match type of H with
           | ap _ _ = Valid _ =>
               let g := fresh "g" in
               let a := fresh "a" in
               let Hx := fresh "Hx" in
               let Hb := fresh "Hb" in
               apply ap_valid in H as (g & a & H & Hx & Hb)
           end.
    injection H as <-. subst. unfold fields_valid. simpl.
    repeat split; assumption.
  - unfold fields_valid, IntentionSchema_validate.
    intros (H1 & H2 & H3 & H4 & H5 & H6 & H7 & H8 & H9 & H10 & H11 & H12
            & H13 & H14).
    rewrite H1, H2, H3, H4, H5, H6, H7, H8, H9, H10, H11, H12, H13, H14.
    now destruct m.
Qed.

Lemma required_normalized {A : Type} k (schema : json -> validation A) d :
  ~ In k repair_keys ->
  required k schema (normalize_intent_data d) = required k schema d.
Proof. intros H. unfold required. now rewrite normalize_frame. Qed.

Lemma optional_normalized {A : Type} k (schema : json -> validation A) dflt d :
  ~ In k repair_keys ->
  optional k schema dflt (normalize_intent_data d) = optional k schema dflt d.
Proof. intros H. unfold optional. now rewrite normalize_frame. Qed.

Lemma normalize_reads_assumptions d :
  Dict.get "assumptions" (normalize_intent_data d)
  = match Dict.get "assumptions" d with
    | Some x => Some x
    | None => Some (JList [])
    end.
Proof.
  unfold normalize_intent_data.
  rewrite !get_setdefault_other by discriminate.
  rewrite get_setdefault_same.
  rewrite normalize_validation_requirements_other by discriminate.
  rewrite normalize_constraints_other by discriminate.
  rewrite normalize_payload_other by discriminate.
  now rewrite normalize_entities_other by discriminate.
Qed.

Lemma normalize_reads_ambiguities d :
  Dict.get "ambiguities" (normalize_intent_data d)
  = match Dict.get "ambiguities" d with
    | Some x => Some x
    | None => Some (JList [])
    end.
Proof.
  unfold normalize_intent_data.
  rewrite !get_setdefault_other by discriminate.
  rewrite get_setdefault_same.
  rewrite !get_setdefault_other by discriminate.
  rewrite normalize_validation_requirements_other by discriminate.
  rewrite normalize_constraints_other by discriminate.
  rewrite normalize_payload_other by discriminate.
  now rewrite normalize_entities_other by discriminate.
Qed.

Lemma normalize_reads_suggestions d :
  Dict.get "suggestions" (normalize_intent_data d)
  = match Dict.get "suggestions" d with
    | Some x => Some x
    | None => Some (JList [])
    end.
Proof.
  unfold normalize_intent_data.
  rewrite get_setdefault_same.
  rewrite !get_setdefault_other by discriminate.
  rewrite normalize_validation_requirements_other by discriminate.
  rewrite normalize_constraints_other by discriminate.
  rewrite normalize_payload_other by discriminate.
  now rewrite normalize_entities_other by discriminate.
Qed.

Lemma string_lists_normalized d :
  optional "assumptions" (list_schema str_schema) []
    (normalize_intent_data d)
  = optional "assumptions" (list_schema str_schema) [] d
  /\ optional "ambiguities" (list_schema str_schema) []
       (normalize_intent_data d)
     = optional "ambiguities" (list_schema str_schema) [] d
  /\ optional "suggestions" (list_schema str_schema) []
       (normalize_intent_data d)
     = optional "suggestions" (list_schema str_schema) [] d.
Proof.
  unfold optional.
  rewrite normalize_reads_assumptions, normalize_reads_ambiguities,
    normalize_reads_suggestions.
  destruct (Dict.get "assumptions" d), (Dict.get "ambiguities" d),
    (Dict.get "suggestions" d); repeat split.
Qed.

(** The defaults that the normalizer writes into a nested map are the
    defaults of its model. *)
Lemma IntentConstraints_fields_filled c :
  IntentConstraints_fields
    (setdefault "additional_constraints" (JDict [])
       (setdefault "must_not_override_existing" (JBool true) c))
  = IntentConstraints_fields c.
Proof.
  unfold IntentConstraints_fields, optional.
  rewrite get_setdefault_other by discriminate.
  rewrite !get_setdefault_same.
  rewrite get_setdefault_other by discriminate.
  destruct (Dict.get "must_not_override_existing" c),
    (Dict.get "additional_constraints" c); reflexivity.
Qed.

Lemma ValidationRequirements_fields_filled r :
  ValidationRequirements_fields
    (setdefault "additional_validations" (JDict [])
       (setdefault "duplicate_check" (JBool true)
          (setdefault "schema_validation" (JBool true) r)))
  = ValidationRequirements_fields r.
Proof.
  unfold ValidationRequirements_fields, optional.
  rewrite !(get_setdefault_other "schema_validation") by discriminate.
  rewrite (get_setdefault_other "duplicate_check" "additional_validations")
    by discriminate.
  rewrite !get_setdefault_same.
  rewrite !(get_setdefault_other "additional_validations") by discriminate.
  rewrite (get_setdefault_other "duplicate_check" "schema_validation")
    by discriminate.
  destruct (Dict.get "schema_validation" r), (Dict.get "duplicate_check" r),
    (Dict.get "additional_validations" r); reflexivity.
Qed.

Lemma IntentPayload_fields_filled p :
  IntentPayload_fields
    (setdefault "implicit" (JDict []) (setdefault "explicit" (JDict []) p))
  = IntentPayload_fields p.
Proof.
  unfold IntentPayload_fields, optional.
  rewrite get_setdefault_other by discriminate.
  rewrite !get_setdefault_same.
  rewrite get_setdefault_other by discriminate.
  destruct (Dict.get "explicit" p), (Dict.get "implicit" p); reflexivity.
Qed.

Lemma constraints_normalized d :
  optional "constraints" (model_schema IntentConstraints_fields)
    (Build_IntentConstraints true []) (normalize_intent_data d)
  = optional "constraints" (model_schema IntentConstraints_fields)
      (Build_IntentConstraints true []) d.
Proof.
  unfold optional. rewrite normalize_reads_constraints.
  unfold normalize_constraints.
  rewrite normalize_payload_other, normalize_entities_other by discriminate.
  destruct (Dict.get "constraints" d) as [v|] eqn:E.
  - destruct v; rewrite ?normalize_payload_other, ?normalize_entities_other,
                  ?E by discriminate; try reflexivity.
    rewrite get_set_same. simpl.
    now rewrite IntentConstraints_fields_filled.
  - now rewrite get_set_same.
Qed.

Lemma validation_requirements_normalized d :
  optional "validation_requirements"
    (model_schema ValidationRequirements_fields)
    (Build_ValidationRequirements true true []) (normalize_intent_data d)
  = optional "validation_requirements"
      (model_schema ValidationRequirements_fields)
      (Build_ValidationRequirements true true []) d.
Proof.
  unfold optional. rewrite normalize_reads_validation_requirements.
  unfold normalize_validation_requirements.
  rewrite normalize_constraints_other, normalize_payload_other,
    normalize_entities_other by discriminate.
  destruct (Dict.get "validation_requirements" d) as [v|] eqn:E.
  - destruct v; rewrite ?normalize_constraints_other,
                  ?normalize_payload_other, ?normalize_entities_other,
                  ?E by discriminate; try reflexivity.
    rewrite get_set_same. simpl.
    now rewrite ValidationRequirements_fields_filled.
  - now rewrite get_set_same.
Qed.

(** The payload field of the normalized record. *)
Lemma payload_normalized d :
  required "payload" (model_schema IntentPayload_fields)
    (normalize_intent_data d)
  = match Dict.get "payload" d with
    | Some (JDict p) =>
        if negb (Dict.mem "explicit" p) && negb (Dict.mem "implicit" p)
        then Valid {| explicit := p; implicit := [] |}
        else required "payload" (model_schema IntentPayload_fields) d
    | Some _ => required "payload" (model_schema IntentPayload_fields) d
    | None => Valid {| explicit := []; implicit := [] |}
    end.
Proof.
  unfold required. rewrite normalize_reads_payload.
  unfold normalize_payload. rewrite normalize_entities_other by discriminate.
  destruct (Dict.get "payload" d) as [v|] eqn:E.
  - destruct v; rewrite ?normalize_entities_other, ?E by discriminate;
      try reflexivity.
    destruct (negb (Dict.mem "explicit" d0) && negb (Dict.mem "implicit" d0));
      rewrite get_set_same; simpl; [reflexivity|].
    now rewrite IntentPayload_fields_filled.
  - now rewrite get_set_same.
Qed.

(** Entries that validate as entities are left alone by the loop. *)
Lemma items_valid_entities i l ents :
  items (model_schema EntityInvolved_fields) i l = Valid ents ->
  forallb is_entity l = true.
Proof.
  revert i ents. induction l as [|e l IH]; intros i ents;
    cbn [items forallb]; auto.
  intros H. apply ap_valid in H as (g & a & H & Hx & _).
  apply ap_valid in H as (g' & a' & _ & He & _).
  rewrite (IH _ _ Hx), andb_true_r.
  destruct e; simpl in He; try discriminate.
  unfold EntityInvolved_fields in He.
  destruct (ap (ap (Valid Build_EntityInvolved)
                   (required "type" str_schema d))
               (required "name" str_schema d)) eqn:Ef; [|discriminate].
  apply ap_valid in Ef as (g1 & a1 & Ef & Hn & _).
  apply ap_valid in Ef as (g2 & a2 & _ & Ht & _).
  unfold required in Hn, Ht. unfold is_entity, has.
  destruct (Dict.get "type" d) as [[]|]; try discriminate.
  destruct (Dict.get "name" d) as [[]|]; try discriminate.
  reflexivity.
Qed.

Lemma entities_normalized d ents :
  optional "entities_involved"
    (list_schema (model_schema EntityInvolved_fields)) [] d = Valid ents ->
  optional "entities_involved"
    (list_schema (model_schema EntityInvolved_fields)) []
    (normalize_intent_data d) = Valid ents.
Proof.
  unfold optional. rewrite normalize_reads_entities.
  unfold normalize_entities.
  destruct (Dict.get "entities_involved" d) as [v|] eqn:E.
  - destruct v; rewrite ?E; auto.
    rewrite get_set_same. simpl.
    destruct (items (model_schema EntityInvolved_fields) 0 l) eqn:Ei;
      [|discriminate].
    rewrite (fix_entities_well_typed l (items_valid_entities _ _ _ Ei)).
    now rewrite Ei.
  - now rewrite E.
Qed.

End ValidityFacts.

(** X3: a record that validates still validates after normalization.  It
    gives the same intent when its payload has an [explicit] or an
    [implicit] key, and the same intent with the whole payload as
    [explicit], next to an empty [implicit], when it has neither. *)
Theorem normalize_preserves_validity :
  forall (str_as_float : string -> option float) (new_id : string)
         (intent_data : dict) (m : IntentionSchema),
    IntentionSchema_validate str_as_float new_id intent_data = Valid m ->
    exists p,
      Dict.get "payload" intent_data = Some (JDict p)
      /\ IntentionSchema_validate str_as_float new_id
           (normalize_intent_data intent_data)
         = Valid (if negb (Dict.mem "explicit" p) && negb (Dict.mem "implicit" p)
                  then with_payload m {| explicit := p; implicit := [] |}
                  else m).
Proof.
  intros sf new_id d m H.
  apply validate_iff_fields in H.
  destruct H as (H1 & H2 & H3 & H4 & H5 & H6 & H7 & H8 & H9 & H10 & H11
                 & H12 & H13 & H14).
  assert (Hp : exists p, Dict.get "payload" d = Some (JDict p)).
  { unfold required in H8. destruct (Dict.get "payload" d) as [[]|];
      try discriminate. eauto. }
  destruct Hp as [p Hp]. exists p. split; [exact Hp|].
  destruct (string_lists_normalized d) as (Ha & Hb & Hs).
  assert (Hfields : forall m',
             required "payload" (model_schema IntentPayload_fields)
               (normalize_intent_data d) = Valid (payload m') ->
             m' = with_payload m (payload m') ->
             IntentionSchema_validate sf new_id (normalize_intent_data d)
             = Valid m').
  { intros m' Hpay Hm'. apply validate_iff_fields. unfold fields_valid.
    rewrite Ha, Hb, Hs, constraints_normalized,
      validation_requirements_normalized.
    rewrite (entities_normalized d _ H7).
    rewrite (optional_normalized "intent_id"),
      (required_normalized "domain_pack_id"),
      (required_normalized "target_section"),
      (required_normalized "operation"),
      (required_normalized "intent_summary"),
      (required_normalized "confidence"),
      (required_normalized "execution_risk")
      by (unfold repair_keys; simpl; intuition discriminate).
    rewrite Hpay, Hm'. simpl.
    repeat split; first [assumption | reflexivity]. }
  pose proof (payload_normalized d) as Hn. rewrite Hp in Hn.
  destruct (negb (Dict.mem "explicit" p) && negb (Dict.mem "implicit" p)).
  - apply Hfields; [exact Hn | reflexivity].
  - apply Hfields; [now rewrite Hn | now destruct m].
Qed.

Lemma normalize_preserves_validity_witness :
  exists p,
    Dict.get "payload" (IntentionSchema_dump valid_intent) = Some (JDict p)
    /\ IntentionSchema_validate no_lax_floats "id-0"
         (normalize_intent_data (IntentionSchema_dump valid_intent))
       = Valid (if negb (Dict.mem "explicit" p) && negb (Dict.mem "implicit" p)
                then with_payload valid_intent {| explicit := p; implicit := [] |}
                else valid_intent).
Proof.
  apply (normalize_preserves_validity no_lax_floats "id-0"
           (IntentionSchema_dump valid_intent) valid_intent).
  vm_compute. reflexivity.
Defined.

(** ** Which fields can be reported missing *)

Section MissingFacts.

Lemma fail_not_missing {A : Type} k :
  k <> "missing" -> not_missing_itself (@fail A k).
Proof. intros Hk e [<-|[]] _. exact Hk. Qed.

Lemma valid_not_missing {A : Type} (a : A) : not_missing_itself (Valid a).
Proof. intros e []. Qed.

Lemma then_not_missing {A B : Type} (r : validation A) (k : A -> validation B) :
  not_missing_itself r -> (forall a, not_missing_itself (k a)) ->
  not_missing_itself (then_ r k).
Proof. destruct r; simpl; auto. Qed.

Lemma located_not_missing {A : Type} (r : validation A) :
  (forall e, In e (errors_of r) -> loc e <> []) -> not_missing_itself r.
Proof. intros H e He Hl. now apply H in He. Qed.

Lemma head_nonempty {A : Type} (l : list A) x : hd_error l = Some x -> l <> [].
Proof. destruct l; [discriminate | discriminate]. Qed.

Lemma items_located {A : Type} (schema : json -> validation A) l :
  forall i e, In e (errors_of (items schema i l)) -> loc e <> [].
Proof.
  induction l as [|v l IH]; intros i e; cbn [items]; [intros []|].
  rewrite !errors_of_ap. simpl. rewrite in_app_iff. intros [H|H].
  - apply within_head in H. now apply head_nonempty in H.
  - now apply IH in H.
Qed.

Lemma str_schema_not_missing v : not_missing_itself (str_schema v).
Proof. destruct v; try apply valid_not_missing; now apply fail_not_missing. Qed.

Lemma enum_schema_not_missing {E : Type} members (value : E -> string) v :
  not_missing_itself (enum_schema members value v).
Proof.
  destruct v; simpl; try (now apply fail_not_missing).
  destruct (find _ members);
    [apply valid_not_missing | now apply fail_not_missing].
Qed.

Lemma list_schema_not_missing {A : Type} (schema : json -> validation A) v :
  not_missing_itself (list_schema schema v).
Proof.
  destruct v; simpl; try (now apply fail_not_missing).
  apply located_not_missing. apply items_located.
Qed.

Lemma confidence_schema_not_missing sf v :
  not_missing_itself (confidence_schema sf v).
Proof.
  unfold confidence_schema. repeat apply then_not_missing.
  - destruct v; simpl; try apply valid_not_missing;
      try (now apply fail_not_missing).
    + destruct (is_infinity _);
        [now apply fail_not_missing | apply valid_not_missing].
    + destruct (sf s); [apply valid_not_missing | now apply fail_not_missing].
  - intros a. unfold bounded.
    destruct (negb _); [now apply fail_not_missing|].
    destruct (negb _); [now apply fail_not_missing | apply valid_not_missing].
  - intros a. unfold validate_confidence.
    destruct (negb _); [now apply fail_not_missing | apply valid_not_missing].
Qed.

Lemma payload_schema_not_missing v :
  not_missing_itself (model_schema IntentPayload_fields v).
Proof.
  destruct v; simpl; try (now apply fail_not_missing).
  apply located_not_missing. intros e. unfold IntentPayload_fields.
  rewrite !errors_of_ap. simpl. rewrite in_app_iff.
  intros [H|H]; apply optional_head in H; now apply head_nonempty in H.
Qed.

Lemma constraints_schema_not_missing v :
  not_missing_itself (model_schema IntentConstraints_fields v).
Proof.
  destruct v; simpl; try (now apply fail_not_missing).
  apply located_not_missing. intros e. unfold IntentConstraints_fields.
  rewrite !errors_of_ap. simpl. rewrite in_app_iff.
  intros [H|H]; apply optional_head in H; now apply head_nonempty in H.
Qed.

Lemma requirements_schema_not_missing v :
  not_missing_itself (model_schema ValidationRequirements_fields v).
Proof.
  destruct v; simpl; try (now apply fail_not_missing).
  apply located_not_missing. intros e. unfold ValidationRequirements_fields.
  rewrite !errors_of_ap. simpl. rewrite !in_app_iff.
  intros [[H|H]|H]; apply optional_head in H; now apply head_nonempty in H.
Qed.

Lemma within_no_missing {A : Type} field (r : validation A) k :
  not_missing_itself r -> ~ In (missing_at k) (errors_of (within (Key field) r)).
Proof.
  intros Hr. destruct r; simpl; [tauto|].
  intros H. apply in_map_iff in H as (e & He & Hin).
  unfold missing_at in He. injection He as Hk Hl.
  now apply (Hr e Hin).
Qed.

Lemma required_missing {A : Type} field (schema : json -> validation A) d k :
  (forall v, not_missing_itself (schema v)) ->
  In (missing_at k) (errors_of (required field schema d)) ->
  k = field /\ Dict.get field d = None.
Proof.
  intros Hs. unfold required. destruct (Dict.get field d) as [v|].
  - intros H. now apply within_no_missing in H.
  - simpl. intros [H|[]]. injection H as <-. auto.
Qed.

Lemma optional_missing {A : Type} field (schema : json -> validation A) dflt d k :
  (forall v, not_missing_itself (schema v)) ->
  ~ In (missing_at k) (errors_of (optional field schema dflt d)).
Proof.
  intros Hs. unfold optional. destruct (Dict.get field d) as [v|].
  - now apply within_no_missing.
  - simpl. tauto.
Qed.

End MissingFacts.

Lemma pipeline_reads_semantic_key env pack (d : dict) k :
  In k semantic_keys ->
  Dict.get k (ensure_ids env pack (normalize_intent_data d)) = Dict.get k d.
Proof.
  intros Hk. rewrite ensure_ids_other.
  - apply normalize_frame. now apply semantic_keys_not_repaired.
  - unfold semantic_keys in Hk. simpl in Hk. intros ->.
    repeat (destruct Hk as [Hk|Hk]; [discriminate Hk|]). exact Hk.
  - unfold semantic_keys in Hk. simpl in Hk. intros ->.
    repeat (destruct Hk as [Hk|Hk]; [discriminate Hk|]). exact Hk.
Qed.

Section MissingPlaces.

Lemma fail_no_missing {A : Type} k : k <> "missing" -> no_missing (@fail A k).
Proof. intros Hk e [<-|[]]. exact Hk. Qed.

Lemma valid_no_missing {A : Type} (a : A) : no_missing (Valid a).
Proof. intros e []. Qed.

Lemma then_no_missing {A B : Type} (r : validation A) (k : A -> validation B) :
  no_missing r -> (forall a, no_missing (k a)) -> no_missing (then_ r k).
Proof. destruct r; simpl; auto. Qed.

Lemma within_errors {A : Type} item (r : validation A) e :
  In e (errors_of (within item r))
  <-> exists e', In e' (errors_of r)
                 /\ e = {| loc := item :: loc e'; kind := kind e' |}.
Proof.
  destruct r as [a|es]; simpl.
  - split; [tauto | intros (e' & [] & _)].
  - rewrite in_map_iff. split; intros (e' & H1 & H2); exists e'; auto.
Qed.

Lemma within_keeps_no_missing {A : Type} item (r : validation A) :
  no_missing r -> no_missing (within item r).
Proof.
  intros Hr e He. apply within_errors in He as (e' & He' & ->). simpl.
  now apply Hr.
Qed.

Lemma ap_no_missing {A B : Type} (f : validation (A -> B)) (x : validation A) :
  no_missing f -> no_missing x -> no_missing (ap f x).
Proof.
  intros Hf Hx e. rewrite errors_of_ap, in_app_iff. intros [H|H]; auto.
Qed.

Lemma optional_no_missing {A : Type} field (schema : json -> validation A)
      dflt d :
  (forall v, no_missing (schema v)) -> no_missing (optional field schema dflt d).
Proof.
  intros Hs. unfold optional. destruct (Dict.get field d).
  - now apply within_keeps_no_missing.
  - apply valid_no_missing.
Qed.

Lemma required_only_missing {A : Type} field (schema : json -> validation A)
      d e :
  (forall v, no_missing (schema v)) ->
  In e (errors_of (required field schema d)) -> kind e = "missing" ->
  e = missing_at field /\ Dict.get field d = None.
Proof.
  intros Hs. unfold required. destruct (Dict.get field d) as [v|].
  - intros He Hk. now apply (within_keeps_no_missing (Key field) _ (Hs v)) in He.
  - simpl. intros [<-|[]] _. auto.
Qed.

Lemma items_no_missing {A : Type} (schema : json -> validation A) l :
  (forall v, no_missing (schema v)) -> forall i, no_missing (items schema i l).
Proof.
  intros Hs. induction l as [|v l IH]; intros i; cbn [items].
  - apply valid_no_missing.
  - apply ap_no_missing; [|apply IH].
    apply ap_no_missing; [apply valid_no_missing|].
    now apply within_keeps_no_missing.
Qed.

Lemma values_no_missing {A : Type} (schema : json -> validation A) d :
  (forall v, no_missing (schema v)) -> no_missing (values schema d).
Proof.
  intros Hs. induction d as [|[k v] d IH]; cbn [values].
  - apply valid_no_missing.
  - apply ap_no_missing; [|apply IH].
    apply ap_no_missing; [apply valid_no_missing|].
    now apply within_keeps_no_missing.
Qed.

Lemma str_schema_no_missing v : no_missing (str_schema v).
Proof. destruct v; try apply valid_no_missing; now apply fail_no_missing. Qed.

Lemma dict_schema_no_missing v : no_missing (dict_schema v).
Proof. destruct v; try apply valid_no_missing; now apply fail_no_missing. Qed.

Lemma bool_schema_no_missing v : no_missing (bool_schema v).
Proof.
  destruct v; simpl; try apply valid_no_missing;
    try (now apply fail_no_missing).
  - destruct (z =? 0); [apply valid_no_missing|].
    destruct (z =? 1); [apply valid_no_missing | now apply fail_no_missing].
  - destruct (f =? 0)%float; [apply valid_no_missing|].
    destruct (f =? 1)%float; [apply valid_no_missing|].
    destruct (is_integral f); now apply fail_no_missing.
  - destruct (bool_of_str s);
      [apply valid_no_missing | now apply fail_no_missing].
Qed.

Lemma enum_schema_no_missing {E : Type} members (value : E -> string) v :
  no_missing (enum_schema members value v).
Proof.
  destruct v; simpl; try (now apply fail_no_missing).
  destruct (find _ members);
    [apply valid_no_missing | now apply fail_no_missing].
Qed.

Lemma list_schema_no_missing {A : Type} (schema : json -> validation A) v :
  (forall x, no_missing (schema x)) -> no_missing (list_schema schema v).
Proof.
  intros Hs. destruct v; simpl; try (now apply fail_no_missing).
  now apply items_no_missing.
Qed.

Lemma dict_of_schema_no_missing {A : Type} (schema : json -> validation A) v :
  (forall x, no_missing (schema x)) -> no_missing (dict_of_schema schema v).
Proof.
  intros Hs. destruct v; simpl; try (now apply fail_no_missing).
  now apply values_no_missing.
Qed.

Lemma confidence_schema_no_missing sf v : no_missing (confidence_schema sf v).
Proof.
  unfold confidence_schema. repeat apply then_no_missing.
  - destruct v; simpl; try apply valid_no_missing;
      try (now apply fail_no_missing).
    + destruct (is_infinity _);
        [now apply fail_no_missing | apply valid_no_missing].
    + destruct (sf s); [apply valid_no_missing | now apply fail_no_missing].
  - intros a. unfold bounded.
    destruct (negb _); [now apply fail_no_missing|].
    destruct (negb _); [now apply fail_no_missing | apply valid_no_missing].
  - intros a. unfold validate_confidence.
    destruct (negb _); [now apply fail_no_missing | apply valid_no_missing].
Qed.

Lemma payload_schema_no_missing v :
  no_missing (model_schema IntentPayload_fields v).
Proof.
  destruct v; simpl; try (now apply fail_no_missing).
  unfold IntentPayload_fields.
  repeat apply ap_no_missing; try apply valid_no_missing;
    apply optional_no_missing, dict_schema_no_missing.
Qed.

Lemma constraints_schema_no_missing v :
  no_missing (model_schema IntentConstraints_fields v).
Proof.
  destruct v; simpl; try (now apply fail_no_missing).
  unfold IntentConstraints_fields.
  repeat apply ap_no_missing; try apply valid_no_missing;
    apply optional_no_missing;
    first [apply bool_schema_no_missing | apply dict_schema_no_missing].
Qed.

Lemma requirements_schema_no_missing v :
  no_missing (model_schema ValidationRequirements_fields v).
Proof.
  destruct v; simpl; try (now apply fail_no_missing).
  unfold ValidationRequirements_fields.
  repeat apply ap_no_missing; try apply valid_no_missing;
    apply optional_no_missing;
    first [ apply bool_schema_no_missing
          | intros x; apply dict_of_schema_no_missing, bool_schema_no_missing ].
Qed.

(** The errors of a list are those of its entries, each at its index. *)
Lemma items_errors {A : Type} (schema : json -> validation A) l :
  forall i e,
    In e (errors_of (items schema i l))
    <-> exists j v e',
          nth_error l j = Some v
          /\ In e' (errors_of (schema v))
          /\ e = {| loc := Index (i + j) :: loc e'; kind := kind e' |}.
Proof.
  induction l as [|v l IH]; intros i e; cbn [items].
  - simpl. split; [tauto|]. intros (j & v & e' & H & _). now destruct j.
  - rewrite !errors_of_ap. simpl. rewrite in_app_iff, within_errors, IH.
    split.
    + intros [(e' & He' & ->)|(j & v' & e' & Hj & He' & ->)].
      * exists O, v, e'. rewrite Nat.add_0_r. auto.
      * exists (S j), v', e'. rewrite Nat.add_succ_r. auto.
    + intros (j & v' & e' & Hj & He' & ->). destruct j as [|j].
      * simpl in Hj. injection Hj as <-. left. exists e'.
        rewrite Nat.add_0_r. auto.
      * simpl in Hj. right. exists j, v', e'. rewrite Nat.add_succ_r. auto.
Qed.

(** What an entry of [entities_involved] can be reported to miss. *)
Lemma entity_missing v e :
  In e (errors_of (model_schema EntityInvolved_fields v)) ->
  kind e = "missing" ->
  exists d field,
    v = JDict d /\ (field = "type" \/ field = "name")
    /\ e = missing_at field /\ Dict.get field d = None.
Proof.
  destruct v; simpl; try (intros [<-|[]]; discriminate).
  unfold EntityInvolved_fields. rewrite !errors_of_ap. simpl.
  rewrite in_app_iff. intros [H|H] Hk;
    apply required_only_missing in H as [-> Hn];
    try exact Hk; try apply str_schema_no_missing;
    exists d; eauto 6.
Qed.

Lemma entity_name_missing d :
  Dict.get "name" d = None ->
  In (missing_at "name") (errors_of (model_schema EntityInvolved_fields (JDict d))).
Proof.
  intros Hn. simpl. unfold EntityInvolved_fields.
  rewrite !errors_of_ap. simpl. rewrite in_app_iff. right.
  unfold required. rewrite Hn. now left.
Qed.

(** In a list of entries as the normalizer leaves them, an entry that
    is reported to miss a field is reported to miss its name. *)
Lemma entities_missing (d : dict) e :
  (forall l, Dict.get "entities_involved" d = Some (JList l) ->
             forallb entry_shaped l = true) ->
  In e (errors_of (optional "entities_involved"
                     (list_schema (model_schema EntityInvolved_fields)) [] d)) ->
  kind e = "missing" ->
  exists i field,
    e = missing_in_entity i field
    /\ (field = "type" \/ field = "name")
    /\ In (missing_in_entity i "name")
          (errors_of (optional "entities_involved"
                        (list_schema (model_schema EntityInvolved_fields)) [] d)).
Proof.
  intros Hshape. unfold optional.
  destruct (Dict.get "entities_involved" d) as [v|]; [|intros []].
  destruct v as [| | | | |l|];
    try (simpl; intros [<-|[]]; discriminate).
  specialize (Hshape l eq_refl). rewrite forallb_forall in Hshape.
  cbn [list_schema]. rewrite within_errors.
  intros (e1 & He1 & ->) Hk. simpl in Hk.
  apply items_errors in He1 as (j & v & e2 & Hj & He2 & ->). simpl in Hk.
  destruct (entity_missing v e2 He2 Hk) as (entry & field & -> & Hf & -> & Hn).
  exists j, field. split; [reflexivity|]. split; [exact Hf|].
  apply within_errors. exists {| loc := [Index j; Key "name"]; kind := "missing" |}.
  split; [|reflexivity].
  apply items_errors. exists j, (JDict entry), (missing_at "name").
  split; [exact Hj|]. split; [|reflexivity].
  apply entity_name_missing.
  assert (Hs := Hshape _ (nth_error_In _ _ Hj)). simpl in Hs.
  unfold Dict.mem in Hs.
  destruct Hf as [->| ->]; [|exact Hn].
  rewrite Hn in Hs.
  destruct (Dict.get "name" entry); [discriminate Hs | reflexivity].
Qed.

End MissingPlaces.

Lemma pipeline_entities_shaped env pack (extracted : dict) l :
  Dict.get "entities_involved"
    (ensure_ids env pack (normalize_intent_data extracted)) = Some (JList l) ->
  forallb entry_shaped l = true.
Proof.
  rewrite ensure_ids_other by discriminate.
  rewrite normalize_reads_entities. unfold normalize_entities.
  destruct (Dict.get "entities_involved" extracted) as [v|] eqn:E.
  - destruct v; try congruence.
    rewrite get_set_same. intros [= <-]. apply fix_entities_shaped.
  - congruence.
Qed.

(** X4: on the record that [generate_intent] hands to the validation (the
    normalized record with its two identifiers), an error that reports a
    field missing stands in one of two places. At the top it is one of
    [target_section], [operation], [intent_summary], [confidence] and
    [execution_risk], which the extracted record does not have; and each
    of these five is reported missing when the extracted record does not
    have it. Below the top it is the ["type"] or the ["name"] of an
    entry of [entities_involved], and that entry is reported to miss its
    ["name"]. *)
Theorem missing_fields_after_pipeline :
  forall (str_as_float : string -> option float) (new_id : string)
         (env : Env) (domain_pack_id : string) (extracted : dict),
    let intent_data :=
      ensure_ids env domain_pack_id (normalize_intent_data extracted) in
    let errors :=
      errors_of (IntentionSchema_validate str_as_float new_id intent_data) in
    (forall e, In e errors -> kind e = "missing" ->
               (exists k, In k semantic_keys
                          /\ e = missing_at k
                          /\ Dict.get k extracted = None)
               \/ (exists i field,
                      e = missing_in_entity i field
                      /\ (field = "type" \/ field = "name")
                      /\ In (missing_in_entity i "name") errors))
    /\ (forall k, In k semantic_keys -> Dict.get k extracted = None ->
                  In (missing_at k) errors).
Proof.
  intros sf new_id env pack extracted d errors. subst errors.
  rewrite validate_errors. unfold field_errors. simpl concat.
  rewrite app_nil_r.
  assert (Hpack : Dict.get "domain_pack_id" d <> None).
  { subst d. rewrite ensure_ids_domain_pack_id.
    destruct (Dict.get "domain_pack_id" _); discriminate. }
  assert (Hpay : Dict.get "payload" d <> None).
  { subst d. rewrite ensure_ids_other by discriminate.
    destruct (normalize_payload_shaped (normalize_entities extracted))
      as (p & Hp & _).
    rewrite normalize_reads_payload, Hp. discriminate. }
  assert (Hread : forall k, In k semantic_keys ->
                            Dict.get k d = Dict.get k extracted).
  { intros k Hk. subst d. now apply pipeline_reads_semantic_key. }
  split.
  - intros e H Hk. rewrite !in_app_iff in H.
    repeat match type of H with
           | _ \/ _ => destruct H as [H|H]
           end;
      try (exfalso; revert Hk;
           first
             [ apply (optional_no_missing _ _ _ _ str_schema_no_missing e H)
             | apply (optional_no_missing _ _ _ _
                        constraints_schema_no_missing e H)
             | apply (optional_no_missing _ _ _ _
                        requirements_schema_no_missing e H)
             | apply (optional_no_missing _ _ _ _
                        (fun x => list_schema_no_missing
                                    str_schema x str_schema_no_missing) e H) ];
           fail);
      try (apply required_only_missing in H as [-> Hn];
           [ first [ contradiction
                   | left; eexists; split;
                     [|split; [reflexivity|rewrite <- Hread; [exact Hn|]]];
                     unfold semantic_keys; simpl; tauto ]
           | first [ exact str_schema_no_missing
                   | apply enum_schema_no_missing
                   | apply confidence_schema_no_missing
                   | exact payload_schema_no_missing ]
           | exact Hk ]; fail).
    right.
    destruct (entities_missing d e
                (pipeline_entities_shaped env pack extracted) H Hk)
      as (i & field & -> & Hf & Hin).
    exists i, field. split; [reflexivity|]. split; [exact Hf|].
    rewrite !in_app_iff. tauto.
  - intros k Hk Hn.
    assert (Hd : Dict.get k d = None) by (rewrite Hread; assumption).
    rewrite !in_app_iff. unfold semantic_keys in Hk. simpl in Hk.
    destruct Hk as [<-|[<-|[<-|[<-|[<-|[]]]]]];
      unfold required; rewrite ?Hd; simpl; unfold missing_at; tauto.
Qed.

Lemma missing_fields_after_pipeline_witness :
  In (missing_at "intent_summary")
     (errors_of
        (IntentionSchema_validate no_lax_floats "id-0"
           (ensure_ids (env_answering stub_text) "Legal_v01"
              (normalize_intent_data stub_record))))
  /\ In (missing_in_entity 1 "name")
        (errors_of
           (IntentionSchema_validate no_lax_floats "id-0"
              (ensure_ids (env_answering stub_text) "Legal_v01"
                 (normalize_intent_data unnamed_entities)))).
Proof.
  split.
  - apply (proj2 (missing_fields_after_pipeline no_lax_floats "id-0"
                    (env_answering stub_text) "Legal_v01" stub_record)).
    + simpl. tauto.
    + reflexivity.
  - destruct (proj1 (missing_fields_after_pipeline no_lax_floats "id-0"
                       (env_answering stub_text) "Legal_v01" unnamed_entities)
                    (missing_in_entity 1 "type"))
      as [(k & _ & E & _)|(i & field & E & _ & H)].
    + simpl. tauto.
    + reflexivity.
    + discriminate E.
    + injection E as <- _. exact H.
Defined.

(** ** What a successful answer guarantees *)

(** X11: an answer with an intent carries the fixed message and a
    confidence within the unit interval; the provider was selected, the
    backend ran between one and three times, and its text gave a record;
    where that record had no [intent_id] the intent carries the token of
    [uuid.uuid4()], and where it had no [domain_pack_id] the intent
    carries the one of the request. *)
Theorem success_response :
  forall (json_loads : string -> option json)
         (str_as_float : string -> option float)
         (env : Env) (request : IntentRequest)
         (intent : IntentionSchema) (message : string),
    interpret_intent json_loads str_as_float env request
    = IntentResponse intent message ->
    message = "Intent parsed successfully"
    /\ in_unit_interval (confidence intent) = true
    /\ (1 <= backend_calls env <= 3)%nat
    /\ exists provider raw_output extracted,
         get_llm_provider env = Ok provider
         /\ Tenacity.outcome (generate env provider) = Ok raw_output
         /\ parse_llm_output json_loads raw_output = Ok (JDict extracted)
         /\ (Dict.get "intent_id" extracted = None ->
             intent_id intent = uuid4 env)
         /\ (Dict.get "domain_pack_id" extracted = None ->
             domain_pack_id intent = req_domain_pack_id request).
Proof.
  intros jl sf env request intent message.
  unfold interpret_intent.
  destruct (generate_intent jl env request) as [d|e] eqn:Hg;
    [|destruct (is_ValueError e); discriminate].
  destruct (IntentionSchema_validate sf (uuid4 env) d) as [m|es] eqn:Hv;
    [|discriminate].
  intros [= <- <-]. split; [reflexivity|].
  split; [now apply (validated_confidence_in_range sf (uuid4 env) d)|].
  unfold generate_intent in Hg. unfold backend_calls.
  destruct (get_llm_provider env) as [provider|] eqn:Hp; [|discriminate].
  simpl in Hg.
  destruct (Tenacity.outcome (generate env provider)) as [raw|] eqn:Ho;
    [|discriminate].
  simpl in Hg.
  destruct (parse_llm_output jl raw) as [v|] eqn:He; [|discriminate].
  simpl in Hg. destruct v; try discriminate. simpl in Hg.
  injection Hg as <-.
  split; [apply (generate_run env provider)|].
  exists provider, raw, d0. repeat split; auto.
  - intros Hn. apply validate_iff_fields in Hv. destruct Hv as (H1 & _).
    unfold optional in H1. rewrite ensure_ids_intent_id in H1.
    rewrite (proj1 (normalize_keeps_identifiers d0)), Hn in H1.
    simpl in H1. now injection H1 as <-.
  - intros Hn. apply validate_iff_fields in Hv. destruct Hv as (_ & H2 & _).
    unfold required in H2. rewrite ensure_ids_domain_pack_id in H2.
    rewrite (proj2 (normalize_keeps_identifiers d0)), Hn in H2.
    simpl in H2. now injection H2 as <-.
Qed.

(** A text that gives a whole intent. *)
Lemma success_response_witness :
  exists provider raw_output extracted,
    get_llm_provider (env_answering full_text) = Ok provider
    /\ Tenacity.outcome (generate (env_answering full_text) provider)
       = Ok raw_output
    /\ parse_llm_output JsonText.loads raw_output = Ok (JDict extracted)
    /\ (Dict.get "intent_id" extracted = None ->
        intent_id full_intent = uuid4 (env_answering full_text))
    /\ (Dict.get "domain_pack_id" extracted = None ->
        domain_pack_id full_intent = req_domain_pack_id legal_request).
Proof.
  apply (success_response JsonText.loads no_lax_floats
           (env_answering full_text) legal_request full_intent
           "Intent parsed successfully").
  vm_compute. reflexivity.
Defined.

(** ** Bare strings as entities, before and after normalization *)




(** ** A fence that is never closed *)

Section UnclosedFence.

Import PyStr.

Lemma find_from_absent (pre opening rest fence : string) :
  find rest fence = -1 ->
  find_from (pre ++ opening ++ rest) fence (len pre + len opening) = -1.
Proof.
  intros H. rewrite find_is_find_aux in H.
  unfold find_from.
  pose proof (len_nonneg pre). pose proof (len_nonneg opening).
  pose proof (len_nonneg rest).
  replace (len pre + len opening <? 0) with false by lia.
  rewrite <- app_assoc_string, len_app, len_app.
  replace (len pre + len opening >? len pre + len opening + len rest)
    with false by lia.
  replace (Z.to_nat (len pre + len opening))
    with (String.length (pre ++ opening))
    by (rewrite length_app; unfold len; lia).
  rewrite drop_app, find_aux_shift by lia.
  now rewrite H.
Qed.

Lemma slice_to_last (a b : string) (c : ascii) :
  slice (a ++ b ++ String c EmptyString) (len a) (-1) = b.
Proof.
  unfold slice, adjust. rewrite !len_app.
  pose proof (len_nonneg a). pose proof (len_nonneg b).
  change (len (String c EmptyString)) with 1.
  replace (len a <? 0) with false by lia.
  change (-1 <? 0) with true. cbv iota.
  rewrite Z.min_l, Z.max_r by lia.
  replace (Z.to_nat (len a)) with (String.length a) by (unfold len; lia).
  replace (Z.to_nat (-1 + (len a + (len b + 1)) - len a))
    with (String.length b) by (unfold len; lia).
  now rewrite drop_app, take_app.
Qed.

Variable json_loads : string -> option json.

Lemma unclosed_block (pre opening body : string) (c : ascii) :
  let raw := pre ++ opening ++ body ++ String c EmptyString in
  find raw opening = len pre ->
  find (body ++ String c EmptyString) "```" = -1 ->
  slice raw (find raw opening + len opening)
        (find_from raw "```" (find raw opening + len opening))
  = body.
Proof.
  intros raw H1 H2. rewrite H1. subst raw.
  rewrite find_from_absent by assumption.
  rewrite <- (app_assoc_string pre opening), <- len_app.
  apply slice_to_last.
Qed.

End UnclosedFence.

(** X5: when the opening fence (tagged or not) is the last fence of the
    text, the code parses what follows it without the last character of
    the text. *)
Theorem unclosed_fence_drops_last_character :
  forall (json_loads : string -> option json)
         (pre body : string) (c : ascii),
    (let raw := pre ++ "```json" ++ body ++ String c EmptyString in
     json_loads raw = None ->
     PyStr.find raw "```json" = PyStr.len pre ->
     PyStr.find (body ++ String c EmptyString) "```" = -1 ->
     parse_llm_output json_loads raw = loads json_loads (PyStr.strip body))
    /\ (let raw := pre ++ "```" ++ body ++ String c EmptyString in
        json_loads raw = None ->
        PyStr.contains raw "```json" = false ->
        PyStr.find raw "```" = PyStr.len pre ->
        PyStr.find (body ++ String c EmptyString) "```" = -1 ->
        parse_llm_output json_loads raw = loads json_loads (PyStr.strip body)).
Proof.
  intros jl pre body c. split.
  - intros raw Hn H1 H2. unfold parse_llm_output. rewrite Hn.
    rewrite (contains_at raw "```json" (PyStr.len pre))
      by (auto using len_nonneg).
    change (PyStr.find raw "```json" + 7)
      with (PyStr.find raw "```json" + PyStr.len "```json").
    unfold raw. now rewrite unclosed_block.
  - intros raw Hn Hc H1 H2. unfold parse_llm_output. rewrite Hn, Hc.
    rewrite (contains_at raw "```" (PyStr.len pre)) by (auto using len_nonneg).
    change (PyStr.find raw "```" + 3)
      with (PyStr.find raw "```" + PyStr.len "```").
    unfold raw. now rewrite unclosed_block.
Qed.

Lemma unclosed_fence_witness :
  parse_llm_output JsonText.loads
    ("Sure: " ++ "```json" ++ PyStr.dq " {'a':1" ++ String "}" EmptyString)
  = loads JsonText.loads (PyStr.strip (PyStr.dq " {'a':1"))
  /\ parse_llm_output JsonText.loads
       ("Sure: " ++ "```" ++ PyStr.dq " {'a':1}" ++ String "." EmptyString)
     = loads JsonText.loads (PyStr.strip (PyStr.dq " {'a':1}")).
Proof.
  split.
  - apply (proj1 (unclosed_fence_drops_last_character JsonText.loads
                    "Sure: " (PyStr.dq " {'a':1") "}"));
      vm_compute; reflexivity.
  - apply (proj2 (unclosed_fence_drops_last_character JsonText.loads
                    "Sure: " (PyStr.dq " {'a':1}") "."));
      vm_compute; reflexivity.
Defined.

(** ** A text that is JSON but no object *)

(** X6: when the text of the backend gives a JSON value that is not an
    object (a list, a number, a string, a constant), the normalizer
    raises and the endpoint answers with [LLM_API_ERROR]. *)
Theorem non_object_is_api_error :
  forall (json_loads : string -> option json)
         (str_as_float : string -> option float)
         (env : Env) (request : IntentRequest)
         (provider : LLMProvider) (raw_output : string) (v : json),
    get_llm_provider env = Ok provider ->
    Tenacity.outcome (generate env provider) = Ok raw_output ->
    parse_llm_output json_loads raw_output = Ok v ->
    is_dict v = false ->
    exists e,
      generate_intent json_loads env request = Raise e
      /\ is_ValueError e = false
      /\ interpret_intent json_loads str_as_float env request
         = HTTPException (api_error e).
Proof.
  intros jl sf env request provider raw v Hp Hg He Hv.
  unfold interpret_intent, generate_intent. rewrite Hp. simpl.
  rewrite Hg. simpl. rewrite He. simpl.
  destruct v; try discriminate; simpl; eexists; repeat split.
Qed.

Lemma non_object_is_api_error_witness :
  exists e,
    generate_intent JsonText.loads (env_answering "[1, 2]") legal_request
    = Raise e
    /\ is_ValueError e = false
    /\ interpret_intent JsonText.loads no_lax_floats
         (env_answering "[1, 2]") legal_request
       = HTTPException (api_error e).
Proof.
  apply (non_object_is_api_error JsonText.loads no_lax_floats
           (env_answering "[1, 2]") legal_request GroqProvider "[1, 2]"
           (JList [JInt 1; JInt 2])); vm_compute; reflexivity.
Defined.

(** ** The sleeps of the retry policy *)

Lemma generate_wait_schedule :
  Tenacity.wait_exponential 1 2 10 1 = 2
  /\ Tenacity.wait_exponential 1 2 10 2 = 2
  /\ Tenacity.wait_exponential 1 2 10 3 = 4
  /\ Tenacity.wait_exponential 1 2 10 4 = 8.
Proof. repeat split. Qed.

Lemma generate_wait_cap (n : nat) :
  (5 <= n)%nat -> Tenacity.wait_exponential 1 2 10 n = 10.
Proof.
  intros Hn. unfold Tenacity.wait_exponential.
  assert (H : 2 ^ 4 <= 2 ^ (Z.of_nat n - 1)) by (apply Z.pow_le_mono_r; lia).
  change (2 ^ 4) with 16 in H. lia.
Qed.

(** X7: with the policy written on [generate], the sleeps between the
    runs are of 2 seconds each, so that a call sleeps 4 seconds at most;
    the wait would grow to 4, to 8 and then stay at 10 seconds only from
    the third failed run on, which the limit of three runs excludes. *)
Theorem generate_sleeps :
  forall (env : Env) (p : LLMProvider),
    let run := generate env p in
    Tenacity.sleeps run = repeat 2 (Tenacity.attempts run - 1)
    /\ fold_right Z.add 0 (Tenacity.sleeps run) <= 4
    /\ Tenacity.wait generate_retry 3 = 4
    /\ Tenacity.wait generate_retry 4 = 8
    /\ (forall n, (5 <= n)%nat -> Tenacity.wait generate_retry n = 10).
Proof.
  intros env p run. subst run.
  destruct (generate_run env p) as (Hb & Hs & _).
  assert (Hr : Tenacity.sleeps (generate env p)
               = repeat 2 (Tenacity.attempts (generate env p) - 1)).
  { rewrite Hs.
    destruct (Tenacity.attempts (generate env p)) as [|[|[|[|n]]]];
      try reflexivity; lia. }
  split; [exact Hr|]. split.
  - rewrite Hr.
    destruct (Tenacity.attempts (generate env p)) as [|[|[|[|n]]]];
      simpl; lia.
  - split; [reflexivity|]. split; [reflexivity|]. apply generate_wait_cap.
Qed.

Lemma generate_sleeps_witness : Tenacity.wait generate_retry 7 = 10.
Proof.
  destruct (generate_sleeps env_timing_out GroqProvider)
    as (_ & _ & _ & _ & H).
  apply H. lia.
Defined.

(** ** Selection of the provider and the health report *)

Lemma provider_init_ok env p q :
  provider_init env p = Ok q <->
  q = p /\ installed env p = true /\ truthy (api_key (settings env) p) = true.
Proof.
  unfold provider_init.
  destruct (installed env p), (truthy (api_key (settings env) p)); simpl;
    split; try discriminate; try (intros [= <-]; auto);
    try (intros (-> & _ & _); reflexivity);
    intros (_ & H1 & H2); discriminate.
Qed.

Lemma package_injective p q : package p = package q -> p = q.
Proof. destruct p, q; simpl; intros H; try reflexivity; discriminate. Qed.

(** X8: [get_llm_provider] returns a provider exactly when the lowered
    name of the settings is the name of that provider, its package can
    be imported and its key is a non-empty string; what it raises is a
    [ValueError] or an [ImportError]; and a package that cannot be
    imported is reported before the key is looked at. *)
Theorem get_llm_provider_outcomes :
  forall (env : Env),
    let provider_name := PyStr.lower (LLM_PROVIDER (settings env)) in
    (forall p,
        get_llm_provider env = Ok p
        <-> provider_name = package p
            /\ installed env p = true
            /\ truthy (api_key (settings env) p) = true)
    /\ (forall e,
          get_llm_provider env = Raise e ->
          (exists msg, e = ValueError msg) \/ (exists msg, e = ImportError msg))
    /\ (forall p,
          provider_name = package p -> installed env p = false ->
          exists msg, get_llm_provider env = Raise (ImportError msg)).
Proof.
  intros env n. subst n. split; [|split].
  - intros p. split.
    + unfold get_llm_provider.
      destruct (String.eqb_spec (PyStr.lower (LLM_PROVIDER (settings env)))
                                "openai") as [E|_];
        [|destruct (String.eqb_spec (PyStr.lower (LLM_PROVIDER (settings env)))
                                    "groq") as [E|_];
          [|destruct (String.eqb_spec
                        (PyStr.lower (LLM_PROVIDER (settings env)))
                        "anthropic") as [E|_]; [|discriminate]]];
        intros H; apply provider_init_ok in H as (-> & Hi & Hk);
        rewrite E; auto.
    + intros (Hn & Hi & Hk).
      rewrite (get_llm_provider_supported env p Hn).
      apply provider_init_ok. auto.
  - intros e. unfold get_llm_provider, provider_init.
    repeat match goal with
           | |- context [if ?b then _ else _] => destruct b
           end;
      intros [= <-]; eauto.
  - intros p Hn Hi. rewrite (get_llm_provider_supported env p Hn).
    unfold provider_init. rewrite Hi. simpl. eauto.
Qed.

Lemma get_llm_provider_outcomes_witness :
  get_llm_provider (env_answering prose) = Ok GroqProvider
  /\ ((exists msg, ValueError "GROQ_API_KEY not configured" = ValueError msg)
      \/ (exists msg, ValueError "GROQ_API_KEY not configured" = ImportError msg))
  /\ exists msg, get_llm_provider env_not_installed = Raise (ImportError msg).
Proof.
  split; [|split].
  - apply (proj1 (get_llm_provider_outcomes (env_answering prose))).
    repeat split.
  - apply (proj1 (proj2 (get_llm_provider_outcomes env_without_key))).
    reflexivity.
  - apply (proj2 (proj2 (get_llm_provider_outcomes env_not_installed))
             GroqProvider); reflexivity.
Defined.

Lemma api_key_configured_iff (st : Settings) (model : string) :
  Health.api_key_configured (intent_health_check st model) = true
  <-> exists p, PyStr.lower (LLM_PROVIDER st) = package p
                /\ truthy (api_key st p) = true.
Proof.
  unfold intent_health_check. cbn [Health.api_key_configured].
  split.
  - destruct (String.eqb_spec (PyStr.lower (LLM_PROVIDER st)) "openai") as [E|_];
      [destruct (truthy (OPENAI_API_KEY st)) eqn:K;
       [intros _; exists OpenAIProvider; auto|]|];
      simpl;
      (destruct (String.eqb_spec (PyStr.lower (LLM_PROVIDER st)) "groq")
         as [E'|_];
       [destruct (truthy (GROQ_API_KEY st)) eqn:K';
        [intros _; exists GroqProvider; auto|]|]);
      simpl;
      (destruct (String.eqb_spec (PyStr.lower (LLM_PROVIDER st)) "anthropic")
         as [E''|_];
       [destruct (truthy (ANTHROPIC_API_KEY st)) eqn:K'';
        [intros _; exists AnthropicProvider; auto|]|]);
      simpl; discriminate.
  - intros (p & Hn & Hk). rewrite Hn.
    destruct p; simpl in *; rewrite Hk; reflexivity.
Qed.

(** X9: the health report says "healthy" exactly when the lowered name
    of the settings is the name of a provider whose key is a non-empty
    string, and "degraded" otherwise, also for a name that no provider
    has; whenever [get_llm_provider] returns a provider the report is
    "healthy", and a "healthy" report with the packages installed means
    that [get_llm_provider] returns a provider. *)
Theorem health_report :
  forall (env : Env) (model : string),
    let report := intent_health_check (settings env) model in
    let provider_name := PyStr.lower (LLM_PROVIDER (settings env)) in
    (Health.status report = "healthy"
     <-> exists p, provider_name = package p
                   /\ truthy (api_key (settings env) p) = true)
    /\ (Health.status report = "healthy" \/ Health.status report = "degraded")
    /\ ((forall p, provider_name <> package p) ->
        Health.status report = "degraded"
        /\ Health.message report = "LLM API key not configured")
    /\ (forall p, get_llm_provider env = Ok p ->
                  Health.status report = "healthy")
    /\ (Health.status report = "healthy" ->
        (forall p, installed env p = true) ->
        exists p, get_llm_provider env = Ok p).
Proof.
  intros env model report n. subst n.
  pose proof (api_key_configured_iff (settings env) model) as Hk.
  assert (Hs : Health.status report = "healthy"
               <-> Health.api_key_configured report = true).
  { subst report. unfold intent_health_check.
    cbn [Health.status Health.api_key_configured].
    match goal with
    | |- context [if ?b then "healthy" else _] => destruct b
    end; split; auto; discriminate. }
  fold report in Hk.
  split; [now rewrite Hs|]. split; [|split; [|split]].
  - subst report. unfold intent_health_check. cbn [Health.status].
    match goal with
    | |- context [if ?b then "healthy" else _] => destruct b
    end; auto.
  - intros Hnone.
    assert (Hf : Health.api_key_configured report = false).
    { destruct (Health.api_key_configured report) eqn:E; auto.
      destruct (proj1 Hk eq_refl) as (p & Hp & _). now apply Hnone in Hp. }
    subst report. unfold intent_health_check in *.
    cbn [Health.status Health.message Health.api_key_configured] in *.
    now rewrite Hf.
  - intros p Hp. apply Hs, Hk. exists p.
    unfold get_llm_provider in Hp.
    assert (Hinit : forall q, provider_init env q = Ok p ->
                              q = p /\ truthy (api_key (settings env) p) = true).
    { intros q Hq. apply provider_init_ok in Hq as (-> & _ & Hq). auto. }
    destruct (String.eqb_spec (PyStr.lower (LLM_PROVIDER (settings env)))
                              "openai") as [E|_];
      [apply Hinit in Hp as [<- Hp]; auto|].
    destruct (String.eqb_spec (PyStr.lower (LLM_PROVIDER (settings env)))
                              "groq") as [E|_];
      [apply Hinit in Hp as [<- Hp]; auto|].
    destruct (String.eqb_spec (PyStr.lower (LLM_PROVIDER (settings env)))
                              "anthropic") as [E|_];
      [apply Hinit in Hp as [<- Hp]; auto | discriminate].
  - intros Hh Hi. apply Hs, Hk in Hh as (p & Hn & Hkey). exists p.
    rewrite (get_llm_provider_supported env p Hn).
    apply provider_init_ok. auto.
Qed.

Lemma health_report_witness :
  Health.status (intent_health_check (settings (env_answering prose)) "gpt-4")
  = "healthy"
  /\ (Health.status (intent_health_check (settings env_unsupported) "gpt-4")
      = "degraded"
      /\ Health.message (intent_health_check (settings env_unsupported) "gpt-4")
         = "LLM API key not configured")
  /\ exists p, get_llm_provider (env_answering prose) = Ok p.
Proof.
  split; [|split].
  - destruct (health_report (env_answering prose) "gpt-4")
      as (_ & _ & _ & H & _).
    apply (H GroqProvider). reflexivity.
  - destruct (health_report env_unsupported "gpt-4") as (_ & _ & H & _).
    apply H. intros []; vm_compute; discriminate.
  - destruct (health_report (env_answering prose) "gpt-4")
      as (_ & _ & _ & _ & H).
    apply H; reflexivity.
Defined.

(** ** The request text *)

Section StripFacts.

Import PyStr.

Lemma lstrip_empty s : lstrip s = EmptyString <-> all_whitespace s = true.
Proof.
  induction s as [|c s IH]; simpl; [tauto|].
  destruct (isspace c); simpl; [exact IH|].
  split; discriminate.
Qed.

Lemma rstrip_empty s : rstrip s = EmptyString <-> all_whitespace s = true.
Proof.
  induction s as [|c s IH]; simpl; [tauto|].
  destruct (rstrip s) eqn:E.
  - destruct (isspace c); simpl; [tauto|]. split; discriminate.
  - split; [discriminate|]. intros H. apply andb_true_iff in H as [_ H].
    apply IH in H. discriminate.
Qed.

Lemma lstrip_head s :
  lstrip s = EmptyString
  \/ exists c t, lstrip s = String c t /\ isspace c = false.
Proof.
  induction s as [|c s IH]; simpl; auto.
  destruct (isspace c) eqn:E; eauto.
Qed.

Lemma strip_empty s : strip s = EmptyString <-> all_whitespace s = true.
Proof.
  unfold strip. rewrite rstrip_empty.
  destruct (lstrip_head s) as [H|(c & t & H & Hc)].
  - rewrite H. simpl. rewrite <- lstrip_empty. tauto.
  - rewrite H. simpl. rewrite Hc. simpl.
    rewrite <- lstrip_empty, H. split; discriminate.
Qed.

Lemma rstrip_cons c s :
  rstrip (String c s)
  = match rstrip s with
    | EmptyString => if isspace c then EmptyString else String c EmptyString
    | String c' r => String c (String c' r)
    end.
Proof. reflexivity. Qed.

Lemma rstrip_idempotent s : rstrip (rstrip s) = rstrip s.
Proof.
  induction s as [|c s IH]; [reflexivity|].
  rewrite rstrip_cons.
  destruct (rstrip s) as [|c' r] eqn:E.
  - destruct (isspace c) eqn:Ec; [reflexivity|].
    rewrite rstrip_cons. simpl. now rewrite Ec.
  - rewrite rstrip_cons, IH. reflexivity.
Qed.

Lemma rstrip_keeps_head c t :
  isspace c = false -> exists r, rstrip (String c t) = String c r.
Proof.
  intros Hc. simpl. destruct (rstrip t); rewrite ?Hc; eauto.
Qed.

Lemma lstrip_strip s : lstrip (strip s) = strip s.
Proof.
  unfold strip. destruct (lstrip_head s) as [H|(c & t & H & Hc)].
  - now rewrite H.
  - rewrite H. destruct (rstrip_keeps_head c t Hc) as [r Hr].
    rewrite Hr. simpl. now rewrite Hc.
Qed.

Lemma strip_idempotent s : strip (strip s) = strip s.
Proof.
  unfold strip at 1. rewrite lstrip_strip. unfold strip.
  apply rstrip_idempotent.
Qed.

End StripFacts.

(** X10: the validator of [user_request] rejects a text exactly when all
    its characters are white space (the empty text included); what it
    accepts it returns stripped, which is a non-empty text without white
    space at either end, and which the validator returns as it is when
    it is given it again. *)
Theorem validate_user_request_strips :
  forall (v : string),
    ((exists errors, validate_user_request v = Invalid errors)
     <-> all_whitespace v = true)
    /\ (forall r,
          validate_user_request v = Valid r ->
          r = PyStr.strip v
          /\ r <> EmptyString
          /\ PyStr.lstrip r = r /\ PyStr.rstrip r = r
          /\ validate_user_request r = Valid r).
Proof.
  intros v. unfold validate_user_request.
  destruct (String.eqb_spec v EmptyString) as [->|Hv]; cbn [orb].
  - split.
    + split; [reflexivity|]. intros _. eexists. reflexivity.
    + intros r H. discriminate H.
  - destruct (String.eqb_spec (PyStr.strip v) EmptyString) as [Hs|Hs].
    + split.
      * split; [intros _; now apply strip_empty|].
        intros _. eexists. reflexivity.
      * intros r H. discriminate H.
    + split.
      * split; [intros [es H]; discriminate H|].
        intros H. now apply strip_empty in H.
      * intros r [= <-]. split; [reflexivity|]. split; [exact Hs|].
        split; [apply lstrip_strip|].
        split; [unfold PyStr.strip at 2; apply rstrip_idempotent|].
        rewrite strip_idempotent.
        apply String.eqb_neq in Hs. now rewrite Hs.
Qed.

Lemma validate_user_request_witness :
  "Add CLIENT" = PyStr.strip "  Add CLIENT  "
  /\ "Add CLIENT" <> EmptyString
  /\ PyStr.lstrip "Add CLIENT" = "Add CLIENT"
  /\ PyStr.rstrip "Add CLIENT" = "Add CLIENT"
  /\ validate_user_request "Add CLIENT" = Valid "Add CLIENT".
Proof.
  apply (proj2 (validate_user_request_strips "  Add CLIENT  ")).
  reflexivity.
Defined.

(** ** YAML documents: sections and metadata *)

Section SectionFacts.

Variable parsed_yaml : ydict.

Let step (sections : list (string * yaml)) (key : string) :=
  match YDict.get key parsed_yaml with
  | Some v => Dict.set key v sections
  | None => sections
  end.

Lemma length_set_absent {A : Type} k (v : A) (d : list (string * A)) :
  Dict.get k d = None -> length (Dict.set k v d) = S (length d).
Proof.
  induction d as [|[k' v'] d IH]; simpl; auto.
  destruct (String.eqb k k'); [discriminate|].
  intros H. simpl. now rewrite IH.
Qed.

Lemma collect_get keys :
  forall acc k,
    Dict.get k (fold_left step keys acc)
    = if existsb (String.eqb k) keys && YDict.mem k parsed_yaml
      then YDict.get k parsed_yaml
      else Dict.get k acc.
Proof.
  induction keys as [|key keys IH]; intros acc k; simpl; auto.
  rewrite IH. unfold step. unfold YDict.mem.
  destruct (existsb (String.eqb k) keys) eqn:E.
  - rewrite orb_true_r. simpl.
    destruct (YDict.get k parsed_yaml) eqn:Ek; simpl; auto.
    destruct (String.eqb_spec k key) as [->|Hne].
    + now rewrite Ek.
    + destruct (YDict.get key parsed_yaml); auto. now apply get_set_other.
  - rewrite orb_false_r. simpl.
    destruct (String.eqb_spec k key) as [->|Hne]; simpl.
    + destruct (YDict.get key parsed_yaml); simpl; auto. apply get_set_same.
    + destruct (YDict.get key parsed_yaml); auto. now apply get_set_other.
Qed.

Lemma collect_length keys :
  NoDup keys ->
  forall acc,
    (forall key, In key keys -> Dict.get key acc = None) ->
    length (fold_left step keys acc)
    = (length acc
       + length (filter (fun key => YDict.mem key parsed_yaml) keys))%nat.
Proof.
  induction 1 as [|key keys Hnot Hnd IH]; intros acc Hacc; simpl; [lia|].
  rewrite IH.
  - unfold step, YDict.mem.
    destruct (YDict.get key parsed_yaml); simpl; [|lia].
    rewrite length_set_absent by (apply Hacc; now left). lia.
  - intros key' Hin. unfold step.
    destruct (YDict.get key parsed_yaml).
    + rewrite get_set_other.
      * apply Hacc. now right.
      * intros ->. contradiction.
    + apply Hacc. now right.
Qed.

End SectionFacts.

Lemma section_keys_nodup : NoDup section_keys.
Proof.
  unfold section_keys.
  repeat (constructor; [simpl; intuition discriminate|]). constructor.
Qed.

Lemma count_sections_facts parsed_yaml :
  (forall k, Dict.get k (snd (count_sections parsed_yaml))
             = if existsb (String.eqb k) section_keys
               then YDict.get k parsed_yaml else None)
  /\ fst (count_sections parsed_yaml)
     = length (snd (count_sections parsed_yaml)).
Proof.
  unfold count_sections. cbn [fst snd]. split; [|reflexivity].
  intros k. rewrite (collect_get parsed_yaml section_keys [] k).
  destruct (existsb (String.eqb k) section_keys); simpl; auto.
  unfold YDict.mem. now destruct (YDict.get k parsed_yaml).
Qed.

(** X13: [count_sections] returns, under each of the thirteen section
    names that the document has, the value of the document, and nothing
    under any other key (so not the metadata); the count is the number
    of section names that the document has, thirteen at most. *)
Theorem count_sections_restricts :
  forall (parsed_yaml : ydict),
    let section_count := fst (count_sections parsed_yaml) in
    let sections := snd (count_sections parsed_yaml) in
    (forall k, Dict.get k sections
               = if existsb (String.eqb k) section_keys
                 then YDict.get k parsed_yaml else None)
    /\ section_count = length sections
    /\ section_count
       = length (filter (fun key => YDict.mem key parsed_yaml) section_keys)
    /\ (section_count <= 13)%nat
    /\ (forall k, In k required_fields -> Dict.get k sections = None).
Proof.
  intros parsed n sections. subst n sections. unfold count_sections.
  cbn [fst snd].
  assert (Hget : forall k,
             Dict.get k
               (fold_left (fun sections key =>
                             match YDict.get key parsed with
                             | Some v => Dict.set key v sections
                             | None => sections
                             end) section_keys [])
             = if existsb (String.eqb k) section_keys
               then YDict.get k parsed else None).
  { intros k. rewrite (collect_get parsed section_keys [] k).
    destruct (existsb (String.eqb k) section_keys); simpl; auto.
    unfold YDict.mem. now destruct (YDict.get k parsed). }
  assert (Hlen := collect_length parsed section_keys section_keys_nodup []
                    (fun _ _ => eq_refl)).
  cbv zeta in Hlen. simpl length at 2 in Hlen.
  split; [exact Hget|]. split; [reflexivity|]. split; [exact Hlen|]. split.
  - rewrite Hlen. simpl Nat.add.
    pose proof (filter_length_le (fun key => YDict.mem key parsed) section_keys)
      as Hle.
    exact Hle.
  - intros k Hk. rewrite Hget. unfold required_fields in Hk. simpl in Hk.
    destruct Hk as [<-|[<-|[<-|[]]]]; reflexivity.
Qed.

Lemma count_sections_witness :
  Dict.get "name"
    (snd (count_sections [(YStr "name", YStr "legal"); (YStr "entities", YList [])]))
  = None.
Proof.
  apply (count_sections_restricts
           [(YStr "name", YStr "legal"); (YStr "entities", YList [])]).
  simpl. tauto.
Defined.

(** X14: [extract_metadata] returns exactly when the document has
    [name], [description] and [version], and then the texts of their
    three values under those keys; otherwise it raises a [KeyError]
    whose message lists the fields that the document does not have, in
    that order. *)
Theorem extract_metadata_outcomes :
  forall (py_str : yaml -> string) (parsed_yaml : ydict),
    (forall metadata,
        extract_metadata py_str parsed_yaml = Yaml.Ok metadata
        <-> exists n d v,
              YDict.get "name" parsed_yaml = Some n
              /\ YDict.get "description" parsed_yaml = Some d
              /\ YDict.get "version" parsed_yaml = Some v
              /\ metadata = [("name", py_str n); ("description", py_str d);
                             ("version", py_str v)])
    /\ (forall e,
          extract_metadata py_str parsed_yaml = Yaml.Raise e ->
          let missing :=
            filter (fun field => negb (YDict.mem field parsed_yaml))
                   required_fields in
          missing <> []
          /\ e = Yaml.KeyError ("Missing required metadata fields: "
                                  ++ join ", " missing)).
Proof.
  intros py_str parsed. unfold extract_metadata, subscript, required_fields.
  unfold YDict.mem. cbn [filter].
  destruct (YDict.get "name" parsed) as [n|] eqn:En;
    destruct (YDict.get "description" parsed) as [d|] eqn:Ed;
    destruct (YDict.get "version" parsed) as [v|] eqn:Ev;
    cbn [negb];
    (split;
     [ intros metadata; split;
       [ intros H; try discriminate H; injection H as <-;
         exists n, d, v; auto
       | intros (n' & d' & v' & Hn & Hd & Hv & ->);
         try discriminate; congruence ]
     | intros e H; try discriminate H; injection H as <-;
       (split; [discriminate | reflexivity]) ]).
Qed.

Lemma extract_metadata_witness :
  (filter (fun field => negb (YDict.mem field [(YStr "name", YStr "legal")]))
          required_fields <> []
   /\ Yaml.KeyError "Missing required metadata fields: description, version"
      = Yaml.KeyError
          ("Missing required metadata fields: "
             ++ join ", "
                  (filter (fun field =>
                             negb (YDict.mem field [(YStr "name", YStr "legal")]))
                          required_fields)))
  /\ exists n d v,
       YDict.get "name" metadata_document = Some n
       /\ YDict.get "description" metadata_document = Some d
       /\ YDict.get "version" metadata_document = Some v
       /\ [("name", "legal"); ("description", "Legal domain"); ("version", "1")]
          = [("name", yaml_text n); ("description", yaml_text d);
             ("version", yaml_text v)].
Proof.
  split.
  - apply (proj2 (extract_metadata_outcomes yaml_text
                    [(YStr "name", YStr "legal")])).
    reflexivity.
  - apply (proj1 (extract_metadata_outcomes yaml_text metadata_document)).
    reflexivity.
Defined.

(** ** YAML documents: keys as texts *)

Section YamlInduction.

Variable P : yaml -> Prop.
Hypothesis P_null : P YNull.
Hypothesis P_bool : forall b, P (YBool b).
Hypothesis P_int : forall z, P (YInt z).
Hypothesis P_float : forall f, P (YFloat f).
Hypothesis P_str : forall s, P (YStr s).
Hypothesis P_other : forall text, P (YOther text).
Hypothesis P_list : forall l, Forall P l -> P (YList l).
Hypothesis P_dict : forall d, Forall (fun kv => P (snd kv)) d -> P (YDict d).
Hypothesis P_tuple : forall items, Forall P items -> P (YTuple items).

Lemma yaml_values_ind : forall data, P data.
Proof.
  fix IH 1. intros [| b | z | f | s | text | l | d | items].
  - apply P_null.
  - apply P_bool.
  - apply P_int.
  - apply P_float.
  - apply P_str.
  - apply P_other.
  - apply P_list. induction l as [|x l IHl]; constructor.
    + apply IH.
    + apply IHl.
  - apply P_dict. induction d as [|[k v] d IHd]; constructor.
    + apply IH.
    + apply IHd.
  - apply P_tuple. induction items as [|x items IHi]; constructor.
    + apply IH.
    + apply IHi.
Qed.

End YamlInduction.

Lemma set_values {A : Type} (Q : A -> Prop) k v (d : list (string * A)) :
  Forall (fun kv => Q (snd kv)) d -> Q v ->
  Forall (fun kv => Q (snd kv)) (Dict.set k v d).
Proof.
  intros Hd Hv. induction Hd as [|[k' v'] d Hx Hd IH]; simpl.
  - constructor; auto.
  - destruct (String.eqb k k'); constructor; auto.
Qed.

Lemma set_length {A : Type} k (v : A) (d : list (string * A)) :
  (length (Dict.set k v d) <= S (length d))%nat.
Proof.
  induction d as [|[k' v'] d IH]; simpl; [lia|].
  destruct (String.eqb k k'); simpl; lia.
Qed.

Lemma get_none_keys {A : Type} k (d : list (string * A)) :
  Dict.get k d = None <-> ~ In k (map fst d).
Proof.
  induction d as [|[k' v'] d IH]; simpl; [tauto|].
  destruct (String.eqb_spec k k') as [->|Hne].
  - split; [discriminate | intros H; exfalso; apply H; now left].
  - rewrite IH. split.
    + intros H [E|E]; [now apply Hne | now apply H].
    + intros H E. apply H. now right.
Qed.

Lemma set_absent {A : Type} k (v : A) (d : list (string * A)) :
  Dict.get k d = None -> Dict.set k v d = (d ++ [(k, v)])%list.
Proof.
  induction d as [|[k' v'] d IH]; simpl; auto.
  destruct (String.eqb k k'); [discriminate|].
  intros H. now rewrite IH.
Qed.

Lemma set_keys_nodup {A : Type} k (v : A) (d : list (string * A)) :
  NoDup (map fst d) -> NoDup (map fst (Dict.set k v d)).
Proof.
  induction d as [|[k' v'] d IH]; simpl; intros Hnd.
  - constructor; [tauto | constructor].
  - inversion Hnd as [|? ? Hnot Hnd']; subst.
    destruct (String.eqb_spec k k') as [->|Hne]; simpl.
    + now constructor.
    + constructor; [|auto].
      destruct (Dict.get k d) eqn:E.
      * assert (Hk : map fst (Dict.set k v d) = map fst d).
        { clear - E. induction d as [|[k1 v1] d IHd]; simpl in *; [discriminate|].
          destruct (String.eqb_spec k k1) as [->|Hne]; simpl; [reflexivity|].
          now rewrite IHd. }
        now rewrite Hk.
      * rewrite (set_absent k v d E), map_app, in_app_iff. simpl.
        intros [H|[H|[]]]; [contradiction | now apply Hne].
Qed.

Section ConvertFacts.

Variable py_str : yaml -> string.

Let convert := convert_numeric_keys_to_strings py_str.

Let write (acc : list (string * yaml)) (kv : yaml * yaml) :=
  Dict.set (py_str (fst kv)) (convert (snd kv)) acc.

Lemma written_values (Q : yaml -> Prop) d :
  forall acc,
    Forall (fun kv => Q (snd kv)) acc ->
    Forall (fun kv => Q (convert (snd kv))) d ->
    Forall (fun kv => Q (snd kv)) (fold_left write d acc).
Proof.
  induction d as [|kv d IH]; intros acc Hacc Hd; simpl; auto.
  inversion Hd; subst. apply IH; auto. now apply set_values.
Qed.

Lemma written_length d :
  forall acc,
    (length (fold_left write d acc) <= length acc + length d)%nat.
Proof.
  induction d as [|kv d IH]; intros acc; simpl; [lia|].
  specialize (IH (write acc kv)).
  pose proof (set_length (py_str (fst kv)) (convert (snd kv)) acc).
  unfold write in *. lia.
Qed.

Lemma written_nodup d :
  forall acc,
    NoDup (map fst acc) -> NoDup (map fst (fold_left write d acc)).
Proof.
  induction d as [|kv d IH]; intros acc Hacc; simpl; auto.
  apply IH. now apply set_keys_nodup.
Qed.

Lemma convert_dict d :
  convert (YDict d)
  = YDict (map (fun kv => (YStr (fst kv), snd kv)) (fold_left write d [])).
Proof. reflexivity. Qed.

Lemma convert_list l : convert (YList l) = YList (map convert l).
Proof. reflexivity. Qed.

Lemma convert_tuple items : convert (YTuple items) = YTuple items.
Proof. reflexivity. Qed.

Lemma str_keys_convert data :
  tuple_free data = true -> str_keys (convert data) = true.
Proof.
  induction data as [| b | z | f | s | text | l IH | d IH | items IH]
    using yaml_values_ind; try reflexivity.
  - intros Hfree. cbn [tuple_free] in Hfree.
    rewrite forallb_forall in Hfree.
    rewrite convert_list. simpl. apply forallb_forall.
    intros x Hx. apply in_map_iff in Hx as (y & <- & Hy).
    rewrite Forall_forall in IH. apply IH; auto.
  - intros Hfree. cbn [tuple_free] in Hfree.
    rewrite forallb_forall in Hfree.
    rewrite convert_dict. simpl. apply forallb_forall.
    intros kv Hkv. apply in_map_iff in Hkv as ([k v] & <- & Hy). simpl.
    assert (Hd : Forall (fun kv => str_keys (convert (snd kv)) = true) d).
    { rewrite Forall_forall in IH. apply Forall_forall.
      intros kv Hin. apply IH; auto. }
    pose proof (written_values (fun v => str_keys v = true) d [] (Forall_nil _) Hd)
      as Hall.
    rewrite Forall_forall in Hall. exact (Hall _ Hy).
  - discriminate.
Qed.

Hypothesis str_of_str : forall s, py_str (YStr s) = s.

Lemma rewrite_entries r :
  forall acc,
    NoDup (map fst (acc ++ r)) ->
    Forall (fun kv => convert (snd kv) = snd kv) r ->
    fold_left write (map (fun kv => (YStr (fst kv), snd kv)) r) acc
    = (acc ++ r)%list.
Proof.
  induction r as [|[k v] r IH]; intros acc Hnd Hr; simpl.
  - now rewrite app_nil_r.
  - inversion Hr as [|? ? Hv Hr']; subst. simpl in Hv.
    unfold write at 2. simpl. rewrite str_of_str, Hv.
    assert (Hnone : Dict.get k acc = None).
    { apply get_none_keys. intros Hin.
      rewrite map_app in Hnd. simpl in Hnd.
      apply NoDup_remove_2 in Hnd. apply Hnd, in_app_iff. now left. }
    rewrite (set_absent k v acc Hnone).
    rewrite IH; auto.
    + now rewrite <- app_assoc.
    + now rewrite <- app_assoc.
Qed.

Lemma convert_settled data : convert (convert data) = convert data.
Proof.
  induction data as [| b | z | f | s | text | l IH | d IH | items IH]
    using yaml_values_ind; try reflexivity.
  - rewrite !convert_list. f_equal. rewrite map_map.
    apply map_ext_in. intros x Hx. rewrite Forall_forall in IH. now apply IH.
  - rewrite convert_dict. rewrite convert_dict. f_equal. f_equal.
    apply (rewrite_entries (fold_left write d []) []).
    + simpl. apply written_nodup. constructor.
    + apply (written_values (fun v => convert v = v) d [] (Forall_nil _) IH).
Qed.

End ConvertFacts.

(** X15: on a value that holds no tuple, every key of every mapping in
    the result of [convert_numeric_keys_to_strings], at any depth, is a
    text. A tuple is returned as it is, with the keys that it holds: the
    items of an ordered mapping keep a number that is a key below them.
    A list keeps its length and a mapping gets no more items than it
    had. *)
Theorem convert_numeric_keys_to_strings_str_keys :
  forall (py_str : yaml -> string) (data : yaml),
    (tuple_free data = true ->
     str_keys (convert_numeric_keys_to_strings py_str data) = true)
    /\ (forall items,
           convert_numeric_keys_to_strings py_str (YTuple items) = YTuple items)
    /\ str_keys (convert_numeric_keys_to_strings py_str omap_document) = false
    /\ (forall l, data = YList l ->
                  exists l', convert_numeric_keys_to_strings py_str data = YList l'
                             /\ length l' = length l)
    /\ (forall d, data = YDict d ->
                  exists d', convert_numeric_keys_to_strings py_str data = YDict d'
                             /\ (length d' <= length d)%nat).
Proof.
  intros py_str data. split; [apply str_keys_convert|].
  split; [reflexivity|]. split; [reflexivity|]. split.
  - intros l ->. eexists. split; [apply convert_list|]. apply length_map.
  - intros d ->. eexists. split; [apply convert_dict|].
    rewrite length_map. apply (written_length py_str d []).
Qed.

Lemma convert_numeric_keys_witness :
  tuple_free numbered_document = true
  /\ str_keys (convert_numeric_keys_to_strings yaml_text numbered_document)
     = true.
Proof.
  split; [reflexivity|].
  apply (proj1 (convert_numeric_keys_to_strings_str_keys
                  yaml_text numbered_document)).
  reflexivity.
Defined.

(** X16: where the text of a text is the text itself, as Python's [str]
    has it, [convert_numeric_keys_to_strings] changes nothing in a value
    that it returned. *)
Theorem convert_numeric_keys_to_strings_idempotent :
  forall (py_str : yaml -> string) (data : yaml),
    (forall s, py_str (YStr s) = s) ->
    convert_numeric_keys_to_strings py_str
      (convert_numeric_keys_to_strings py_str data)
    = convert_numeric_keys_to_strings py_str data.
Proof.
  intros py_str data H. now apply convert_settled.
Qed.

Lemma convert_numeric_keys_idempotent_witness :
  (forall s, yaml_text (YStr s) = s)
  /\ convert_numeric_keys_to_strings yaml_text
       (convert_numeric_keys_to_strings yaml_text numbered_document)
     = convert_numeric_keys_to_strings yaml_text numbered_document.
Proof.
  split; [reflexivity|].
  apply (convert_numeric_keys_to_strings_idempotent yaml_text numbered_document).
  reflexivity.
Defined.

(** ** YAML documents: warnings *)

Lemma append_inv_tail (t : string) :
  forall s s' : string, (s ++ t = s' ++ t)%string -> s = s'.
Proof.
  assert (Hlen : forall (c : ascii) (u : string),
             t <> (String c (u ++ t))%string).
  { intros c u E. apply (f_equal String.length) in E.
    simpl in E. rewrite length_app in E. lia. }
  induction s as [|c s IH]; intros [|c' s'] E; simpl in E.
  - reflexivity.
  - now apply Hlen in E.
  - symmetry in E. now apply Hlen in E.
  - injection E as -> E. f_equal. now apply IH.
Qed.

Lemma empty_section_warning_injective s s' :
  empty_section_warning s = empty_section_warning s' -> s = s'.
Proof.
  unfold empty_section_warning. intros E.
  simpl in E. repeat (injection E as E).
  now apply append_inv_tail in E.
Qed.

Lemma warnings_collected parsed_yaml sections :
  forall acc,
    fold_left (fun warnings section =>
                 match YDict.get section parsed_yaml with
                 | Some (YList []) =>
                     (warnings ++ [empty_section_warning section])%list
                 | _ => warnings
                 end) sections acc
    = (acc ++ map empty_section_warning
                  (filter (empty_list_at parsed_yaml) sections))%list.
Proof.
  induction sections as [|x sections IH]; intros acc; simpl.
  - now rewrite app_nil_r.
  - rewrite IH. unfold empty_list_at at 2.
    destruct (YDict.get x parsed_yaml) as [[| | | | | |[|]| |]|]; simpl;
      try reflexivity.
    now rewrite <- app_assoc.
Qed.

(** X17: [check_for_warnings] warns, in this order, about each of its
    six list sections that the document has as an empty list, and then
    about [entity_aliases] where it is an empty mapping; about nothing
    else, so seven warnings at most, each naming its section. *)
Theorem check_for_warnings_sections :
  forall (parsed_yaml : ydict),
    check_for_warnings parsed_yaml
    = map empty_section_warning
        (filter (empty_list_at parsed_yaml) list_sections
           ++ (if empty_dict_at parsed_yaml "entity_aliases"
               then ["entity_aliases"] else []))%list
    /\ (length (check_for_warnings parsed_yaml) <= 7)%nat
    /\ (forall section,
           In (empty_section_warning section) (check_for_warnings parsed_yaml)
           <-> (In section list_sections
                /\ YDict.get section parsed_yaml = Some (YList []))
               \/ (section = "entity_aliases"
                   /\ YDict.get section parsed_yaml = Some (YDict []))).
Proof.
  intros parsed.
  assert (Hform : check_for_warnings parsed
                  = map empty_section_warning
                      (filter (empty_list_at parsed) list_sections
                         ++ (if empty_dict_at parsed "entity_aliases"
                             then ["entity_aliases"] else []))%list).
  { unfold check_for_warnings. cbv zeta. rewrite warnings_collected.
    rewrite map_app. unfold empty_dict_at. simpl app at 1.
    destruct (YDict.get "entity_aliases" parsed) as [[| | | | | | |[|]|]|];
      simpl map at 2; rewrite ?app_nil_r; reflexivity. }
  split; [exact Hform|]. split.
  - rewrite Hform, length_map, List.length_app.
    pose proof (filter_length_le (empty_list_at parsed) list_sections) as Hle.
    assert (Hsix : length list_sections = 6%nat) by reflexivity.
    destruct (empty_dict_at parsed "entity_aliases"); simpl length at 2; lia.
  - intros section. rewrite Hform, in_map_iff. split.
    + intros (x & E & Hin). apply empty_section_warning_injective in E.
      subst x. apply in_app_iff in Hin as [Hin|Hin].
      * left. apply filter_In in Hin as [Hin He]. split; [exact Hin|].
        unfold empty_list_at in He.
        destruct (YDict.get section parsed) as [[| | | | | |[|]| |]|];
          try discriminate; reflexivity.
      * right. unfold empty_dict_at in Hin.
        destruct (YDict.get "entity_aliases" parsed)
          as [[| | | | | | |[|]|]|] eqn:E; simpl in Hin;
          try contradiction.
        destruct Hin as [<-|[]]. now split.
    + intros [[Hin He]|[Hs He]]; exists section; (split; [reflexivity|]);
        apply in_app_iff.
      * left. apply filter_In. split; [exact Hin|].
        unfold empty_list_at. now rewrite He.
      * right. subst section. unfold empty_dict_at. rewrite He. now left.
Qed.

Lemma check_for_warnings_witness :
  In (empty_section_warning "key_terms") (check_for_warnings metadata_document).
Proof.
  apply (proj2 (proj2 (check_for_warnings_sections metadata_document))).
  left. split; [simpl; tauto | reflexivity].
Defined.

(** ** The routes on YAML files *)

Lemma parse_root (safe_load : string -> Yaml.result yaml) yaml_content v :
  safe_load yaml_content = Yaml.Ok v ->
  v <> YNull -> (forall d, v <> YDict d) ->
  parse_yaml_content safe_load yaml_content
  = Yaml.Raise (Yaml.ValueError "YAML root must be a dictionary").
Proof.
  intros Hload Hnull Hdict. unfold parse_yaml_content. rewrite Hload.
  destruct v; try reflexivity.
  - now contradiction Hnull.
  - now contradiction (Hdict d).
Qed.

Lemma parse_empty (safe_load : string -> Yaml.result yaml) yaml_content :
  safe_load yaml_content = Yaml.Ok YNull ->
  parse_yaml_content safe_load yaml_content = Yaml.Ok [].
Proof. intros Hload. unfold parse_yaml_content. now rewrite Hload. Qed.

(** X18: [upload_yaml] refuses a file whose name does not end in
    [.yaml] or [.yml] with status 400, whatever it holds; an empty
    document is refused with status 400 for its three missing metadata
    fields, the detail being the [repr] of the message; and every
    refusal has status 400 or 500. *)
Theorem upload_yaml_rejections :
  forall (safe_load : string -> Yaml.result yaml) (py_str : yaml -> string)
         (py_repr : string -> string) (utcnow : string)
         (insert_one : Document.t -> option string)
         (filename : string) (file_read : string + string),
    let upload :=
      upload_yaml safe_load py_str py_repr utcnow insert_one filename file_read in
    (yaml_extension filename = false ->
     upload = HTTPError 400 "File must be a YAML file (.yaml or .yml)")
    /\ (forall yaml_content,
           yaml_extension filename = true ->
           file_read = inl yaml_content ->
           safe_load yaml_content = Yaml.Ok YNull ->
           upload
           = HTTPError 400
               (py_repr "Missing required metadata fields: name, description, version"))
    /\ (forall status_code detail,
           upload = HTTPError status_code detail ->
           status_code = 400 \/ status_code = 500).
Proof.
  intros safe_load py_str py_repr utcnow insert_one filename file_read upload.
  subst upload. unfold upload_yaml. split; [|split].
  - intros ->. reflexivity.
  - intros yaml_content -> -> Hload. simpl negb. cbv iota.
    now rewrite (parse_empty safe_load yaml_content Hload).
  - intros status_code detail.
    destruct (yaml_extension filename); simpl negb; cbv iota;
      [|intros H; injection H as <- _; now left].
    destruct file_read as [yaml_content|e];
      [|intros H; injection H as <- _; now left].
    destruct (parse_yaml_content safe_load yaml_content) as [parsed|[m|m|m]];
      try (intros H; injection H as <- _; auto; fail).
    destruct (extract_metadata py_str parsed) as [metadata|[m|m|m]];
      try (intros H; injection H as <- _; auto; fail).
    cbv zeta.
    destruct (insert_one _); [discriminate|].
    intros H; injection H as <- _; now right.
Qed.

Lemma upload_yaml_rejections_witness :
  upload_yaml load_sample yaml_text quoted "2024-01-01" insert_first
              "legal.yaml" (inl "# nothing")
  = HTTPError 400
      (quoted "Missing required metadata fields: name, description, version").
Proof.
  apply (proj1 (proj2 (upload_yaml_rejections
                         load_sample yaml_text quoted "2024-01-01" insert_first
                         "legal.yaml" (inl "# nothing")))
               "# nothing");
    reflexivity.
Defined.

Section StoredFacts.

Variable py_str : yaml -> string.
Hypothesis str_of_str : forall s, py_str (YStr s) = s.

Let convert := convert_numeric_keys_to_strings py_str.

Lemma written_entries r :
  forall acc,
    NoDup (map fst (acc ++ r)) ->
    fold_left (fun acc kv => Dict.set (py_str (fst kv)) (convert (snd kv)) acc)
              (map (fun kv => (YStr (fst kv), snd kv)) r) acc
    = (acc ++ map (fun kv => (fst kv, convert (snd kv))) r)%list.
Proof.
  induction r as [|[k v] r IH]; intros acc Hnd; simpl.
  - now rewrite app_nil_r.
  - rewrite str_of_str.
    assert (Hnone : Dict.get k acc = None).
    { apply get_none_keys. intros Hin.
      rewrite map_app in Hnd. simpl in Hnd.
      apply NoDup_remove_2 in Hnd. apply Hnd, in_app_iff. now left. }
    rewrite (set_absent k (convert v) acc Hnone).
    rewrite IH.
    + now rewrite <- app_assoc.
    + rewrite <- app_assoc, !map_app. rewrite map_app in Hnd. exact Hnd.
Qed.

Lemma convert_as_yaml r :
  NoDup (map fst r) ->
  convert (as_yaml r) = as_yaml (map (fun kv => (fst kv, convert (snd kv))) r).
Proof.
  intros Hnd. unfold as_yaml, convert. simpl. do 2 f_equal.
  apply (written_entries r []). exact Hnd.
Qed.

Lemma get_converted k (r : list (string * yaml)) :
  Dict.get k (map (fun kv => (fst kv, convert (snd kv))) r)
  = option_map convert (Dict.get k r).
Proof.
  induction r as [|[k' v] r IH]; simpl; auto.
  now destruct (String.eqb k k').
Qed.

End StoredFacts.

Lemma sections_nodup parsed_yaml :
  NoDup (map fst (snd (count_sections parsed_yaml))).
Proof.
  unfold count_sections. cbn [snd].
  generalize (NoDup_nil string).
  change (@nil string) with (map fst (@nil (string * yaml))).
  generalize (@nil (string * yaml)) as acc.
  induction section_keys as [|key keys IH]; intros acc Hacc; simpl; auto.
  apply IH. destruct (YDict.get key parsed_yaml); auto.
  now apply set_keys_nodup.
Qed.

Lemma metadata_keys py_str parsed_yaml metadata :
  extract_metadata py_str parsed_yaml = Yaml.Ok metadata ->
  map fst metadata = required_fields.
Proof.
  unfold extract_metadata, subscript, YDict.mem. cbn [filter required_fields].
  destruct (YDict.get "name" parsed_yaml);
    destruct (YDict.get "description" parsed_yaml);
    destruct (YDict.get "version" parsed_yaml); cbn [negb];
    intros H; try discriminate H; injection H as <-; reflexivity.
Qed.

Lemma ydict_get_in k (d : ydict) v :
  YDict.get k d = Some v -> In (YStr k, v) d.
Proof.
  induction d as [|[key v'] d IH]; simpl; [discriminate|].
  destruct key; try (intros H; right; now apply IH).
  destruct (String.eqb_spec k s) as [->|Hne].
  - intros [= ->]. now left.
  - intros H. right. now apply IH.
Qed.

Lemma sections_values (Q : yaml -> Prop) parsed_yaml :
  Forall (fun kv => Q (snd kv)) parsed_yaml ->
  Forall (fun kv => Q (snd kv)) (snd (count_sections parsed_yaml)).
Proof.
  intros Hq. unfold count_sections. cbn [snd].
  generalize (Forall_nil (fun kv : string * yaml => Q (snd kv))).
  generalize (@nil (string * yaml)) as acc.
  induction section_keys as [|key keys IH]; intros acc Hacc; simpl; auto.
  apply IH. destruct (YDict.get key parsed_yaml) as [v|] eqn:E; auto.
  apply set_values; auto.
  apply ydict_get_in in E. rewrite Forall_forall in Hq.
  exact (Hq _ E).
Qed.

Lemma sections_tuple_free parsed_yaml :
  tuple_free (YDict parsed_yaml) = true ->
  tuple_free (as_yaml (snd (count_sections parsed_yaml))) = true.
Proof.
  intros Hfree. cbn [tuple_free] in Hfree. rewrite forallb_forall in Hfree.
  unfold as_yaml. cbn [tuple_free]. apply forallb_forall.
  intros kv Hin. apply in_map_iff in Hin as (kv' & <- & Hin). simpl.
  assert (Hall : Forall (fun kv => tuple_free (snd kv) = true)
                        (snd (count_sections parsed_yaml))).
  { apply (sections_values (fun v => tuple_free v = true)).
    apply Forall_forall. exact Hfree. }
  rewrite Forall_forall in Hall. exact (Hall _ Hin).
Qed.

(** X19: where the text of a text is the text itself, an upload that
    [upload_yaml] accepts has stored one document, under the identifier
    it answers with: the text of the file as it was read, the metadata
    of the answer under [name], [description] and [version], the parsed
    document as a mapping whose own keys are texts, and as sections the
    converted values of the section names that the parsed document has,
    as many as the count of the answer. Where the parsed document holds
    no tuple, the keys of what is stored are texts at every depth. *)
Theorem upload_yaml_stores :
  forall (safe_load : string -> Yaml.result yaml) (py_str : yaml -> string)
         (py_repr : string -> string) (utcnow : string)
         (insert_one : Document.t -> option string)
         (filename : string) (file_read : string + string) (body : Upload.t),
    (forall s, py_str (YStr s) = s) ->
    upload_yaml safe_load py_str py_repr utcnow insert_one filename file_read
    = Reply body ->
    exists yaml_content parsed_yaml document top stored,
      file_read = inl yaml_content
      /\ parse_yaml_content safe_load yaml_content = Yaml.Ok parsed_yaml
      /\ insert_one document = Some (Upload.document_id body)
      /\ Document.raw_yaml document = yaml_content
      /\ Document.metadata document = Upload.metadata body
      /\ map fst (Upload.metadata body) = required_fields
      /\ Document.parsed_yaml document = as_yaml top
      /\ Document.sections document = as_yaml stored
      /\ (forall k, Dict.get k stored
                    = if existsb (String.eqb k) section_keys
                      then option_map (convert_numeric_keys_to_strings py_str)
                                      (YDict.get k parsed_yaml)
                      else None)
      /\ Upload.sections_count body = length stored
      /\ Document.sections_count document = length stored
      /\ (tuple_free (YDict parsed_yaml) = true ->
          str_keys (Document.parsed_yaml document) = true
          /\ str_keys (Document.sections document) = true).
Proof.
  intros safe_load py_str py_repr utcnow insert_one filename file_read body
         Hstr.
  unfold upload_yaml.
  destruct (yaml_extension filename); simpl negb; cbv iota; [|discriminate].
  destruct file_read as [yaml_content|e]; [|discriminate].
  destruct (parse_yaml_content safe_load yaml_content) as [parsed|[m|m|m]] eqn:Ep;
    try discriminate.
  destruct (extract_metadata py_str parsed) as [metadata|[m|m|m]] eqn:Em;
    try discriminate.
  cbv zeta.
  match goal with
  | |- match insert_one ?d with _ => _ end = _ -> _ =>
      set (document := d); destruct (insert_one document) as [id|] eqn:Ei;
      [|discriminate]
  end.
  intros H. injection H as <-. cbn [Upload.document_id Upload.metadata
                                      Upload.sections_count].
  exists yaml_content, parsed, document,
    (fold_left
       (fun acc kv =>
          Dict.set (py_str (fst kv))
                   (convert_numeric_keys_to_strings py_str (snd kv)) acc)
       parsed []),
    (map (fun kv => (fst kv, convert_numeric_keys_to_strings py_str (snd kv)))
         (snd (count_sections parsed))).
  subst document. unfold build_yaml_document.
  cbn [Document.raw_yaml Document.metadata Document.parsed_yaml
       Document.sections Document.sections_count].
  pose proof (count_sections_facts parsed) as (Hget & Hlen).
  split; [reflexivity|]. split; [exact Ep|]. split; [exact Ei|].
  split; [reflexivity|]. split; [reflexivity|].
  split; [exact (metadata_keys py_str parsed metadata Em)|].
  split; [reflexivity|].
  split; [apply convert_as_yaml; [exact Hstr | apply sections_nodup]|].
  split.
  { intros k. rewrite get_converted, Hget.
    now destruct (existsb (String.eqb k) section_keys). }
  split; [now rewrite length_map|]. split; [now rewrite length_map|].
  intros Hfree. split.
  - now apply str_keys_convert.
  - apply str_keys_convert. now apply sections_tuple_free.
Qed.

Lemma upload_yaml_stores_witness :
  (forall s, yaml_text (YStr s) = s)
  /\ exists document,
       insert_first document = Some "65f0c0ffee"
       /\ Document.raw_yaml document = metadata_text
       /\ str_keys (Document.parsed_yaml document) = true.
Proof.
  split; [reflexivity|].
  destruct (upload_yaml_stores
              load_sample yaml_text quoted "2024-01-01" insert_first
              "legal.yaml" (inl metadata_text)
              {| Upload.document_id := "65f0c0ffee";
                 Upload.filename := "legal.yaml";
                 Upload.metadata :=
                   [("name", "legal"); ("description", "Legal domain");
                    ("version", "1")];
                 Upload.sections_count := 1;
                 Upload.message :=
                   "YAML file 'legal.yaml' uploaded and stored successfully" |}
              (fun s => eq_refl) eq_refl)
    as (yaml_content & parsed & document & top & stored & Hr & Hp & Hi & Hraw
        & _ & _ & _ & _ & _ & _ & _ & Hk).
  injection Hr as <-.
  assert (Hparsed : parsed = metadata_document).
  { assert (E : parse_yaml_content load_sample metadata_text
                = Yaml.Ok metadata_document) by reflexivity.
    rewrite E in Hp. now injection Hp. }
  subst parsed.
  exists document. split; [exact Hi|]. split; [exact Hraw|].
  apply Hk. reflexivity.
Defined.

Section StructureFacts.

Variable value_errors : string -> yaml -> list (list string * string).

Lemma field_required_present parsed_yaml field :
  field_required value_errors parsed_yaml field = [] ->
  YDict.mem field parsed_yaml = true.
Proof.
  unfold field_required, YDict.mem.
  now destruct (YDict.get field parsed_yaml).
Qed.

Lemma field_required_missing parsed_yaml field :
  YDict.get field parsed_yaml = None ->
  field_required value_errors parsed_yaml field = [([field], "Field required")].
Proof. unfold field_required. now intros ->. Qed.

Lemma field_optional_missing parsed_yaml field :
  YDict.get field parsed_yaml = None ->
  field_optional value_errors parsed_yaml field = [].
Proof. unfold field_optional. now intros ->. Qed.

Lemma missing_reported parsed_yaml field :
  In field required_fields ->
  YDict.get field parsed_yaml = None ->
  In ([field], "Field required")
     (DomainConfigModel_errors value_errors parsed_yaml).
Proof.
  intros Hin Hnone. unfold DomainConfigModel_errors.
  apply in_app_iff. left. apply in_flat_map. exists field.
  split; [exact Hin|]. rewrite field_required_missing by exact Hnone. now left.
Qed.

Lemma no_errors_all_present parsed_yaml :
  DomainConfigModel_errors value_errors parsed_yaml = [] ->
  forall field, In field required_fields -> YDict.mem field parsed_yaml = true.
Proof.
  unfold DomainConfigModel_errors. intros H field Hin.
  apply app_eq_nil in H as [H _].
  apply field_required_present.
  destruct (field_required value_errors parsed_yaml field) as [|e es] eqn:E;
    [reflexivity|].
  assert (Hin' : In e (flat_map (field_required value_errors parsed_yaml)
                                required_fields)).
  { apply in_flat_map. exists field. split; [exact Hin|]. rewrite E. now left. }
  rewrite H in Hin'. contradiction.
Qed.

End StructureFacts.

(** X20: [validate_yaml_structure] accepts a document only if all its
    keys are texts, it has the three metadata fields and the model
    reports nothing, and then it gives no error and the warnings of
    [check_for_warnings]; a document it does not accept gets an error
    and no warning, whatever sections it has empty; and a missing
    metadata field of a document with texts as keys is reported as
    [<field>: Field required]. *)
Theorem validate_yaml_structure_result :
  forall (value_errors : string -> yaml -> list (list string * string))
         (keywords_error : string) (parsed_yaml : ydict),
    let result :=
      validate_yaml_structure value_errors keywords_error parsed_yaml in
    (ValidationResult.is_valid result = true ->
     ValidationResult.errors result = []
     /\ ValidationResult.warnings result = check_for_warnings parsed_yaml
     /\ forallb is_str_key parsed_yaml = true
     /\ DomainConfigModel_errors value_errors parsed_yaml = []
     /\ forall field, In field required_fields ->
                      YDict.mem field parsed_yaml = true)
    /\ (ValidationResult.is_valid result = false ->
        ValidationResult.errors result <> []
        /\ ValidationResult.warnings result = [])
    /\ (forall field,
           forallb is_str_key parsed_yaml = true ->
           In field required_fields ->
           YDict.get field parsed_yaml = None ->
           ValidationResult.is_valid result = false
           /\ In (field ++ ": Field required")
                 (ValidationResult.errors result)).
Proof.
  intros value_errors keywords_error parsed result. subst result.
  unfold validate_yaml_structure.
  destruct (forallb is_str_key parsed) eqn:Ek; simpl negb; cbv iota.
  - destruct (DomainConfigModel_errors value_errors parsed) as [|e es] eqn:Ee.
    + cbn [ValidationResult.is_valid ValidationResult.errors
           ValidationResult.warnings].
      split; [|split].
      * intros _. repeat split; auto.
        now apply (no_errors_all_present value_errors).
      * discriminate.
      * intros field _ Hin Hnone.
        pose proof (missing_reported value_errors parsed field Hin Hnone) as H.
        rewrite Ee in H. contradiction.
    + cbn [ValidationResult.is_valid ValidationResult.errors
           ValidationResult.warnings].
      split; [|split].
      * discriminate.
      * intros _. split; [discriminate | reflexivity].
      * intros field _ Hin Hnone. split; [reflexivity|].
        pose proof (missing_reported value_errors parsed field Hin Hnone) as H.
        rewrite Ee in H.
        change (field ++ ": Field required")
          with (error_msg ([field], "Field required")).
        now apply in_map.
  - cbn [ValidationResult.is_valid ValidationResult.errors
         ValidationResult.warnings].
    split; [|split].
    + discriminate.
    + intros _. split; [discriminate | reflexivity].
    + discriminate.
Qed.

Lemma validate_yaml_structure_witness :
  ValidationResult.is_valid
    (validate_yaml_structure no_value_errors "keywords must be strings"
                             [(YStr "name", YStr "legal")]) = false
  /\ In ("version" ++ ": Field required")
        (ValidationResult.errors
           (validate_yaml_structure no_value_errors "keywords must be strings"
                                    [(YStr "name", YStr "legal")])).
Proof.
  apply (proj2 (proj2 (validate_yaml_structure_result
                         no_value_errors "keywords must be strings"
                         [(YStr "name", YStr "legal")]))
               "version").
  - reflexivity.
  - simpl. tauto.
  - reflexivity.
Defined.

(** X21: on a file named as YAML whose root is neither empty nor a
    mapping, [upload_yaml] raises with status 500, as for an unexpected
    error, where [validate_yaml] answers with a result that is not valid
    and has the one error of the parser; on an empty document
    [validate_yaml] answers with the three [Field required] errors of
    the metadata, in the order of the fields, and no warning. *)
Theorem routes_on_other_roots :
  forall (safe_load : string -> Yaml.result yaml) (py_str : yaml -> string)
         (py_repr : string -> string) (utcnow : string)
         (insert_one : Document.t -> option string)
         (value_errors : string -> yaml -> list (list string * string))
         (keywords_error : string)
         (filename yaml_content : string) (v : yaml),
    yaml_extension filename = true ->
    safe_load yaml_content = Yaml.Ok v ->
    (forall d, v <> YDict d) ->
    (v <> YNull ->
     upload_yaml safe_load py_str py_repr utcnow insert_one filename
                 (inl yaml_content)
     = HTTPError 500 "An unexpected error occurred: YAML root must be a dictionary"
     /\ validate_yaml safe_load py_repr value_errors keywords_error filename
                      (inl yaml_content)
        = Reply {| ValidationResult.is_valid := false;
                   ValidationResult.errors := ["YAML root must be a dictionary"];
                   ValidationResult.warnings := [] |})
    /\ (v = YNull ->
        validate_yaml safe_load py_repr value_errors keywords_error filename
                      (inl yaml_content)
        = Reply {| ValidationResult.is_valid := false;
                   ValidationResult.errors :=
                     ["name: Field required"; "description: Field required";
                      "version: Field required"];
                   ValidationResult.warnings := [] |}).
Proof.
  intros safe_load py_str py_repr utcnow insert_one value_errors keywords_error
         filename yaml_content v Hext Hload Hdict.
  unfold upload_yaml, validate_yaml. rewrite Hext. simpl negb. cbv iota.
  split.
  - intros Hnull.
    rewrite (parse_root safe_load yaml_content v Hload Hnull Hdict).
    split; reflexivity.
  - intros ->. rewrite (parse_empty safe_load yaml_content Hload).
    reflexivity.
Qed.

Lemma routes_on_other_roots_witness :
  upload_yaml load_sample yaml_text quoted "2024-01-01" insert_first
              "legal.yml" (inl "- a")
  = HTTPError 500 "An unexpected error occurred: YAML root must be a dictionary"
  /\ validate_yaml load_sample quoted no_value_errors "keywords must be strings"
                   "legal.yml" (inl "- a")
     = Reply {| ValidationResult.is_valid := false;
                ValidationResult.errors := ["YAML root must be a dictionary"];
                ValidationResult.warnings := [] |}.
Proof.
  apply (proj1 (routes_on_other_roots
                  load_sample yaml_text quoted "2024-01-01" insert_first
                  no_value_errors "keywords must be strings"
                  "legal.yml" "- a" (YList [YStr "a"])
                  eq_refl eq_refl (fun d H => ltac:(discriminate H)))).
  discriminate.
Defined.
